(** * Staff leave, roster and menu-item screens: a shallow embedding

    The three React components of [StaffLeaveManager.tsx]
    ([StaffLeaveManager], [AddMenuItemForm], [Staff]) are embedded as
    handlers in a small state-and-exception monad over a world made of
    the component state, the hosted backend's tables, the environment's
    answers (session, file reader, image host) and a chronological log of
    what the handler did (requests, notifications, progress values). *)

From stdpp Require Import gmap strings list fin_maps sorting pretty.
From Stdlib Require Import ZArith Lia Ascii.

Local Open Scope string_scope.
Local Open Scope Z_scope.
Local Open Scope list_scope.

(** ** JavaScript values carried by rows and payloads *)

(** Column values.  [VNumText t] stands for [parseFloat(t)]: floating
    point is kept symbolic. *)
Inductive Value :=
  | VNull
  | VStr (s : string)
  | VBool (b : bool)
  | VNumText (t : string).

Global Instance Value_eq_dec : EqDecision Value.
Proof. solve_decision. Defined.

(** A JS object used as a record: column name to value. *)
Abbreviation Row := (gmap string Value).

(** Truthiness of a string ([!!s]). *)
Definition truthy (s : string) : bool := negb (String.eqb s "").

(** Truthiness of a possibly undefined string. *)
Definition truthy_opt (o : option string) : bool :=
  match o with Some s => truthy s | None => false end.

(** [String(x)] for a possibly undefined string, as the query builder
    applies it to a filter operand. *)
Definition js_String (o : option string) : string :=
  match o with Some s => s | None => "undefined" end.

(** Reading a column that the TypeScript interfaces declare as
    [string]; anything else reads as undefined. *)
Definition as_string (v : option Value) : option string :=
  match v with Some (VStr s) => Some s | _ => None end.

(** Thrown values: [Error] instances carry a message, anything else is
    only described ([error instanceof Error] tells them apart). *)
Inductive Exn :=
  | ErrorObj (message : string)
  | NonError (descr : string).

Definition instanceof_Error (e : Exn) : bool :=
  match e with ErrorObj _ => true | NonError _ => false end.

(** ** The backend data collaborator *)

Record Filter := Eq { column : string; operand : string }.

Record Embed := { alias : string; fk : string; target : string; embed_cols : list string }.

Inductive Columns :=
  | Star
  | Cols (cs : list string)
  | StarWith (e : Embed).

Record Order := { by_column : string; ascending : bool }.

Inductive Request :=
  | Select (table : string) (cols : Columns) (filters : list Filter)
           (order : option Order) (single : bool)
  | Insert (table : string) (records : list Row)
  | Update (table : string) (payload : Row) (filters : list Filter)
  | Delete (table : string) (filters : list Filter).

Record Response := { data : list Row; error : option Exn }.

Abbreviation Database := (gmap string (list Row)).

Definition table_rows (db : Database) (t : string) : list Row :=
  default [] (db !! t).

(** Modelled from the spec: the backend's equality filter (section 6,
    "queryable with equality filters").  A row passes when every filtered
    column holds exactly the operand. *)
Definition matches (fs : list Filter) (r : Row) : bool :=
  forallb (λ f, bool_decide (r !! column f = Some (VStr (operand f)))) fs.

Definition project (cs : list string) (r : Row) : Row :=
  filter (λ kv, kv.1 ∈ cs) r.

(** Modelled from the spec: the join on a foreign key (section 6).  The
    joined row's columns are stored flat under [alias.column]; a dangling
    reference contributes nothing. *)
Definition embed_row (db : Database) (e : Embed) (r : Row) : Row :=
  match as_string (r !! fk e) with
  | Some k =>
      match List.filter (matches [Eq "id" k]) (table_rows db (target e)) with
      | j :: _ => r ∪ kmap (λ c, alias e +:+ "." +:+ c) (project (embed_cols e) j)
      | [] => r
      end
  | None => r
  end.

Definition shape (db : Database) (cols : Columns) (r : Row) : Row :=
  match cols with
  | Star => r
  | Cols cs => project cs r
  | StarWith e => embed_row db e r
  end.

(** Modelled from the spec: ordering by one column (section 6).  Text is
    compared bytewise; rows without text in the column come last. *)
Definition key_leb (a b : option string) : bool :=
  match a, b with
  | Some x, Some y => String.leb x y
  | Some _, None => true
  | None, Some _ => false
  | None, None => true
  end.

Definition row_leb (o : Order) (r1 r2 : Row) : bool :=
  let k1 := as_string (r1 !! by_column o) in
  let k2 := as_string (r2 !! by_column o) in
  if ascending o then key_leb k1 k2 else key_leb k2 k1.

Definition sort_rows (o : option Order) (rs : list Row) : list Row :=
  match o with
  | Some o => merge_sort (λ r1 r2, Is_true (row_leb o r1 r2)) rs
  | None => rs
  end.

Definition run_select (db : Database) (t : string) (cols : Columns)
    (fs : list Filter) (o : option Order) : list Row :=
  shape db cols <$> sort_rows o (List.filter (matches fs) (table_rows db t)).

(** Modelled from the spec: insert, update-by-filter and delete-by-filter
    (section 6).  Column defaults assigned by the backend are not
    modelled; an update overwrites exactly the payload's columns. *)
Definition apply_request (db : Database) (req : Request) : Database * Response :=
  match req with
  | Select t cols fs o single =>
      let rs := run_select db t cols fs o in
      if single then
        match rs with
        | [r] => (db, {| data := [r]; error := None |})
        | _ => (db, {| data := []; error := Some (NonError "PGRST116") |})
        end
      else (db, {| data := rs; error := None |})
  | Insert t recs =>
      (<[t := table_rows db t ++ recs]> db, {| data := []; error := None |})
  | Update t payload fs =>
      (<[t := (λ r, if matches fs r then payload ∪ r else r) <$> table_rows db t]> db,
       {| data := []; error := None |})
  | Delete t fs =>
      (<[t := List.filter (λ r, negb (matches fs r)) (table_rows db t)]> db,
       {| data := []; error := None |})
  end.

(** ** Files, the file reader and the image host *)

Record File := { file_name : string; size : Z; type : string }.

Inductive ReadResult :=
  | ReadLoaded (result : option string)
  | ReadFailed (e : Exn).

Record HttpRequest := { url : string; method : string; body : list (string * string) }.

Record HostImage := { image_url_of : option string }.

Record UploadData := { status_code : option Z; image : option HostImage }.

Inductive JsonResult :=
  | JsonInvalid (e : Exn)
  | JsonData (d : UploadData).

Record HttpResponse := { ok : bool; status : Z; json : JsonResult }.

Inductive FetchResult :=
  | FetchRejected (e : Exn)
  | FetchResponse (r : HttpResponse).

(** What the outside answers: the authenticated user, the requests the
    backend refuses, what the file reader yields and what the image host
    replies. *)
Record Env := {
  auth_user : option string;
  refuses : Request → option Exn;
  reader : File → ReadResult;
  http : HttpRequest → FetchResult
}.

(** ** Observable events *)

Record ToastMsg := mkToast { title : string; description : option string; variant : option string }.

Inductive Event :=
  | Toast (t : ToastMsg)
  | ConsoleError (label : string) (e : Exn)
  | ConsoleLog (label : string)
  | Backend (req : Request)
  | ReadAsDataURL (f : File)
  | Fetch (req : HttpRequest)
  | SetUploadProgress (n : Z)
  | SetIsUploading (b : bool)
  | Callback (name : string).

(** ** The handler monad *)

Record World (St : Type) := mkWorld {
  ui : St;
  db : Database;
  env : Env;
  log : list Event
}.
Arguments mkWorld {St}.
Arguments ui {St}.
Arguments db {St}.
Arguments env {St}.
Arguments log {St}.

Inductive Outcome (A : Type) :=
  | Returned (a : A)
  | Thrown (e : Exn).
Arguments Returned {A}.
Arguments Thrown {A}.

Definition M (St A : Type) : Type := World St → Outcome A * World St.

Global Instance M_ret {St} : MRet (M St) := λ A a w, (Returned a, w).

Global Instance M_bind {St} : MBind (M St) := λ A B f m w,
  match m w with
  | (Returned a, w') => f a w'
  | (Thrown e, w') => (Thrown e, w')
  end.

Section Monad.
Context {St : Type}.

Definition throw {A} (e : Exn) : M St A := λ w, (Thrown e, w).

(** [try { body } catch (e) { handler e }] *)
Definition try_catch {A} (body : M St A) (handler : Exn → M St A) : M St A := λ w,
  match body w with
  | (Returned a, w') => (Returned a, w')
  | (Thrown e, w') => handler e w'
  end.

(** [try { body } finally { final }] *)
Definition try_finally {A} (body : M St A) (final : M St unit) : M St A := λ w,
  match body w with
  | (o, w') =>
      match final w' with
      | (Returned _, w'') => (o, w'')
      | (Thrown e, w'') => (Thrown e, w'')
      end
  end.

Definition emit (e : Event) : M St unit := λ w,
  (Returned (), mkWorld (ui w) (db w) (env w) (log w ++ [e])).

(** A state setter: the next render sees the updated state. *)
Definition set_state (f : St → St) : M St unit := λ w,
  (Returned (), mkWorld (f (ui w)) (db w) (env w) (log w)).

Definition ask : M St Env := λ w, (Returned (env w), w).

Definition toast (t : ToastMsg) : M St unit := emit (Toast t).

(** One call to the backend: logged, refused by the environment or
    applied to the tables. *)
Definition supabase (req : Request) : M St Response := λ w,
  let w1 := mkWorld (ui w) (db w) (env w) (log w ++ [Backend req]) in
  match refuses (env w) req with
  | Some e => (Returned {| data := []; error := Some e |}, w1)
  | None =>
      let '(db', resp) := apply_request (db w) req in
      (Returned resp, mkWorld (ui w) db' (env w) (log w1))
  end.

(** [supabase.auth.getUser()]: the user's id, if a session exists. *)
Definition auth_getUser : M St (option string) := λ w, (Returned (auth_user (env w)), w).

(** The tenant lookup shared by all three components:
    [from("profiles").select("restaurant_id").eq("id", uid).single()]. *)
Definition select_profile (uid : string) : M St Response :=
  supabase (Select "profiles" (Cols ["restaurant_id"]) [Eq "id" uid] None true).

Definition run {A} (m : M St A) (w : World St) : World St := (m w).2.
Definition result {A} (m : M St A) (w : World St) : Outcome A := (m w).1.
End Monad.

(** Events appended by a handler. *)
Definition new_events {St} (w w' : World St) : list Event := drop (length (log w)) (log w').

Definition toasts (l : list Event) : list ToastMsg :=
  omap (λ e, match e with Toast t => Some t | _ => None end) l.

Definition requests (l : list Event) : list Request :=
  omap (λ e, match e with Backend r => Some r | _ => None end) l.

Definition fetches (l : list Event) : list HttpRequest :=
  omap (λ e, match e with Fetch r => Some r | _ => None end) l.

Definition progress_values (l : list Event) : list Z :=
  omap (λ e, match e with SetUploadProgress n => Some n | _ => None end) l.

Definition inserted (l : list Event) : list (string * Row) :=
  r ← requests l;
  match r with Insert t recs => (λ x, (t, x)) <$> recs | _ => [] end.

(** ** Dates, as the leave table computes with them *)

(** A JS [Date]: its time value, milliseconds since the epoch in UTC;
    [None] for Invalid Date (time value NaN). *)
Abbreviation Date := (option Z).

(** What the browser decides: its time zone and how it reads dates that
    ECMAScript leaves to the implementation.  [LocalTZA t isUTC] is the
    offset of local time from UTC, in milliseconds, at the UTC time value
    [t] when [isUTC], and at the local time value [t] otherwise (a local
    time that is repeated or skipped at a clock change is read with the
    offset before the change).  [Date_parse_other] reads the strings
    outside the date-time format treated by [Date_parse] below, and
    [Date_of_number] is the time value of a number, given by its text. *)
Record Browser := {
  LocalTZA : Z → bool → Z;
  Date_parse_other : string → Date;
  Date_of_number : string → Date
}.

Definition digit_of (a : ascii) : option Z :=
  let n := Z.of_nat (nat_of_ascii a) in
  if (48 <=? n) && (n <=? 57) then Some (n - 48) else None.

Fixpoint digits_value (acc : Z) (s : string) : option Z :=
  match s with
  | EmptyString => Some acc
  | String a s' => d ← digit_of a; digits_value (10 * acc + d) s'
  end.

Definition is_leap (y : Z) : bool :=
  ((y mod 4 =? 0) && negb (y mod 100 =? 0)) || (y mod 400 =? 0).

Definition days_in_month (y m : Z) : Z :=
  if m =? 2 then (if is_leap y then 29 else 28)
  else if (m =? 4) || (m =? 6) || (m =? 9) || (m =? 11) then 30
  else 31.

Definition valid_civil (y m d : Z) : bool :=
  (1 <=? m) && (m <=? 12) && (1 <=? d) && (d <=? days_in_month y m).

(** Day number of a civil date, counted from 1970-01-01. *)
Definition days_from_civil (y m d : Z) : Z :=
  let y' := if m <=? 2 then y - 1 else y in
  let era := y' / 400 in
  let yoe := y' - era * 400 in
  let mp := (m + 9) mod 12 in
  let doy := (153 * mp + 2) / 5 + d - 1 in
  let doe := yoe * 365 + yoe / 4 - yoe / 100 + doy in
  era * 146097 + doe - 719468.

(** The civil date (year, month 1 to 12, day) of a day number. *)
Definition civil_from_days (z : Z) : Z * Z * Z :=
  let z' := z + 719468 in
  let era := z' / 146097 in
  let doe := z' - era * 146097 in
  let yoe := (doe - doe / 1460 + doe / 36524 - doe / 146096) / 365 in
  let doy := doe - (365 * yoe + yoe / 4 - yoe / 100) in
  let mp := (5 * doy + 2) / 153 in
  let d := doy - (153 * mp + 2) / 5 + 1 in
  let m := if mp <? 10 then mp + 3 else mp - 9 in
  (yoe + era * 400 + (if m <=? 2 then 1 else 0), m, d).

(** The date-only form [YYYY-MM-DD] that a date input and a date column
    produce. *)
Definition parse_iso_date (s : string) : option (Z * Z * Z) :=
  if bool_decide (String.length s = 10%nat
                  ∧ String.get 4 s = Some "-"%char ∧ String.get 7 s = Some "-"%char) then
    y ← digits_value 0 (String.substring 0 4 s);
    m ← digits_value 0 (String.substring 5 2 s);
    d ← digits_value 0 (String.substring 8 2 s);
    if valid_civil y m d then Some (y, m, d) else None
  else None.

(** *** Time values (ECMAScript, "Time Values and Time Range") *)

Definition ms_per_day : Z := 86400000.

Definition Day (t : Z) : Z := t / ms_per_day.
Definition TimeWithinDay (t : Z) : Z := t mod ms_per_day.

Definition YearFromTime (t : Z) : Z := (civil_from_days (Day t)).1.1.
(** Months are counted from 0. *)
Definition MonthFromTime (t : Z) : Z := (civil_from_days (Day t)).1.2 - 1.
Definition DateFromTime (t : Z) : Z := (civil_from_days (Day t)).2.
Definition HourFromTime (t : Z) : Z := (t / 3600000) mod 24.
Definition MinFromTime (t : Z) : Z := (t / 60000) mod 60.
Definition SecFromTime (t : Z) : Z := (t / 1000) mod 60.
Definition msFromTime (t : Z) : Z := t mod 1000.

Definition LocalTime (b : Browser) (t : Z) : Z := t + LocalTZA b t true.
Definition UTC (b : Browser) (t : Z) : Z := t - LocalTZA b t false.

Definition MakeTime (hour min sec ms : Z) : Z :=
  hour * 3600000 + min * 60000 + sec * 1000 + ms.

Definition MakeDay (year month date : Z) : Z :=
  let ym := year + month / 12 in
  let mn := month mod 12 in
  days_from_civil ym (mn + 1) 1 + date - 1.

Definition MakeDate (day time : Z) : Z := day * ms_per_day + time.

Definition TimeClip (time : Z) : Date :=
  if Z.abs time <=? 8640000000000000 then Some time else None.

(** *** The [Date] methods used by date-fns *)

Definition getFullYear (b : Browser) (t : Z) : Z := YearFromTime (LocalTime b t).
Definition getMonth (b : Browser) (t : Z) : Z := MonthFromTime (LocalTime b t).
Definition getDate (b : Browser) (t : Z) : Z := DateFromTime (LocalTime b t).
Definition getHours (b : Browser) (t : Z) : Z := HourFromTime (LocalTime b t).
Definition getMinutes (b : Browser) (t : Z) : Z := MinFromTime (LocalTime b t).
Definition getSeconds (b : Browser) (t : Z) : Z := SecFromTime (LocalTime b t).
Definition getMilliseconds (b : Browser) (t : Z) : Z := msFromTime (LocalTime b t).

(** [date.setHours(hour, min, sec, ms)] *)
Definition setHours (b : Browser) (t : Z) (hour min sec ms : Z) : Date :=
  TimeClip (UTC b (MakeDate (Day (LocalTime b t)) (MakeTime hour min sec ms))).

(** [date.setDate(dt)] *)
Definition setDate (b : Browser) (t : Z) (dt : Z) : Date :=
  let t' := LocalTime b t in
  TimeClip (UTC b (MakeDate (MakeDay (YearFromTime t') (MonthFromTime t') dt)
                            (TimeWithinDay t'))).

(** [Date.UTC(year, month, date, hours, minutes, seconds, ms)]: a year
    from 0 to 99 stands for 1900 + year. *)
Definition Date_UTC (year month date hours minutes seconds ms : Z) : Date :=
  let yr := if (0 <=? year) && (year <=? 99) then 1900 + year else year in
  TimeClip (MakeDate (MakeDay yr month date) (MakeTime hours minutes seconds ms)).

(** [date.setUTCFullYear(year)] *)
Definition setUTCFullYear (d : Date) (year : Z) : Date :=
  let t := default 0 d in
  TimeClip (MakeDate (MakeDay year (MonthFromTime t) (DateFromTime t)) (TimeWithinDay t)).

(** *** Reading a date *)

Definition two_digits (s : string) : option (Z * string) :=
  match s with
  | String a (String b rest) =>
      x ← digit_of a; y ← digit_of b; Some (10 * x + y, rest)
  | _ => None
  end.

Definition three_digits (s : string) : option (Z * string) :=
  match s with
  | String a (String b (String c rest)) =>
      x ← digit_of a; y ← digit_of b; z ← digit_of c; Some (100 * x + 10 * y + z, rest)
  | _ => None
  end.

(** The time zone offset that may end a date-time string: nothing, [Z]
    or [+HH:mm] / [-HH:mm].  The result is in minutes; the outer [None]
    is a string of another form. *)
Definition parse_offset (s : string) : option (option Z) :=
  match s with
  | EmptyString => Some None
  | String "Z" EmptyString => Some (Some 0)
  | String sign rest =>
      if Ascii.eqb sign "+" || Ascii.eqb sign "-" then
        '(hh, rest) ← two_digits rest;
        match rest with
        | String ":" rest =>
            '(mm, rest) ← two_digits rest;
            if (rest =? "")%string && (hh <=? 23) && (mm <=? 59) then
              Some (Some ((if Ascii.eqb sign "+" then 1 else -1) * (hh * 60 + mm)))
            else None
        | _ => None
        end
      else None
  end.

(** [HH:mm], [HH:mm:ss] or [HH:mm:ss.sss], then the offset.  The result
    is the time within the day and the offset. *)
Definition parse_time (s : string) : option (Z * option Z) :=
  '(hh, rest) ← two_digits s;
  match rest with
  | String ":" rest =>
      '(mm, rest) ← two_digits rest;
      '(ss, ms, rest) ←
        match rest with
        | String ":" rest' =>
            '(ss, rest') ← two_digits rest';
            match rest' with
            | String "." rest'' => '(ms, rest'') ← three_digits rest''; Some (ss, ms, rest'')
            | _ => Some (ss, 0, rest')
            end
        | _ => Some (0, 0, rest)
        end;
      offset ← parse_offset rest;
      if ((hh <=? 23) && (mm <=? 59) && (ss <=? 59))
         || ((hh =? 24) && (mm =? 0) && (ss =? 0) && (ms =? 0)) then
        Some (MakeTime hh mm ss ms, offset)
      else None
  | _ => None
  end.

(** [Date.parse].  The forms of the ECMAScript date-time string format
    treated here are [YYYY-MM-DD], read as UTC midnight, and
    [YYYY-MM-DDT] followed by a time, read in the given offset and as
    local time without one; the day must exist in its month.  Every other
    string is read as the browser decides. *)
Definition Date_parse (b : Browser) (s : string) : Date :=
  match parse_iso_date (String.substring 0 10 s) with
  | Some (y, m, d) =>
      let day := MakeDay y (m - 1) d in
      match String.substring 10 (String.length s - 10)%nat s with
      | EmptyString => TimeClip (MakeDate day 0)
      | String "T" time =>
          match parse_time time with
          | Some (time, Some offset) => TimeClip (MakeDate day time - offset * 60000)
          | Some (time, None) => TimeClip (UTC b (MakeDate day time))
          | None => Date_parse_other b s
          end
      | _ => Date_parse_other b s
      end
  | None => Date_parse_other b s
  end.

(** [new Date(value)] on a column value: a missing column is undefined,
    null and booleans are converted to numbers, text is parsed. *)
Definition new_Date (b : Browser) (value : option Value) : Date :=
  match value with
  | None => None
  | Some VNull => TimeClip 0
  | Some (VBool v) => TimeClip (if v then 1 else 0)
  | Some (VNumText t) => Date_of_number b t
  | Some (VStr s) => Date_parse b s
  end.

(** *** date-fns

    [differenceInDays] and what it calls, as date-fns 3 defines them; a
    date argument that is Invalid Date makes the result NaN, here [None]. *)

(** [a || b] on numbers. *)
Definition or_num (a b : Z) : Z := if a =? 0 then b else a.

(** The sign of the first local field, from the year down to the
    millisecond, in which the two dates differ. *)
Definition compareLocalAsc (b : Browser) (dateLeft dateRight : Date) : option Z :=
  l ← dateLeft; r ← dateRight;
  let diff :=
    or_num (getFullYear b l - getFullYear b r)
   (or_num (getMonth b l - getMonth b r)
   (or_num (getDate b l - getDate b r)
   (or_num (getHours b l - getHours b r)
   (or_num (getMinutes b l - getMinutes b r)
   (or_num (getSeconds b l - getSeconds b r)
           (getMilliseconds b l - getMilliseconds b r)))))) in
  Some (if diff <? 0 then -1 else if 0 <? diff then 1 else diff).

Definition startOfDay (b : Browser) (date : Date) : Date :=
  t ← date; setHours b t 0 0 0 0.

(** The local fields of the date read as a UTC time value, subtracted
    from the date. *)
Definition getTimezoneOffsetInMilliseconds (b : Browser) (date : Date) : option Z :=
  t ← date;
  let utcDate := Date_UTC (getFullYear b t) (getMonth b t) (getDate b t) (getHours b t)
                          (getMinutes b t) (getSeconds b t) (getMilliseconds b t) in
  u ← setUTCFullYear utcDate (getFullYear b t);
  Some (t - u).

(** [Math.round(x / d)] for integers [x] and [d > 0]: halves go up. *)
Definition Math_round_div (x d : Z) : Z := (2 * x + d) / (2 * d).

Definition differenceInCalendarDays (b : Browser) (dateLeft dateRight : Date) : option Z :=
  let startOfDayLeft := startOfDay b dateLeft in
  let startOfDayRight := startOfDay b dateRight in
  l ← startOfDayLeft; ol ← getTimezoneOffsetInMilliseconds b startOfDayLeft;
  r ← startOfDayRight; or ← getTimezoneOffsetInMilliseconds b startOfDayRight;
  let timestampLeft := l - ol in
  let timestampRight := r - or in
  Some (Math_round_div (timestampLeft - timestampRight) ms_per_day).

(** [differenceInDays]: the number of full local days between two dates,
    NaN when either is invalid. *)
Definition differenceInDays (b : Browser) (dateLeft dateRight : Date) : option Z :=
  sign ← compareLocalAsc b dateLeft dateRight;
  calendarDays ← differenceInCalendarDays b dateLeft dateRight;
  let difference := Z.abs calendarDays in
  let dateLeft' := t ← dateLeft; setDate b t (getDate b t - sign * difference) in
  (* the last calendar day is not full *)
  let isLastDayNotFull :=
    if bool_decide (compareLocalAsc b dateLeft' dateRight = Some (- sign)) then 1 else 0 in
  Some (sign * (difference - isLastDayNotFull)).

(** ** The leave screen *)

Module StaffLeaveManager.

Record State := {
  isAddLeaveOpen : bool;
  selectedStaffId : string;
  startDate : string;
  endDate : string;
  reason : string;
  (* data of the three queries *)
  restaurantId : option string;
  staff : list Row;
  leaves : list Row
}.

Definition init : State :=
  {| isAddLeaveOpen := false; selectedStaffId := ""; startDate := ""; endDate := "";
     reason := ""; restaurantId := None; staff := []; leaves := [] |}.

Definition setIsAddLeaveOpen (v : bool) (s : State) : State :=
  {| isAddLeaveOpen := v; selectedStaffId := selectedStaffId s; startDate := startDate s;
     endDate := endDate s; reason := reason s; restaurantId := restaurantId s;
     staff := staff s; leaves := leaves s |}.
Definition setSelectedStaffId (v : string) (s : State) : State :=
  {| isAddLeaveOpen := isAddLeaveOpen s; selectedStaffId := v; startDate := startDate s;
     endDate := endDate s; reason := reason s; restaurantId := restaurantId s;
     staff := staff s; leaves := leaves s |}.
Definition setStartDate (v : string) (s : State) : State :=
  {| isAddLeaveOpen := isAddLeaveOpen s; selectedStaffId := selectedStaffId s; startDate := v;
     endDate := endDate s; reason := reason s; restaurantId := restaurantId s;
     staff := staff s; leaves := leaves s |}.
Definition setEndDate (v : string) (s : State) : State :=
  {| isAddLeaveOpen := isAddLeaveOpen s; selectedStaffId := selectedStaffId s;
     startDate := startDate s; endDate := v; reason := reason s;
     restaurantId := restaurantId s; staff := staff s; leaves := leaves s |}.
Definition setReason (v : string) (s : State) : State :=
  {| isAddLeaveOpen := isAddLeaveOpen s; selectedStaffId := selectedStaffId s;
     startDate := startDate s; endDate := endDate s; reason := v;
     restaurantId := restaurantId s; staff := staff s; leaves := leaves s |}.
Definition set_restaurantId (v : option string) (s : State) : State :=
  {| isAddLeaveOpen := isAddLeaveOpen s; selectedStaffId := selectedStaffId s;
     startDate := startDate s; endDate := endDate s; reason := reason s;
     restaurantId := v; staff := staff s; leaves := leaves s |}.
Definition set_staff (v : list Row) (s : State) : State :=
  {| isAddLeaveOpen := isAddLeaveOpen s; selectedStaffId := selectedStaffId s;
     startDate := startDate s; endDate := endDate s; reason := reason s;
     restaurantId := restaurantId s; staff := v; leaves := leaves s |}.
Definition set_leaves (v : list Row) (s : State) : State :=
  {| isAddLeaveOpen := isAddLeaveOpen s; selectedStaffId := selectedStaffId s;
     startDate := startDate s; endDate := endDate s; reason := reason s;
     restaurantId := restaurantId s; staff := staff s; leaves := v |}.

Abbreviation M := (M State).

(** The "restaurant-id" query. *)
Definition restaurantId_queryFn : M (option string) :=
  user ← auth_getUser;
  match user with
  | None => throw (ErrorObj "No user found")
  | Some uid =>
      r ← select_profile uid;
      mret (userProfile ← head (data r); as_string (userProfile !! "restaurant_id"))
  end.

(** The "staff" query of this screen (options of the staff selector). *)
Definition staff_queryFn (s : State) : M (list Row) :=
  r ← supabase (Select "staff" (Cols ["id"; "first_name"; "last_name"; "position"])
                  [Eq "restaurant_id" (js_String (restaurantId s))] None false);
  match error r with
  | Some e => throw e
  | None => mret (data r)
  end.

Definition leaves_queryFn (s : State) : M (list Row) :=
  r ← supabase (Select "staff_leaves"
                  (StarWith {| alias := "staff"; fk := "staff_id"; target := "staff";
                               embed_cols := ["first_name"; "last_name"; "position"] |})
                  [Eq "restaurant_id" (js_String (restaurantId s))]
                  (Some {| by_column := "start_date"; ascending := false |}) false);
  match error r with
  | Some e => throw e
  | None => mret (data r)
  end.

(** Running a query stores its data; a failed run keeps the data it had. *)
Definition restaurantId_query : M unit :=
  try_catch (d ← restaurantId_queryFn; set_state (set_restaurantId d)) (λ _, mret ()).

(** [enabled: !!restaurantId] *)
Definition staff_query (s : State) : M unit :=
  if truthy_opt (restaurantId s) then
    try_catch (d ← staff_queryFn s; set_state (set_staff d)) (λ _, mret ())
  else mret ().

Definition leaves_query (s : State) : M unit :=
  if truthy_opt (restaurantId s) then
    try_catch (d ← leaves_queryFn s; set_state (set_leaves d)) (λ _, mret ())
  else mret ().

Definition refetchLeaves (s : State) : M unit :=
  try_catch (d ← leaves_queryFn s; set_state (set_leaves d)) (λ _, mret ()).

Definition str_value (o : option string) : Value :=
  match o with Some s => VStr s | None => VNull end.

Definition handleAddLeave (s : State) : M unit :=
  if negb (truthy (selectedStaffId s)) || negb (truthy (startDate s))
     || negb (truthy (endDate s)) || negb (truthy_opt (restaurantId s)) then
    toast (mkToast "Missing information" (Some "Please fill in all required fields")
                   (Some "destructive"))
  else
    try_catch
      (r ← supabase (Insert "staff_leaves"
                       [ {[ "staff_id" := VStr (selectedStaffId s);
                            "restaurant_id" := str_value (restaurantId s);
                            "start_date" := VStr (startDate s);
                            "end_date" := VStr (endDate s);
                            "reason" := VStr (reason s);
                            "status" := VStr "pending" ]} ]);
       match error r with
       | Some e => throw e
       | None =>
           toast (mkToast "Leave request submitted"
                          (Some "The leave request has been added successfully") None);;
           (* Reset form *)
           set_state (setSelectedStaffId "");;
           set_state (setStartDate "");;
           set_state (setEndDate "");;
           set_state (setReason "");;
           set_state (setIsAddLeaveOpen false);;
           refetchLeaves s
       end)
      (λ error,
         emit (ConsoleError "Error adding leave:" error);;
         toast (mkToast "Error" (Some "Failed to add leave request. Please try again.")
                      (Some "destructive"))).

(** The [status] argument of [updateLeaveStatus]: ['approved' | 'rejected']. *)
Inductive Decision := approved | rejected.

Definition status_text (d : Decision) : string :=
  match d with approved => "approved" | rejected => "rejected" end.

Definition updateLeaveStatus (s : State) (leaveId : string) (status : Decision) : M unit :=
  try_catch
    (r ← supabase (Update "staff_leaves" {[ "status" := VStr (status_text status) ]}
                     [Eq "id" leaveId]);
     match error r with
     | Some e => throw e
     | None =>
         toast (mkToast ("Leave " +:+ status_text status)
                        (Some ("The leave request has been " +:+ status_text status))
                        None);;
         refetchLeaves s
     end)
    (λ error,
       emit (ConsoleError "Error updating leave status:" error);;
       toast (mkToast "Error" (Some "Failed to update leave status. Please try again.")
                      (Some "destructive"))).

Definition getStatusBadge (status : option Value) : string :=
  match status with
  | Some (VStr "approved") => "Approved"
  | Some (VStr "rejected") => "Rejected"
  | _ => "Pending"
  end.

(** A rendered approve/reject button: clicking it calls
    [updateLeaveStatus on_id on_status]. *)
Record ActionButton := { on_id : string; on_status : Decision }.

Record LeaveRowView := {
  key : string;
  staff_name : string;
  day_count : option Z;      (* the "N days" badge; [None] is NaN *)
  reason_cell : string;
  status_badge : string;
  actions : list ActionButton
}.

(** The body of [leaves.map((leave) => <TableRow ...>)], in the browser
    [b]. *)
Definition render_row (b : Browser) (leave : Row) : LeaveRowView :=
  let id := js_String (as_string (leave !! "id")) in
  {| key := id;
     staff_name := default "" (as_string (leave !! "staff.first_name")) +:+ " "
                   +:+ default "" (as_string (leave !! "staff.last_name"));
     day_count :=
       (λ n, n + 1) <$> differenceInDays b (new_Date b (leave !! "end_date"))
                                            (new_Date b (leave !! "start_date"));
     reason_cell :=
       (let r := default "" (as_string (leave !! "reason")) in
        if truthy r then r else "No reason provided");
     status_badge := getStatusBadge (leave !! "status");
     actions :=
       if bool_decide (leave !! "status" = Some (VStr "pending")) then
         [ {| on_id := id; on_status := approved |};
           {| on_id := id; on_status := rejected |} ]
       else [] |}.

Definition render_table (b : Browser) (s : State) : list LeaveRowView :=
  render_row b <$> leaves s.

End StaffLeaveManager.

(** ** The menu-item form *)

(** [s.split(c)] *)
Fixpoint split_on (c : ascii) (s : string) : list string :=
  match s with
  | EmptyString => [EmptyString]
  | String a s' =>
      if Ascii.eqb a c then EmptyString :: split_on c s'
      else match split_on c s' with
           | x :: xs => String a x :: xs
           | [] => [String a EmptyString]
           end
  end.

Module AddMenuItemForm.

Record FormData := {
  name : string;
  description : string;
  price : string;
  category : string;
  image_url : string
}.

Record State := {
  isSubmitting : bool;
  selectedFile : option File;
  isUploading : bool;
  uploadedImageUrl : string;
  uploadProgress : Z;
  userProfile : option Row;   (* data of the "userProfile" query *)
  form : FormData             (* values held by [useForm] *)
}.

Definition defaultValues : FormData :=
  {| name := ""; description := ""; price := ""; category := ""; image_url := "" |}.

Definition init : State :=
  {| isSubmitting := false; selectedFile := None; isUploading := false;
     uploadedImageUrl := ""; uploadProgress := 0; userProfile := None;
     form := defaultValues |}.

Definition with_isSubmitting (v : bool) (s : State) : State :=
  {| isSubmitting := v; selectedFile := selectedFile s; isUploading := isUploading s;
     uploadedImageUrl := uploadedImageUrl s; uploadProgress := uploadProgress s;
     userProfile := userProfile s; form := form s |}.
Definition with_selectedFile (v : option File) (s : State) : State :=
  {| isSubmitting := isSubmitting s; selectedFile := v; isUploading := isUploading s;
     uploadedImageUrl := uploadedImageUrl s; uploadProgress := uploadProgress s;
     userProfile := userProfile s; form := form s |}.
Definition with_isUploading (v : bool) (s : State) : State :=
  {| isSubmitting := isSubmitting s; selectedFile := selectedFile s; isUploading := v;
     uploadedImageUrl := uploadedImageUrl s; uploadProgress := uploadProgress s;
     userProfile := userProfile s; form := form s |}.
Definition with_uploadedImageUrl (v : string) (s : State) : State :=
  {| isSubmitting := isSubmitting s; selectedFile := selectedFile s;
     isUploading := isUploading s; uploadedImageUrl := v;
     uploadProgress := uploadProgress s; userProfile := userProfile s; form := form s |}.
Definition with_uploadProgress (v : Z) (s : State) : State :=
  {| isSubmitting := isSubmitting s; selectedFile := selectedFile s;
     isUploading := isUploading s; uploadedImageUrl := uploadedImageUrl s;
     uploadProgress := v; userProfile := userProfile s; form := form s |}.
Definition with_userProfile (v : option Row) (s : State) : State :=
  {| isSubmitting := isSubmitting s; selectedFile := selectedFile s;
     isUploading := isUploading s; uploadedImageUrl := uploadedImageUrl s;
     uploadProgress := uploadProgress s; userProfile := v; form := form s |}.
Definition with_form (v : FormData) (s : State) : State :=
  {| isSubmitting := isSubmitting s; selectedFile := selectedFile s;
     isUploading := isUploading s; uploadedImageUrl := uploadedImageUrl s;
     uploadProgress := uploadProgress s; userProfile := userProfile s; form := v |}.

Definition with_image_url (v : string) (d : FormData) : FormData :=
  {| name := name d; description := description d; price := price d;
     category := category d; image_url := v |}.

Abbreviation M := (M State).

Definition setIsSubmitting (v : bool) : M unit := set_state (with_isSubmitting v).
Definition setSelectedFile (v : option File) : M unit := set_state (with_selectedFile v).
Definition setUploadedImageUrl (v : string) : M unit := set_state (with_uploadedImageUrl v).
(** The two setters behind the progress bar also record what it shows. *)
Definition setIsUploading (v : bool) : M unit :=
  set_state (with_isUploading v);; emit (SetIsUploading v).
Definition setUploadProgress (v : Z) : M unit :=
  set_state (with_uploadProgress v);; emit (SetUploadProgress v).
(** [form.setValue('image_url', v)] *)
Definition form_setValue_image_url (v : string) : M unit :=
  set_state (λ s, with_form (with_image_url v (form s)) s).

(** The "userProfile" query. *)
Definition userProfile_queryFn : M Row :=
  user ← auth_getUser;
  match user with
  | None => throw (ErrorObj "Not authenticated")
  | Some uid =>
      r ← select_profile uid;
      match error r with
      | Some e => throw e
      | None =>
          match head (data r) with
          | Some profile =>
              if truthy_opt (as_string (profile !! "restaurant_id")) then
                emit (ConsoleLog "Fetched user profile:");; mret profile
              else throw (ErrorObj "No restaurant assigned")
          | None => throw (ErrorObj "No restaurant assigned")
          end
      end
  end.

Definition userProfile_query : M unit :=
  try_catch (p ← userProfile_queryFn; set_state (with_userProfile (Some p)))
            (λ _, mret ()).

(** [files] is [e.target.files]: null, or the list of chosen files. *)
Definition handleFileChange (files : option (list File)) : M unit :=
  match files ≫= head with
  | Some file =>
      (* Check file size (max 5MB) *)
      if 5 * 1024 * 1024 <? size file then
        toast (mkToast "File too large" (Some "Maximum file size is 5MB")
                       (Some "destructive"))
      (* Check file type *)
      else if negb (String.prefix "image/" (type file)) then
        toast (mkToast "Invalid file type" (Some "Please select an image file")
                       (Some "destructive"))
      else setSelectedFile (Some file)
  | None => mret ()
  end.

(** [reader.readAsDataURL(selectedFile); await base64Promise] *)
Definition read_base64 (file : File) : M (option string) :=
  emit (ReadAsDataURL file);;
  e ← ask;
  match reader e file with
  | ReadLoaded (Some result) =>
      if truthy result then mret (split_on "," result !! 1%nat)
      else throw (ErrorObj "Failed to convert file to base64")
  | ReadLoaded None => throw (ErrorObj "Failed to convert file to base64")
  | ReadFailed err => throw err
  end.

Definition fetch (req : HttpRequest) : M HttpResponse :=
  emit (Fetch req);;
  e ← ask;
  match http e req with
  | FetchRejected err => throw err
  | FetchResponse r => mret r
  end.

Definition response_json (r : HttpResponse) : M UploadData :=
  match json r with
  | JsonInvalid err => throw err
  | JsonData d => mret d
  end.

(** [data.status_code === 200 && data.image && data.image.url] *)
Definition accepted_url (d : UploadData) : option string :=
  if bool_decide (status_code d = Some 200) then
    i ← image d; u ← image_url_of i; if truthy u then Some u else None
  else None.

Definition uploadImage (s : State) : M (option string) :=
  match selectedFile s with
  | None => mret None
  | Some file =>
      try_finally
        (try_catch
           (setIsUploading true;;
            setUploadProgress 10;;
            (* Convert file to base64 *)
            base64String ← read_base64 file;
            setUploadProgress 30;;
            (* Prepare form data for API call *)
            let formData := [("key", "6d207e02198a847aa98d0a2a901485a5");
                             ("source", js_String base64String);
                             ("format", "json")] in
            setUploadProgress 50;;
            (* Make API call to freeimage.host *)
            response ← fetch {| url := "https://freeimage.host/api/1/upload";
                                method := "POST"; body := formData |};
            setUploadProgress 80;;
            if negb (ok response) then
              throw (ErrorObj ("Upload failed with status: " +:+ pretty (status response)))
            else
              d ← response_json response;
              emit (ConsoleLog "Image upload response:");;
              setUploadProgress 100;;
              match accepted_url d with
              | Some u =>
                  setUploadedImageUrl u;;
                  form_setValue_image_url u;;
                  toast (mkToast "Image uploaded successfully" None None);;
                  mret (Some u)
              | None => throw (ErrorObj "Invalid response from image host")
              end)
           (λ error,
              emit (ConsoleError "Error uploading image:" error);;
              toast (mkToast "Upload failed"
                       (Some (match error with
                              | ErrorObj message => message
                              | NonError _ => "Failed to upload image"
                              end))
                       (Some "destructive"));;
              mret None))
        (setIsUploading false;;
         setUploadProgress 0)
  end.

Definition removeImage : M unit :=
  setSelectedFile None;;
  setUploadedImageUrl "";;
  form_setValue_image_url "".

Definition onSubmit (s : State) (data : FormData) : M unit :=
  try_finally
    (try_catch
       (setIsSubmitting true;;
        emit (ConsoleLog "Submitting menu item:");;
        let restaurant_id := userProfile s ≫= (λ p, as_string (p !! "restaurant_id")) in
        if negb (truthy_opt restaurant_id) then
          throw (ErrorObj "No restaurant assigned to user")
        else
          (* If there's a selected file but not yet uploaded, upload it now *)
          imageUrl ←
            (if bool_decide (is_Some (selectedFile s))
                && negb (truthy (uploadedImageUrl s)) then
               uploadedUrl ← uploadImage s;
               mret (if truthy_opt uploadedUrl then js_String uploadedUrl
                     else image_url data)
             else mret (image_url data));
          r ← supabase (Insert "menu_items"
                          [ {[ "name" := VStr (name data);
                               "description" := VStr (description data);
                               "price" := VNumText (price data);
                               "category" := VStr (category data);
                               "image_url" := VStr imageUrl;
                               "restaurant_id" := VStr (js_String restaurant_id);
                               "is_available" := VBool true ]} ]);
          match error r with
          | Some e => throw e
          | None =>
              toast (mkToast "Success" (Some "Menu item added successfully") None);;
              emit (Callback "onSuccess");;
              emit (Callback "onClose")
          end)
       (λ error,
          emit (ConsoleError "Error adding menu item:" error);;
          toast (mkToast "Error"
                   (Some (match error with
                          | ErrorObj message => message
                          | NonError _ => "Failed to add menu item"
                          end))
                   (Some "destructive"))))
    (setIsSubmitting false).

(** What the user can do with the rendered form.  The upload button
    exists only while a file is selected, nothing is uploaded and no
    upload runs; the submit button is disabled while submitting or
    uploading; the remove button exists once a file is selected or
    uploaded.  [form.handleSubmit(onSubmit)] passes the form's values. *)
Inductive Action :=
  | ChooseFile (files : option (list File))
  | ClickUpload
  | ClickRemove
  | TypeFields (name description price category : string)
  | ClickSubmit
  | LoadProfile.

Definition perform (a : Action) (s : State) : M unit :=
  match a with
  | ChooseFile files => handleFileChange files
  | ClickUpload =>
      if bool_decide (is_Some (selectedFile s)) && negb (truthy (uploadedImageUrl s))
         && negb (isUploading s)
      then _ ← uploadImage s; mret () else mret ()
  | ClickRemove =>
      if bool_decide (is_Some (selectedFile s)) || truthy (uploadedImageUrl s)
      then removeImage else mret ()
  | TypeFields n d p c =>
      set_state (with_form {| name := n; description := d; price := p; category := c;
                              image_url := image_url (form s) |})
  | ClickSubmit =>
      if isSubmitting s || isUploading s then mret () else onSubmit s (form s)
  | LoadProfile => userProfile_query
  end.

(** Worlds the form can be in between two user actions; the backend's
    tables and the environment's answers may change in between. *)
Inductive reachable : World State → Prop :=
  | reach_init db env : reachable (mkWorld init db env [])
  | reach_step w a : reachable w → reachable (run (perform a (ui w)) w)
  | reach_outside w db' env' :
      reachable w → reachable (mkWorld (ui w) db' env' (log w)).

End AddMenuItemForm.

(** ** The roster screen *)

Module Staff.

Record State := {
  isAddDialogOpen : bool;
  editingStaff : option Row;
  staff : list Row          (* data of the "staff" query *)
}.

Definition init : State := {| isAddDialogOpen := false; editingStaff := None; staff := [] |}.

Abbreviation M := (M State).

Definition setIsAddDialogOpen (v : bool) : M unit :=
  set_state (λ s, {| isAddDialogOpen := v; editingStaff := editingStaff s; staff := staff s |}).
Definition setEditingStaff (v : option Row) : M unit :=
  set_state (λ s, {| isAddDialogOpen := isAddDialogOpen s; editingStaff := v; staff := staff s |}).
Definition set_staff (v : list Row) : M unit :=
  set_state (λ s, {| isAddDialogOpen := isAddDialogOpen s; editingStaff := editingStaff s;
                     staff := v |}).

(** The tenant lookup that opens both [queryFn] and [handleSubmit]. *)
Definition resolve_restaurant : M string :=
  user ← auth_getUser;
  match user with
  | None => throw (ErrorObj "No user found")
  | Some uid =>
      r ← select_profile uid;
      let restaurant_id := head (data r) ≫= (λ p, as_string (p !! "restaurant_id")) in
      if negb (truthy_opt restaurant_id) then
        throw (ErrorObj "No restaurant found for user")
      else mret (js_String restaurant_id)
  end.

(** The list operation of the roster. *)
Definition queryFn : M (list Row) :=
  restaurant_id ← resolve_restaurant;
  r ← supabase (Select "staff" Star [Eq "restaurant_id" restaurant_id]
                  (Some {| by_column := "first_name"; ascending := true |}) false);
  match error r with
  | Some e => throw e
  | None => mret (data r)
  end.

Definition refetch : M unit :=
  try_catch (d ← queryFn; set_staff d) (λ _, mret ()).

(** [formData.get(k) as string] *)
Definition formData_get (formData : gmap string string) (k : string) : Value :=
  match formData !! k with Some v => VStr v | None => VNull end.

Definition staffData (formData : gmap string string) : Row :=
  {[ "first_name" := formData_get formData "firstName";
     "last_name" := formData_get formData "lastName";
     "position" := formData_get formData "position";
     "phone" := formData_get formData "phone";
     "email" := formData_get formData "email";
     "Shift" := formData_get formData "shift" ]}.

Definition handleSubmit (s : State) (formData : gmap string string) : M unit :=
  try_catch
    (restaurant_id ← resolve_restaurant;
     match editingStaff s with
     | Some member =>
         r ← supabase (Update "staff" (staffData formData)
                         [Eq "id" (js_String (as_string (member !! "id")))]);
         match error r with
         | Some e => throw e
         | None => toast (mkToast "Staff member updated successfully" None None)
         end
     | None =>
         r ← supabase (Insert "staff"
                         [ <["restaurant_id" := VStr restaurant_id]> (staffData formData) ]);
         match error r with
         | Some e => throw e
         | None => toast (mkToast "Staff member added successfully" None None)
         end
     end;;
     refetch;;
     setIsAddDialogOpen false;;
     setEditingStaff None)
    (λ error,
       emit (ConsoleError "Error:" error);;
       toast (mkToast "Error" (Some "Something went wrong. Please try again.")
                      (Some "destructive"))).

Definition handleDelete (id : string) : M unit :=
  try_catch
    (r ← supabase (Delete "staff" [Eq "id" id]);
     match error r with
     | Some e => throw e
     | None =>
         toast (mkToast "Staff member deleted successfully" None None);;
         refetch
     end)
    (λ error,
       emit (ConsoleError "Error:" error);;
       toast (mkToast "Error" (Some "Something went wrong. Please try again.")
                      (Some "destructive"))).

End Staff.

(** * Vocabulary of the statements *)

(** [userProfile?.restaurant_id] as [onSubmit] reads it. *)
Definition resolved_restaurant (s : AddMenuItemForm.State) : option string :=
  AddMenuItemForm.userProfile s ≫= (λ p, as_string (p !! "restaurant_id")).

(** The record [onSubmit] inserts, given the image URL it settled on. *)
Definition menu_record (data : AddMenuItemForm.FormData) (imageUrl restaurant_id : string) : Row :=
  {[ "name" := VStr (AddMenuItemForm.name data);
     "description" := VStr (AddMenuItemForm.description data);
     "price" := VNumText (AddMenuItemForm.price data);
     "category" := VStr (AddMenuItemForm.category data);
     "image_url" := VStr imageUrl;
     "restaurant_id" := VStr restaurant_id;
     "is_available" := VBool true ]}.

(** Update requests among the events, with table, payload and filter. *)
Definition updates (l : list Event) : list (string * Row * list Filter) :=
  omap (λ e, match e with Backend (Update t p fs) => Some (t, p, fs) | _ => None end) l.

Definition is_select (req : Request) : Prop :=
  match req with Select _ _ _ _ _ => True | _ => False end.

(** The columns [handleSubmit] writes. *)
Definition staff_columns : gset string :=
  {[ "first_name"; "last_name"; "position"; "phone"; "email"; "Shift" ]}.

(** Two rows that agree on [id] and [restaurant_id]. *)
Definition same_identity (r r' : Row) : Prop :=
  r' !! "id" = r !! "id" ∧ r' !! "restaurant_id" = r !! "restaurant_id".

(** The values the progress bar is set to during an upload. *)
Definition checkpoints : list Z := [10; 30; 50; 80; 100].

(** What one call of [uploadImage] with a selected file does. *)
Record Attempt (w w' : World AddMenuItemForm.State)
    (o : Outcome (option string)) (evs : list Event) : Prop := {
  attempt_log : log w' = log w ++ evs;
  attempt_db : db w' = db w;
  attempt_env : env w' = env w;
  attempt_requests : requests evs = [];
  attempt_idle : AddMenuItemForm.isUploading (ui w') = false
                 ∧ AddMenuItemForm.uploadProgress (ui w') = 0;
  attempt_frame : AddMenuItemForm.isSubmitting (ui w') = AddMenuItemForm.isSubmitting (ui w)
                  ∧ AddMenuItemForm.selectedFile (ui w') = AddMenuItemForm.selectedFile (ui w)
                  ∧ AddMenuItemForm.userProfile (ui w') = AddMenuItemForm.userProfile (ui w);
  attempt_end : ∃ before, evs = before ++ [SetIsUploading false; SetUploadProgress 0];
  attempt_outcome :
    (∃ u, o = Returned (Some u) ∧ truthy u = true
          ∧ AddMenuItemForm.uploadedImageUrl (ui w') = u
          ∧ AddMenuItemForm.form (ui w')
            = AddMenuItemForm.with_image_url u (AddMenuItemForm.form (ui w))
          ∧ progress_values evs = checkpoints ++ [0]
          ∧ toasts evs = [mkToast "Image uploaded successfully" None None])
    ∨ (o = Returned None
       ∧ AddMenuItemForm.uploadedImageUrl (ui w') = AddMenuItemForm.uploadedImageUrl (ui w)
       ∧ AddMenuItemForm.form (ui w') = AddMenuItemForm.form (ui w)
       ∧ (∃ n, (1 ≤ n ≤ 5)%nat ∧ progress_values evs = take n checkpoints ++ [0])
       ∧ ∃ msg, toasts evs = [mkToast "Upload failed" (Some msg) (Some "destructive")])
}.

(** Between two user actions the form is at rest: nothing is being
    submitted or uploaded, the progress is 0 and the form's [image_url]
    is the uploaded URL. *)
Definition at_rest (s : AddMenuItemForm.State) : Prop :=
  AddMenuItemForm.isSubmitting s = false
  ∧ AddMenuItemForm.isUploading s = false
  ∧ AddMenuItemForm.uploadProgress s = 0
  ∧ AddMenuItemForm.image_url (AddMenuItemForm.form s) = AddMenuItemForm.uploadedImageUrl s.

(** The calendar day after a given one. *)
Definition next_day (date : Z * Z * Z) : Z * Z * Z :=
  let '(y, m, d) := date in
  if d <? days_in_month y m then (y, m, d + 1)
  else if m <? 12 then (y, m + 1, 1)
  else (y + 1, 1, 1).

(** Earlier in the calendar. *)
Definition lex_lt (c1 c2 : Z * Z * Z) : Prop :=
  let '(y1, m1, d1) := c1 in
  let '(y2, m2, d2) := c2 in
  y1 < y2 ∨ (y1 = y2 ∧ (m1 < m2 ∨ (m1 = m2 ∧ d1 < d2))).

(** The browser's zone keeps one offset from UTC, of less than a day. *)
Definition fixed_offset (b : Browser) (offset : Z) : Prop :=
  (∀ t isUTC, LocalTZA b t isUTC = offset) ∧ - ms_per_day < offset < ms_per_day.

(** The largest time value a [Date] holds. *)
Definition max_time : Z := 8640000000000000.

(** Day numbers from 2 January 100 to the end of the year 9999. *)
Definition common_era (z : Z) : Prop :=
  days_from_civil 100 1 2 ≤ z ≤ days_from_civil 9999 12 31.

(** ** Sample data *)

Definition small_png : File := {| file_name := "dish.png"; size := 1000; type := "image/png" |}.
Definition huge_png : File :=
  {| file_name := "poster.png"; size := 6 * 1024 * 1024; type := "image/png" |}.

Definition quiet_env : Env :=
  {| auth_user := Some "u1"; refuses := λ _, None;
     reader := λ _, ReadLoaded (Some "data:image/png;base64,AAAA");
     http := λ _, FetchRejected (ErrorObj "Failed to fetch") |}.

(** An image host that answers 500, and one that accepts the upload. *)
Definition refusing_host : Env :=
  {| auth_user := Some "u1"; refuses := λ _, None;
     reader := λ _, ReadLoaded (Some "data:image/png;base64,AAAA");
     http := λ _, FetchResponse {| ok := false; status := 500;
                                   json := JsonInvalid (ErrorObj "Unexpected token") |} |}.

Definition working_host : Env :=
  {| auth_user := Some "u1"; refuses := λ _, None;
     reader := λ _, ReadLoaded (Some "data:image/png;base64,AAAA");
     http := λ _, FetchResponse
                    {| ok := true; status := 200;
                       json := JsonData
                                 {| status_code := Some 200;
                                    image := Some {| image_url_of :=
                                                       Some "https://iili.io/dish.png" |} |} |} |}.

Definition new_year_leave : Row :=
  {[ "id" := VStr "l1"; "staff_id" := VStr "s1"; "restaurant_id" := VStr "r1";
     "start_date" := VStr "2024-01-01"; "end_date" := VStr "2024-01-03";
     "reason" := VStr "family"; "status" := VStr "pending" ]}.

(** A leave over the night of 3 November 2024, when the clocks of New
    York go back. *)
Definition november_leave : Row :=
  {[ "id" := VStr "l2"; "staff_id" := VStr "s1"; "restaurant_id" := VStr "r1";
     "start_date" := VStr "2024-11-02"; "end_date" := VStr "2024-11-04";
     "reason" := VStr "travel"; "status" := VStr "pending" ]}.

(** A browser whose zone keeps one offset from UTC, in milliseconds, and
    which reads no date beyond the standard format. *)
Definition fixed_zone (offset : Z) : Browser :=
  {| LocalTZA := λ _ _, offset; Date_parse_other := λ _, None; Date_of_number := λ _, None |}.

(** A browser in New York in 2024: five hours behind UTC, four between
    10 March 07:00 UTC and 3 November 06:00 UTC.  Like [fixed_zone] it
    reads no date beyond the standard format. *)
Definition new_york : Browser :=
  let hour := 3600000 in
  let spring := days_from_civil 2024 3 10 * ms_per_day in
  let autumn := days_from_civil 2024 11 3 * ms_per_day in
  {| LocalTZA := λ t isUTC,
       if isUTC then
         if (spring + 7 * hour <=? t) && (t <? autumn + 6 * hour) then -4 * hour else -5 * hour
       else
         if (spring + 3 * hour <=? t) && (t <? autumn + 2 * hour) then -4 * hour else -5 * hour;
     Date_parse_other := λ _, None;
     Date_of_number := λ _, None |}.

Definition leave_screen : StaffLeaveManager.State :=
  StaffLeaveManager.set_leaves [new_year_leave]
    (StaffLeaveManager.set_restaurantId (Some "r1") StaffLeaveManager.init).

Definition leave_world : World StaffLeaveManager.State :=
  mkWorld leave_screen {[ "staff_leaves" := [new_year_leave] ]} quiet_env [].

Definition alice : Row :=
  {[ "id" := VStr "s1"; "first_name" := VStr "Alice"; "last_name" := VStr "Rao";
     "position" := VStr "chef"; "phone" := VNull; "email" := VNull;
     "Shift" := VStr "morning"; "restaurant_id" := VStr "r1" ]}.

Definition bob : Row :=
  {[ "id" := VStr "s2"; "first_name" := VStr "Bob"; "last_name" := VStr "Iyer";
     "position" := VStr "waiter"; "phone" := VNull; "email" := VNull;
     "Shift" := VStr "night"; "restaurant_id" := VStr "r2" ]}.

Definition two_tenants : Database :=
  {[ "profiles" := [ {[ "id" := VStr "u1"; "restaurant_id" := VStr "r1" ]};
                     {[ "id" := VStr "u2"; "restaurant_id" := VStr "r2" ]} ];
     "staff" := [ bob; alice ] ]}.

Definition roster_editing : Staff.State :=
  {| Staff.isAddDialogOpen := true; Staff.editingStaff := Some alice;
     Staff.staff := [alice] |}.

Definition roster_world : World Staff.State := mkWorld roster_editing two_tenants quiet_env [].

Definition roster_form : gmap string string :=
  {[ "firstName" := "Alice"; "lastName" := "Rao"; "position" := "manager";
     "phone" := "555"; "email" := "a@example.org"; "shift" := "evening" ]}.

(** The menu form after the profile has loaded and a file was chosen. *)
Definition form_start : World AddMenuItemForm.State :=
  mkWorld AddMenuItemForm.init two_tenants refusing_host [].

Definition form_profiled : World AddMenuItemForm.State :=
  run (AddMenuItemForm.perform AddMenuItemForm.LoadProfile (ui form_start)) form_start.

Definition form_ready : World AddMenuItemForm.State :=
  run (AddMenuItemForm.perform (AddMenuItemForm.ChooseFile (Some [small_png]))
         (ui form_profiled)) form_profiled.

Definition upload_screen : AddMenuItemForm.State :=
  AddMenuItemForm.with_selectedFile (Some small_png) AddMenuItemForm.init.

Definition upload_world : World AddMenuItemForm.State :=
  mkWorld upload_screen ∅ working_host [].


(** * Further vocabulary *)

(** Callbacks of the parent invoked by a handler, in order. *)
Definition callbacks (l : list Event) : list string :=
  omap (λ e, match e with Callback n => Some n | _ => None end) l.

(** Requests that change the tables. *)
Definition is_write (req : Request) : bool :=
  match req with Select _ _ _ _ _ => false | _ => true end.

Definition writes (l : list Event) : list Request := List.filter is_write (requests l).

(** The leave form holds everything [handleAddLeave] requires. *)
Definition leave_form_complete (s : StaffLeaveManager.State) : bool :=
  truthy (StaffLeaveManager.selectedStaffId s) && truthy (StaffLeaveManager.startDate s)
  && truthy (StaffLeaveManager.endDate s) && truthy_opt (StaffLeaveManager.restaurantId s).

(** The record [handleAddLeave] inserts. *)
Definition leave_record (s : StaffLeaveManager.State) : Row :=
  {[ "staff_id" := VStr (StaffLeaveManager.selectedStaffId s);
     "restaurant_id" := StaffLeaveManager.str_value (StaffLeaveManager.restaurantId s);
     "start_date" := VStr (StaffLeaveManager.startDate s);
     "end_date" := VStr (StaffLeaveManager.endDate s);
     "reason" := VStr (StaffLeaveManager.reason s);
     "status" := VStr "pending" ]}.

(** The leave form emptied and its dialog closed. *)
Definition leave_form_cleared (s : StaffLeaveManager.State) : Prop :=
  StaffLeaveManager.selectedStaffId s = "" ∧ StaffLeaveManager.startDate s = ""
  ∧ StaffLeaveManager.endDate s = "" ∧ StaffLeaveManager.reason s = ""
  ∧ StaffLeaveManager.isAddLeaveOpen s = false.

(** The backend serves every request. *)
Definition serves (e : Env) : Prop := ∀ req, refuses e req = None.

(** Listed before, under an ordering request. *)
Definition ordered_by (o : Order) (r1 r2 : Row) : Prop := Is_true (row_leb o r1 r2).

(** The join requested by the leave list. *)
Definition staff_embed : Embed :=
  {| alias := "staff"; fk := "staff_id"; target := "staff";
     embed_cols := ["first_name"; "last_name"; "position"] |}.

Definition newest_first : Order := {| by_column := "start_date"; ascending := false |}.
Definition by_first_name : Order := {| by_column := "first_name"; ascending := true |}.

(** What a served [updateLeaveStatus] does to one stored leave. *)
Definition decide_leave (leaveId : string) (d : StaffLeaveManager.Decision) (r : Row) : Row :=
  if bool_decide (r !! "id" = Some (VStr leaveId))
  then <["status" := VStr (StaffLeaveManager.status_text d)]> r
  else r.

(** A leave whose status is none of the three the interface declares. *)
Definition unknown_status (leave : Row) : Prop :=
  leave !! "status" ≠ Some (VStr "pending")
  ∧ leave !! "status" ≠ Some (VStr "approved")
  ∧ leave !! "status" ≠ Some (VStr "rejected").

(** A text without a comma. *)
Fixpoint comma_free (s : string) : bool :=
  match s with
  | EmptyString => true
  | String a s' => negb (Ascii.eqb a ",") && comma_free s'
  end.

(** The one request [uploadImage] posts, given the text it sends as
    [source]. *)
Definition upload_request (source : string) : HttpRequest :=
  {| url := "https://freeimage.host/api/1/upload"; method := "POST";
     body := [("key", "6d207e02198a847aa98d0a2a901485a5"); ("source", source);
              ("format", "json")] |}.

(** The text [uploadImage] sends for what the reader loaded. *)
Definition source_of (dataUrl : string) : string := js_String (split_on "," dataUrl !! 1%nat).

(** [onSubmit] uploads inline: a file is selected and nothing is uploaded
    yet. *)
Definition inline_upload (s : AddMenuItemForm.State) : bool :=
  bool_decide (is_Some (AddMenuItemForm.selectedFile s))
  && negb (truthy (AddMenuItemForm.uploadedImageUrl s)).

(** The world in which [onSubmit] reaches its upload step. *)
Definition submit_start (w : World AddMenuItemForm.State) : World AddMenuItemForm.State :=
  mkWorld (AddMenuItemForm.with_isSubmitting true (ui w)) (db w) (env w)
          (log w ++ [ConsoleLog "Submitting menu item:"]).

(** The world in which [onSubmit] issues its insert, and the image URL it
    has settled on by then. *)
Definition after_upload (s : AddMenuItemForm.State) (w : World AddMenuItemForm.State)
    : World AddMenuItemForm.State :=
  if inline_upload s then run (AddMenuItemForm.uploadImage s) (submit_start w)
  else submit_start w.

Definition chosen_url (s : AddMenuItemForm.State) (data : AddMenuItemForm.FormData)
    (w : World AddMenuItemForm.State) : string :=
  if inline_upload s then
    match result (AddMenuItemForm.uploadImage s) (submit_start w) with
    | Returned uploadedUrl =>
        if truthy_opt uploadedUrl then js_String uploadedUrl
        else AddMenuItemForm.image_url data
    | Thrown _ => AddMenuItemForm.image_url data
    end
  else AddMenuItemForm.image_url data.

(** [error instanceof Error ? error.message : fallback] *)
Definition message_or (fallback : string) (e : Exn) : string :=
  match e with ErrorObj message => message | NonError _ => fallback end.

(** The columns of an inserted menu item. *)
Definition menu_columns : gset string :=
  {[ "name"; "description"; "price"; "category"; "image_url"; "restaurant_id";
     "is_available" ]}.

(** ** Further sample data *)

Definition tenant_profile : Row := {[ "restaurant_id" := VStr "r1" ]}.

(** The menu form with the profile loaded and a file chosen, facing a
    host that accepts the upload. *)
Definition submit_screen : AddMenuItemForm.State :=
  AddMenuItemForm.with_userProfile (Some tenant_profile) upload_screen.

Definition submit_world : World AddMenuItemForm.State :=
  mkWorld submit_screen ∅ working_host [].

(** * The staff dialog's form *)

(** [v || d] on a column that may be null or empty. *)
Definition or_else (v : option Value) (d : string) : string :=
  match as_string v with
  | Some s => if truthy s then s else d
  | None => d
  end.

(** The value sanitization of a text or telephone input: line breaks
    are removed. *)
Fixpoint strip_newlines (s : string) : string :=
  match s with
  | EmptyString => EmptyString
  | String a s' =>
      if Ascii.eqb a (ascii_of_nat 10) || Ascii.eqb a (ascii_of_nat 13) then strip_newlines s'
      else String a (strip_newlines s')
  end.

(** Tab, line feed, form feed, carriage return and space. *)
Definition is_ascii_whitespace (a : ascii) : bool :=
  bool_decide (nat_of_ascii a ∈ [9; 10; 12; 13; 32]%nat).

Fixpoint strip_leading (s : string) : string :=
  match s with
  | EmptyString => EmptyString
  | String a s' => if is_ascii_whitespace a then strip_leading s' else s
  end.

Fixpoint strip_trailing (s : string) : string :=
  match s with
  | EmptyString => EmptyString
  | String a s' =>
      let rest := strip_trailing s' in
      if is_ascii_whitespace a && negb (truthy rest) then EmptyString else String a rest
  end.

(** The value sanitization of an email input: line breaks are removed,
    then the white space at both ends. *)
Definition sanitize_email (s : string) : string :=
  strip_trailing (strip_leading (strip_newlines s)).

(** The items of the two selects of the dialog. *)
Definition position_items : list string := ["waiter"; "chef"; "manager"; "host"].
Definition shift_items : list string := ["morning"; "afternoon"; "evening"; "night"].

(** What a select submits: its value when that is one of its items, its
    first item otherwise. *)
Definition select_value (items : list string) (value : string) : string :=
  if bool_decide (value ∈ items) then value else default "" (head items).

(** What the form of the staff dialog holds when it is submitted
    untouched: each field's [defaultValue] as its control keeps it; an
    absent one leaves the input empty. *)
Definition dialog_defaults (editingStaff : option Row) : gmap string string :=
  {[ "firstName" :=
       strip_newlines (default "" (editingStaff ≫= λ m, as_string (m !! "first_name")));
     "lastName" :=
       strip_newlines (default "" (editingStaff ≫= λ m, as_string (m !! "last_name")));
     "position" :=
       select_value position_items (or_else (editingStaff ≫= λ m, m !! "position") "waiter");
     "shift" :=
       select_value shift_items (or_else (editingStaff ≫= λ m, m !! "Shift") "morning");
     "phone" := strip_newlines (or_else (editingStaff ≫= λ m, m !! "phone") "");
     "email" := sanitize_email (or_else (editingStaff ≫= λ m, m !! "email") "") ]}.

(** The record [handleSubmit] inserts for a new member. *)
Definition new_member (formData : gmap string string) (restaurant_id : string) : Row :=
  <["restaurant_id" := VStr restaurant_id]> (Staff.staffData formData).

(** The roster screen with nobody being edited. *)
Definition roster_adding : Staff.State :=
  {| Staff.isAddDialogOpen := true; Staff.editingStaff := None; Staff.staff := [alice] |}.

Definition roster_adding_world : World Staff.State :=
  mkWorld roster_adding two_tenants quiet_env [].

Definition signed_out : Env :=
  {| auth_user := None; refuses := λ _, None;
     reader := λ _, ReadLoaded (Some "data:image/png;base64,AAAA");
     http := λ _, FetchRejected (ErrorObj "Failed to fetch") |}.

(** The profile held by the menu form, if any, names a restaurant. *)
Definition profile_names_restaurant (s : AddMenuItemForm.State) : Prop :=
  AddMenuItemForm.userProfile s = None ∨ truthy_opt (resolved_restaurant s) = true.

Definition generic_error : ToastMsg :=
  mkToast "Error" (Some "Something went wrong. Please try again.") (Some "destructive").

(** The leave form filled in for staff member s1. *)
Definition leave_filled : StaffLeaveManager.State :=
  StaffLeaveManager.setSelectedStaffId "s1"
    (StaffLeaveManager.setStartDate "2024-02-01"
       (StaffLeaveManager.setEndDate "2024-02-02"
          (StaffLeaveManager.setReason "travel" leave_screen))).

Definition leave_filled_world : World StaffLeaveManager.State :=
  mkWorld leave_filled {[ "staff_leaves" := [new_year_leave] ]} quiet_env [].

(** The menu form with the profile loaded and no file chosen. *)
Definition plain_screen : AddMenuItemForm.State :=
  AddMenuItemForm.with_userProfile (Some tenant_profile) AddMenuItemForm.init.

Definition plain_world : World AddMenuItemForm.State :=
  mkWorld plain_screen ∅ working_host [].

(** ** An upload in flight *)

(** [await base64Promise]: what the started reader yields. *)
Definition reader_result (file : File) : AddMenuItemForm.M (option string) :=
  e ← ask;
  match reader e file with
  | ReadLoaded (Some result) =>
      if truthy result then mret (split_on "," result !! 1%nat)
      else throw (ErrorObj "Failed to convert file to base64")
  | ReadLoaded None => throw (ErrorObj "Failed to convert file to base64")
  | ReadFailed err => throw err
  end.

(** [uploadImage] up to its first [await]: the flag is set, the progress
    shown and the reader started. *)
Definition uploadImage_begin (s : AddMenuItemForm.State) : AddMenuItemForm.M unit :=
  match AddMenuItemForm.selectedFile s with
  | None => mret ()
  | Some file =>
      AddMenuItemForm.setIsUploading true;;
      AddMenuItemForm.setUploadProgress 10;;
      emit (ReadAsDataURL file)
  end.

(** [uploadImage] from its first [await] on, with the state it was called
    in. *)
Definition uploadImage_resume (s : AddMenuItemForm.State)
    : AddMenuItemForm.M (option string) :=
  match AddMenuItemForm.selectedFile s with
  | None => mret None
  | Some file =>
      try_finally
        (try_catch
           (base64String ← reader_result file;
            AddMenuItemForm.setUploadProgress 30;;
            let formData := [("key", "6d207e02198a847aa98d0a2a901485a5");
                             ("source", js_String base64String);
                             ("format", "json")] in
            AddMenuItemForm.setUploadProgress 50;;
            response ← AddMenuItemForm.fetch
                         {| url := "https://freeimage.host/api/1/upload";
                            method := "POST"; body := formData |};
            AddMenuItemForm.setUploadProgress 80;;
            if negb (ok response) then
              throw (ErrorObj ("Upload failed with status: " +:+ pretty (status response)))
            else
              d ← AddMenuItemForm.response_json response;
              emit (ConsoleLog "Image upload response:");;
              AddMenuItemForm.setUploadProgress 100;;
              match AddMenuItemForm.accepted_url d with
              | Some u =>
                  AddMenuItemForm.setUploadedImageUrl u;;
                  AddMenuItemForm.form_setValue_image_url u;;
                  toast (mkToast "Image uploaded successfully" None None);;
                  mret (Some u)
              | None => throw (ErrorObj "Invalid response from image host")
              end)
           (λ error,
              emit (ConsoleError "Error uploading image:" error);;
              toast (mkToast "Upload failed"
                       (Some (match error with
                              | ErrorObj message => message
                              | NonError _ => "Failed to upload image"
                              end))
                       (Some "destructive"));;
              mret None))
        (AddMenuItemForm.setIsUploading false;;
         AddMenuItemForm.setUploadProgress 0)
  end.

(** * Properties *)

Arguments matches : simpl never.
Arguments run_select : simpl never.

Lemma new_events_app {St} (w w' : World St) l :
  log w' = log w ++ l → new_events w w' = l.
Proof. intros H. unfold new_events. rewrite H. by rewrite drop_app_length. Qed.

Lemma new_events_refl {St} (w w' : World St) :
  log w' = log w → new_events w w' = [].
Proof. intros H. apply new_events_app. by rewrite app_nil_r. Qed.

Lemma requests_app (l1 l2 : list Event) : requests (l1 ++ l2) = requests l1 ++ requests l2.
Proof. apply omap_app. Qed.

Lemma toasts_app (l1 l2 : list Event) : toasts (l1 ++ l2) = toasts l1 ++ toasts l2.
Proof. apply omap_app. Qed.

Lemma inserted_app (l1 l2 : list Event) : inserted (l1 ++ l2) = inserted l1 ++ inserted l2.
Proof. unfold inserted. by rewrite requests_app, bind_app. Qed.

Lemma inserted_no_requests (l : list Event) : requests l = [] → inserted l = [].
Proof. unfold inserted. by intros ->. Qed.

Lemma updates_app (l1 l2 : list Event) : updates (l1 ++ l2) = updates l1 ++ updates l2.
Proof. apply omap_app. Qed.

(** Unfolding of the monad's primitives, and case analysis on what the
    outside answers. *)
Ltac munfold :=
  unfold run, result, try_catch, try_finally, toast, select_profile, supabase, emit,
    set_state, ask, auth_getUser, throw, mbind, mret, M_bind, M_ret in *.

Ltac mcase :=
  match goal with
  | |- context [match refuses ?e ?r with _ => _ end] => destruct (refuses e r) eqn:?
  | |- context [match auth_user ?e with _ => _ end] => destruct (auth_user e) eqn:?
  | |- context [match reader ?e ?f with _ => _ end] => destruct (reader e f) as [[?|]|?] eqn:?
  | |- context [match http ?e ?r with _ => _ end] => destruct (http e r) eqn:?
  | |- context [match json ?r with _ => _ end] => destruct (json r) eqn:?
  | |- context [match run_select ?d ?t ?c ?f ?o with _ => _ end] =>
      destruct (run_select d t c f o) as [|? [|? ?]] eqn:?
  | |- context [if negb (ok ?r) then _ else _] => destruct (ok r) eqn:?
  | |- context [if negb (truthy_opt ?o) then _ else _] => destruct (truthy_opt o) eqn:?
  | |- context [if truthy_opt ?o then _ else _] => destruct (truthy_opt o) eqn:?
  | |- context [if truthy ?o then _ else _] => destruct (truthy o) eqn:?
  end.

Ltac mrun := repeat (munfold; simpl; try mcase).

Ltac log_done :=
  first [ erewrite new_events_refl; [|reflexivity]
        | erewrite new_events_app; [|simpl; rewrite <- ?app_assoc; reflexivity] ].

(** Faster evaluation of a handler: the run is computed once, as an
    equation on the resulting world. *)
Ltac mred :=
  cbv beta iota zeta delta
    [run result try_catch try_finally toast select_profile supabase emit set_state ask
     auth_getUser throw mbind mret M_bind M_ret fst snd ui db env log data error head
     option_bind apply_request].

Ltac mgo := repeat (mred; cbn [negb truthy_opt]; try mcase).

(** Evaluation of the event filters on an explicit list of events. *)
Ltac evs :=
  cbv beta iota zeta delta
    [inserted requests updates toasts fetches callbacks writes omap list_omap mbind list_bind
     fmap list_fmap app List.filter is_write].

Ltac frozen w' := generalize (eq_refl w'); unfold w' at 2; clearbody w'.

(** The same under the assumption [Hserve] that the backend serves every
    request. *)
Ltac mserved Hserve :=
  cbv beta iota zeta delta [serves env] in Hserve;
  repeat (mred; cbn [negb truthy_opt]; rewrite ?Hserve; try mcase).

(** ** Facts about the backend model *)

Lemma matches_single (c k : string) (r : Row) :
  matches [Eq c k] r = true ↔ r !! c = Some (VStr k).
Proof.
  unfold matches; simpl. rewrite andb_true_r. apply bool_decide_eq_true.
Qed.

Lemma lookup_project (cs : list string) (r : Row) (k : string) (v : Value) :
  project cs r !! k = Some v ↔ r !! k = Some v ∧ k ∈ cs.
Proof. unfold project. by rewrite map_lookup_filter_Some. Qed.

Lemma elem_of_sort_rows (o : option Order) (rs : list Row) (r : Row) :
  r ∈ sort_rows o rs ↔ r ∈ rs.
Proof.
  destruct o as [o|]; simpl; [|done].
  by rewrite merge_sort_Permutation.
Qed.

Lemma elem_of_run_select db t cols fs o (x : Row) :
  x ∈ run_select db t cols fs o ↔
  ∃ r, r ∈ table_rows db t ∧ matches fs r = true ∧ x = shape db cols r.
Proof.
  unfold run_select. rewrite list_elem_of_fmap. split.
  - intros (r & -> & Hr). apply elem_of_sort_rows, list_elem_of_In, filter_In in Hr.
    destruct Hr as [Hr Hm]. exists r. by rewrite list_elem_of_In.
  - intros (r & Hr & Hm & ->). exists r. split; [done|].
    apply elem_of_sort_rows, list_elem_of_In, filter_In. by rewrite <- list_elem_of_In.
Qed.

Lemma select_keeps_tables db t cols fs o single :
  (apply_request db (Select t cols fs o single)).1 = db.
Proof.
  unfold apply_request. destruct single; [|done].
  destruct (run_select db t cols fs o) as [|? [|? ?]]; done.
Qed.

Lemma select_data db t cols fs o single (x : Row) :
  x ∈ data (apply_request db (Select t cols fs o single)).2 →
  x ∈ run_select db t cols fs o.
Proof.
  unfold apply_request. destruct single; [|done].
  destruct (run_select db t cols fs o) as [|? [|? ?]]; simpl; try done.
  intros []%elem_of_nil.
Qed.

Lemma table_rows_insert (db : Database) (t t' : string) (rs : list Row) :
  table_rows (<[t := rs]> db) t' = if decide (t = t') then rs else table_rows db t'.
Proof. unfold table_rows. rewrite lookup_insert. by case_decide. Qed.

(** The joined columns live under [alias.column]: a key without that
    prefix reads the same before and after the join. *)
Lemma lookup_embed_row db (e : Embed) (r : Row) (k : string) :
  (∀ c, k ≠ alias e +:+ "." +:+ c) → embed_row db e r !! k = r !! k.
Proof.
  intros Hk. unfold embed_row.
  destruct (as_string (r !! fk e)) as [i|]; [|done].
  destruct (List.filter _ _) as [|j ?]; [done|].
  rewrite lookup_union. 
  assert (kmap (λ c, alias e +:+ "." +:+ c) (project (embed_cols e) j) !! k = None) as ->.
  { assert (Inj (=) (=) (λ c : string, alias e +:+ "." +:+ c)) as Hinj.
    { intros c1 c2 Hc. by apply (inj (String.app _)), (inj (String.app _)) in Hc. }
    rewrite (lookup_kmap_None _). intros c Hc. by destruct (Hk c). }
  by destruct (r !! k).
Qed.

(** ** Leave requests are created pending *)

(** C1. Whatever the form holds, every record that [handleAddLeave]
    inserts has [status = "pending"]; it inserts exactly one record into
    [staff_leaves] when the required fields are present and none
    otherwise; and every row of [staff_leaves] that was not there before
    has [status = "pending"]. *)
Theorem handleAddLeave_inserts_pending (s : StaffLeaveManager.State)
    (w : World StaffLeaveManager.State) :
  let w' := run (StaffLeaveManager.handleAddLeave s) w in
  let issued := inserted (new_events w w') in
  Forall (λ tr, tr.1 = "staff_leaves" ∧ tr.2 !! "status" = Some (VStr "pending")) issued
  ∧ length issued =
      (if truthy (StaffLeaveManager.selectedStaffId s)
          && truthy (StaffLeaveManager.startDate s)
          && truthy (StaffLeaveManager.endDate s)
          && truthy_opt (StaffLeaveManager.restaurantId s)
       then 1%nat else 0%nat)
  ∧ Forall (λ r : Row, r ∈ table_rows (db w) "staff_leaves"
                       ∨ r !! "status" = Some (VStr "pending"))
           (table_rows (db w') "staff_leaves").
Proof.
  assert (Forall (λ r : Row, r ∈ table_rows (db w) "staff_leaves"
                             ∨ r !! "status" = Some (VStr "pending"))
                 (table_rows (db w) "staff_leaves")) as Hold.
  { apply Forall_forall. by left. }
  unfold StaffLeaveManager.handleAddLeave, StaffLeaveManager.refetchLeaves,
    StaffLeaveManager.leaves_queryFn.
  destruct (truthy (StaffLeaveManager.selectedStaffId s)),
    (truthy (StaffLeaveManager.startDate s)),
    (truthy (StaffLeaveManager.endDate s)),
    (truthy_opt (StaffLeaveManager.restaurantId s));
    cbn [negb orb andb];
    mrun; log_done; simpl;
    (split; [repeat constructor | split; [reflexivity|]]);
    rewrite ?table_rows_insert, ?decide_True by done;
    first [ exact Hold
          | apply Forall_app; split; [exact Hold | by repeat constructor] ].
Qed.

(** ** Client-side validation of the chosen file *)

(** C4. A chosen file larger than 5 MiB, or whose MIME type does not
    start with [image/], is refused with a destructive notification: the
    selected file is left as it was and nothing else happens (no read, no
    upload, no backend call).  An image of at most 5 MiB becomes the
    selected file. *)
Theorem handleFileChange_validates (file : File) (more : list File)
    (w : World AddMenuItemForm.State) :
  let w' := run (AddMenuItemForm.handleFileChange (Some (file :: more))) w in
  ((size file > 5 * 1024 * 1024 ∨ String.prefix "image/" (type file) = false) →
     ui w' = ui w ∧ db w' = db w
     ∧ ∃ t, new_events w w' = [Toast t] ∧ variant t = Some "destructive")
  ∧ (size file ≤ 5 * 1024 * 1024 ∧ String.prefix "image/" (type file) = true →
     AddMenuItemForm.selectedFile (ui w') = Some file ∧ new_events w w' = []).
Proof.
  unfold AddMenuItemForm.handleFileChange, AddMenuItemForm.setSelectedFile. simpl.
  destruct (Z.ltb_spec (5 * 1024 * 1024) (size file)) as [Hbig|Hsmall].
  - split.
    + intros _. munfold; simpl. repeat split. eexists. split; [by log_done | done].
    + intros [Hle _]. lia.
  - destruct (String.prefix "image/" (type file)) eqn:Hty; simpl.
    + split.
      * intros [Hgt|Hno]; [lia | discriminate].
      * intros _. munfold; simpl. split; [done | by log_done].
    + split.
      * intros _. munfold; simpl. repeat split. eexists. split; [by log_done | done].
      * intros [_ Hyes]. discriminate.
Qed.

Lemma handleFileChange_validates_witness :
  let w := mkWorld AddMenuItemForm.init ∅ quiet_env [] in
  AddMenuItemForm.selectedFile
    (ui (run (AddMenuItemForm.handleFileChange (Some [small_png])) w)) = Some small_png
  ∧ ui (run (AddMenuItemForm.handleFileChange (Some [huge_png])) w) = ui w.
Proof.
  split.
  - apply (handleFileChange_validates small_png []
             (mkWorld AddMenuItemForm.init ∅ quiet_env [])).
    split; [vm_compute; discriminate | reflexivity].
  - apply (handleFileChange_validates huge_png []
             (mkWorld AddMenuItemForm.init ∅ quiet_env [])).
    left. vm_compute. reflexivity.
Defined.

(** ** Submitting without a tenant *)

(** C5. When no restaurant identifier is resolved, [onSubmit] raises
    before anything else: the only things it does are the diagnostic log
    lines and one destructive notification carrying the raised message.
    No file is read, nothing is posted to the image host, no backend
    request is issued and the tables are unchanged. *)
Theorem onSubmit_without_restaurant_fails_fast (s : AddMenuItemForm.State)
    (data : AddMenuItemForm.FormData) (w : World AddMenuItemForm.State) :
  truthy_opt (resolved_restaurant s) = false →
  let w' := run (AddMenuItemForm.onSubmit s data) w in
  new_events w w' =
    [ ConsoleLog "Submitting menu item:";
      ConsoleError "Error adding menu item:" (ErrorObj "No restaurant assigned to user");
      Toast (mkToast "Error" (Some "No restaurant assigned to user") (Some "destructive")) ]
  ∧ requests (new_events w w') = []
  ∧ fetches (new_events w w') = []
  ∧ inserted (new_events w w') = []
  ∧ db w' = db w
  ∧ result (AddMenuItemForm.onSubmit s data) w = Returned ().
Proof.
  intros Habsent. unfold resolved_restaurant in Habsent.
  unfold AddMenuItemForm.onSubmit, AddMenuItemForm.setIsSubmitting.
  rewrite Habsent. munfold; simpl. log_done. done.
Qed.

Lemma onSubmit_without_restaurant_fails_fast_witness :
  let s := AddMenuItemForm.with_selectedFile (Some small_png) AddMenuItemForm.init in
  let w := mkWorld s ∅ quiet_env [] in
  requests (new_events w (run (AddMenuItemForm.onSubmit s AddMenuItemForm.defaultValues) w)) = []
  ∧ fetches (new_events w (run (AddMenuItemForm.onSubmit s AddMenuItemForm.defaultValues) w)) = [].
Proof.
  pose proof (onSubmit_without_restaurant_fails_fast
                (AddMenuItemForm.with_selectedFile (Some small_png) AddMenuItemForm.init)
                AddMenuItemForm.defaultValues
                (mkWorld (AddMenuItemForm.with_selectedFile (Some small_png) AddMenuItemForm.init)
                         ∅ quiet_env [])
                eq_refl) as (_ & Hreq & Hfetch & _).
  exact (conj Hreq Hfetch).
Defined.

(** ** The calendar *)

Ltac split_ifs :=
  repeat match goal with
         | |- context [if ?c then _ else _] => destruct c eqn:?
         | H : context [if ?c then _ else _] |- _ => destruct c eqn:?
         end;
  rewrite ?andb_true_iff, ?andb_false_iff, ?orb_true_iff, ?orb_false_iff, ?negb_true_iff,
    ?negb_false_iff, ?Z.ltb_lt, ?Z.ltb_ge, ?Z.leb_le, ?Z.leb_gt, ?Z.eqb_eq, ?Z.eqb_neq in *.

Lemma civil_from_days_spec (z : Z) :
  let '(y, m, d) := civil_from_days z in
  days_from_civil y m d = z ∧ 1 ≤ m ≤ 12 ∧ 1 ≤ d ≤ 31.
Proof.
  unfold civil_from_days, days_from_civil. split_ifs; Z.div_mod_to_equations; lia.
Qed.

Lemma civil_from_days_next (z : Z) : lex_lt (civil_from_days z) (civil_from_days (z + 1)).
Proof.
  unfold lex_lt, civil_from_days. split_ifs; Z.div_mod_to_equations; lia.
Qed.

Lemma lex_lt_trans (c1 c2 c3 : Z * Z * Z) : lex_lt c1 c2 → lex_lt c2 c3 → lex_lt c1 c3.
Proof. destruct c1 as [[??]?], c2 as [[??]?], c3 as [[??]?]. unfold lex_lt. lia. Qed.

Lemma civil_from_days_mono (z1 z2 : Z) :
  z1 < z2 → lex_lt (civil_from_days z1) (civil_from_days z2).
Proof.
  intros Hlt. replace z2 with (z1 + 1 + Z.of_nat (Z.to_nat (z2 - z1 - 1))) by lia.
  induction (Z.to_nat (z2 - z1 - 1)) as [|n IH].
  - rewrite Z.add_0_r. apply civil_from_days_next.
  - eapply lex_lt_trans; [exact IH|].
    replace (z1 + 1 + Z.of_nat (S n)) with (z1 + 1 + Z.of_nat n + 1) by lia.
    apply civil_from_days_next.
Qed.

Lemma days_from_civil_day (y m d : Z) : days_from_civil y m d = days_from_civil y m 1 + d - 1.
Proof. unfold days_from_civil. lia. Qed.

(** [MakeDay] on the fields of a day gives the day back, and moving the
    date field moves the day number by as much. *)
Lemma MakeDay_fields (t k : Z) :
  MakeDay (YearFromTime t) (MonthFromTime t) (DateFromTime t - k) = Day t - k.
Proof.
  unfold MakeDay, YearFromTime, MonthFromTime, DateFromTime.
  pose proof (civil_from_days_spec (Day t)) as Hspec.
  destruct (civil_from_days (Day t)) as [[y m] d]; simpl.
  destruct Hspec as (Hday & Hm & _).
  replace ((m - 1) / 12) with 0 by (symmetry; apply Z.div_small; lia).
  rewrite Z.mod_small by lia.
  replace (y + 0) with y by lia. replace (m - 1 + 1) with m by lia.
  rewrite (days_from_civil_day y m d) in Hday. lia.
Qed.

Lemma time_fields (t : Z) :
  t = MakeDate (Day t) (MakeTime (HourFromTime t) (MinFromTime t) (SecFromTime t)
                                 (msFromTime t))
  ∧ 0 ≤ HourFromTime t < 24 ∧ 0 ≤ MinFromTime t < 60 ∧ 0 ≤ SecFromTime t < 60
  ∧ 0 ≤ msFromTime t < 1000.
Proof.
  unfold MakeDate, MakeTime, Day, HourFromTime, MinFromTime, SecFromTime, msFromTime,
    ms_per_day.
  Z.div_mod_to_equations. lia.
Qed.

Lemma MakeTime_fields (t : Z) :
  MakeTime (HourFromTime t) (MinFromTime t) (SecFromTime t) (msFromTime t) = TimeWithinDay t.
Proof.
  pose proof (time_fields t) as [Ht _]. unfold MakeDate in Ht.
  unfold TimeWithinDay, Day in *. pose proof (Z.div_mod t ms_per_day).
  unfold ms_per_day in *. lia.
Qed.

Lemma day_time (t : Z) : MakeDate (Day t) (TimeWithinDay t) = t.
Proof.
  unfold MakeDate, Day, TimeWithinDay. pose proof (Z.div_mod t ms_per_day).
  unfold ms_per_day in *. lia.
Qed.

(** Comparing the local fields from the year down is comparing the local
    times. *)
Lemma compareLocalAsc_sgn (b : Browser) (l r : Z) :
  compareLocalAsc b (Some l) (Some r) = Some (Z.sgn (LocalTime b l - LocalTime b r)).
Proof.
  unfold compareLocalAsc; cbn [mbind option_bind]. f_equal.
  unfold getFullYear, getMonth, getDate, getHours, getMinutes, getSeconds, getMilliseconds.
  generalize (LocalTime b l) (LocalTime b r). clear l r. intros l r.
  unfold YearFromTime, MonthFromTime, DateFromTime.
  destruct (time_fields l) as (Hl & ? & ? & ? & ?), (time_fields r) as (Hr & ? & ? & ? & ?).
  unfold MakeDate, MakeTime, ms_per_day in Hl, Hr.
  destruct (Z.lt_trichotomy (Day l) (Day r)) as [Hlt | [Heq | Hgt]].
  - apply civil_from_days_mono in Hlt as Hlex.
    destruct (civil_from_days (Day l)) as [[y1 m1] d1], (civil_from_days (Day r)) as [[y2 m2] d2].
    simpl in *. unfold or_num. split_ifs; lia.
  - rewrite Heq in *. unfold or_num. rewrite !Z.sub_diag. simpl. split_ifs; lia.
  - apply civil_from_days_mono in Hgt as Hlex.
    destruct (civil_from_days (Day l)) as [[y1 m1] d1], (civil_from_days (Day r)) as [[y2 m2] d2].
    simpl in *. unfold or_num. split_ifs; lia.
Qed.

Lemma bind_Some {A B : Type} (f : A → option B) (x : A) : Some x ≫= f = f x.
Proof. reflexivity. Qed.

Lemma TimeClip_in_range (t : Z) : - max_time ≤ t ≤ max_time → TimeClip t = Some t.
Proof.
  intros Ht. unfold TimeClip. fold max_time.
  destruct (Z.leb_spec (Z.abs t) max_time); [done | lia].
Qed.

Lemma Day_mul (z : Z) : Day (z * ms_per_day) = z.
Proof. unfold Day. apply Z.div_mul. unfold ms_per_day. lia. Qed.

Lemma Date_UTC_fields (x : Z) :
  ¬ 0 ≤ YearFromTime x ≤ 99 →
  - max_time ≤ x ≤ max_time →
  Date_UTC (YearFromTime x) (MonthFromTime x) (DateFromTime x) (HourFromTime x)
           (MinFromTime x) (SecFromTime x) (msFromTime x) = Some x.
Proof.
  intros Hyear Hrange. unfold Date_UTC.
  assert ((0 <=? YearFromTime x) && (YearFromTime x <=? 99) = false) as ->.
  { apply andb_false_iff. rewrite !Z.leb_gt. lia. }
  pose proof (MakeDay_fields x 0) as Hday. rewrite !Z.sub_0_r in Hday.
  rewrite Hday, MakeTime_fields, day_time. by apply TimeClip_in_range.
Qed.

Lemma setUTCFullYear_same (x : Z) :
  - max_time ≤ x ≤ max_time → setUTCFullYear (Some x) (YearFromTime x) = Some x.
Proof.
  intros Hrange. unfold setUTCFullYear.
  change (default 0 (Some x)) with x.
  pose proof (MakeDay_fields x 0) as Hday. rewrite !Z.sub_0_r in Hday.
  rewrite Hday, day_time. by apply TimeClip_in_range.
Qed.

(** The local fields of a date read as a UTC time value are its local
    time, outside the years 0 to 99. *)
Lemma getTimezoneOffsetInMilliseconds_local (b : Browser) (t : Z) :
  ¬ 0 ≤ getFullYear b t ≤ 99 →
  - max_time ≤ LocalTime b t ≤ max_time →
  getTimezoneOffsetInMilliseconds b (Some t) = Some (t - LocalTime b t).
Proof.
  intros Hyear Hrange.
  unfold getTimezoneOffsetInMilliseconds, getFullYear, getMonth, getDate, getHours,
    getMinutes, getSeconds, getMilliseconds in *.
  rewrite bind_Some.
  rewrite Date_UTC_fields, setUTCFullYear_same by done. reflexivity.
Qed.

(** ** Days between two dates where the offset does not change *)

Section FixedOffset.

Variable b : Browser.
Variable offset : Z.
Hypothesis Hfixed : fixed_offset b offset.

Lemma LocalTime_fixed (t : Z) : LocalTime b t = t + offset.
Proof. unfold LocalTime. by rewrite (proj1 Hfixed). Qed.

Lemma UTC_fixed (t : Z) : UTC b t = t - offset.
Proof. unfold UTC. by rewrite (proj1 Hfixed). Qed.

Lemma Day_local (z : Z) : z - 1 ≤ Day (z * ms_per_day + offset) ≤ z + 1.
Proof.
  destruct Hfixed as [_ Hoff]. unfold Day, ms_per_day in *.
  Z.div_mod_to_equations. lia.
Qed.

Lemma year_from_100 (z : Z) : days_from_civil 100 1 1 ≤ z → 100 ≤ (civil_from_days z).1.1.
Proof.
  intros Hz. destruct (Z.eq_dec z (days_from_civil 100 1 1)) as [->|Hne]; [by vm_compute|].
  assert (days_from_civil 100 1 1 < z) as Hlt%civil_from_days_mono by lia.
  replace (civil_from_days (days_from_civil 100 1 1)) with (100, 1, 1) in Hlt
    by (vm_compute; reflexivity).
  destruct (civil_from_days z) as [[y m] d]. unfold lex_lt in Hlt. simpl. lia.
Qed.

Lemma startOfDay_fixed (t : Z) :
  - max_time + ms_per_day ≤ t ≤ max_time - ms_per_day →
  startOfDay b (Some t) = Some (Day (t + offset) * ms_per_day - offset).
Proof.
  intros Ht. destruct Hfixed as [_ Hoff].
  unfold startOfDay, setHours. rewrite bind_Some.
  rewrite LocalTime_fixed, UTC_fixed. unfold MakeDate, MakeTime.
  rewrite TimeClip_in_range; [f_equal; lia|].
  unfold Day, max_time, ms_per_day in *. Z.div_mod_to_equations. lia.
Qed.

Lemma differenceInCalendarDays_fixed (l r : Z) :
  common_era l → common_era r →
  differenceInCalendarDays b (Some (l * ms_per_day)) (Some (r * ms_per_day)) = Some (l - r).
Proof.
  intros Hl Hr. destruct Hfixed as [_ Hoff].
  assert (∀ z, common_era z →
            startOfDay b (Some (z * ms_per_day))
            = Some (Day (z * ms_per_day + offset) * ms_per_day - offset)
            ∧ getTimezoneOffsetInMilliseconds b
                (Some (Day (z * ms_per_day + offset) * ms_per_day - offset))
              = Some (- offset)) as Hstart.
  { intros z Hz. unfold common_era in Hz.
    replace (days_from_civil 100 1 2) with (-683002) in Hz by (vm_compute; reflexivity).
    replace (days_from_civil 9999 12 31) with 2932896 in Hz by (vm_compute; reflexivity).
    pose proof (Day_local z) as Hday.
    split.
    - apply startOfDay_fixed. unfold max_time, ms_per_day in *. lia.
    - rewrite getTimezoneOffsetInMilliseconds_local.
      + rewrite LocalTime_fixed. f_equal. lia.
      + unfold getFullYear. rewrite LocalTime_fixed.
        replace (Day (z * ms_per_day + offset) * ms_per_day - offset + offset)
          with (Day (z * ms_per_day + offset) * ms_per_day) by lia.
        unfold YearFromTime. rewrite Day_mul.
        pose proof (year_from_100 (Day (z * ms_per_day + offset))) as Hy.
        replace (days_from_civil 100 1 1) with (-683003) in Hy by (vm_compute; reflexivity).
        lia.
      + rewrite LocalTime_fixed. unfold max_time, ms_per_day in *. lia. }
  destruct (Hstart l Hl) as [Hsl Hol], (Hstart r Hr) as [Hsr Hor].
  unfold differenceInCalendarDays. rewrite Hsl, Hsr, !bind_Some, Hol, Hor, !bind_Some. f_equal.
  unfold Math_round_div, Day, ms_per_day in *. Z.div_mod_to_equations. lia.
Qed.

(** Between two UTC midnights the number of full local days is the
    difference of the day numbers. *)
Lemma differenceInDays_fixed (l r : Z) :
  common_era l → common_era r →
  differenceInDays b (Some (l * ms_per_day)) (Some (r * ms_per_day)) = Some (l - r).
Proof.
  intros Hl Hr. pose proof Hfixed as [_ Hoff].
  unfold differenceInDays.
  rewrite compareLocalAsc_sgn, differenceInCalendarDays_fixed, !bind_Some by done.
  rewrite !LocalTime_fixed.
  replace (l * ms_per_day + offset - (r * ms_per_day + offset)) with ((l - r) * ms_per_day)
    by lia.
  assert (Z.sgn ((l - r) * ms_per_day) = Z.sgn (l - r)) as ->.
  { rewrite Z.sgn_mul. unfold ms_per_day. simpl. lia. }
  assert (Z.sgn (l - r) * Z.abs (l - r) = l - r) as Hsa
    by (rewrite Z.mul_comm; apply Z.abs_sgn).
  rewrite Hsa.
  assert (setDate b (l * ms_per_day) (getDate b (l * ms_per_day) - (l - r))
          = Some (r * ms_per_day)) as ->.
  { unfold setDate, getDate. rewrite MakeDay_fields, LocalTime_fixed, UTC_fixed.
    unfold common_era in Hl, Hr.
    replace (days_from_civil 100 1 2) with (-683002) in * by (vm_compute; reflexivity).
    replace (days_from_civil 9999 12 31) with 2932896 in * by (vm_compute; reflexivity).
    assert (MakeDate (Day (l * ms_per_day + offset) - (l - r))
                     (TimeWithinDay (l * ms_per_day + offset)) - offset
            = r * ms_per_day) as ->.
    { pose proof (day_time (l * ms_per_day + offset)) as Hdt. unfold MakeDate in *. lia. }
    apply TimeClip_in_range. unfold max_time, ms_per_day. lia. }
  cbv zeta. rewrite compareLocalAsc_sgn, Z.sub_diag. change (Z.sgn 0) with 0. f_equal.
  case_bool_decide as Hsign.
  - assert (l - r = 0) as -> by (apply Z.sgn_null_iff; injection Hsign; lia). reflexivity.
  - by rewrite Z.sub_0_r.
Qed.

End FixedOffset.

Lemma parse_iso_date_valid (s : string) (y m d : Z) :
  parse_iso_date s = Some (y, m, d) → valid_civil y m d = true.
Proof.
  unfold parse_iso_date. case_bool_decide; [|done].
  destruct (digits_value 0 (String.substring 0 4 s)) as [y'|]; [|done].
  destruct (digits_value 0 (String.substring 5 2 s)) as [m'|]; [|done].
  destruct (digits_value 0 (String.substring 8 2 s)) as [d'|]; [|done].
  simpl. destruct (valid_civil y' m' d') eqn:Hv; [|done]. congruence.
Qed.

Lemma valid_civil_bounds (y m d : Z) :
  valid_civil y m d = true ↔ 1 ≤ m ≤ 12 ∧ 1 ≤ d ≤ days_in_month y m.
Proof. unfold valid_civil. rewrite !andb_true_iff, !Z.leb_le. tauto. Qed.

Lemma days_in_month_bounds (y m : Z) : 28 ≤ days_in_month y m ≤ 31.
Proof.
  unfold days_in_month.
  destruct (m =? 2); [destruct (is_leap y); lia|]. destruct (_ || _); lia.
Qed.

(** The day number grows by one from each calendar day to the next. *)
Lemma days_from_civil_next_day (y m d : Z) :
  valid_civil y m d = true →
  let '(y', m', d') := next_day (y, m, d) in
  valid_civil y' m' d' = true ∧ days_from_civil y' m' d' = days_from_civil y m d + 1.
Proof.
  intros [Hm Hd]%valid_civil_bounds. unfold next_day.
  destruct (Z.ltb_spec d (days_in_month y m)) as [Hlt|Hge].
  - split; [apply valid_civil_bounds; lia|].
    unfold days_from_civil. destruct (Z.leb_spec m 2); Z.div_mod_to_equations; lia.
  - assert (d = days_in_month y m) as -> by lia. clear Hge Hd.
    destruct (Z.ltb_spec m 12) as [Hm12|Hm12].
    + split; [apply valid_civil_bounds; pose proof (days_in_month_bounds y (m + 1)); lia|].
      assert (m = 1 ∨ m = 2 ∨ m = 3 ∨ m = 4 ∨ m = 5 ∨ m = 6 ∨ m = 7 ∨ m = 8 ∨ m = 9
              ∨ m = 10 ∨ m = 11) as Hcases by lia.
      unfold days_in_month, is_leap, days_from_civil.
      destruct Hcases as [->|[->|[->|[->|[->|[->|[->|[->|[->|[->| ->]]]]]]]]]]; simpl;
        repeat match goal with
               | |- context [?a =? ?b] => destruct (Z.eqb_spec a b); simpl
               end;
        Z.div_mod_to_equations; lia.
    + assert (m = 12) as -> by lia.
      split; [done|]. unfold days_in_month, days_from_civil. simpl.
      Z.div_mod_to_equations; lia.
Qed.

Lemma days_from_civil_iter (n : nat) (y m d : Z) :
  valid_civil y m d = true →
  let '(y', m', d') := Nat.iter n next_day (y, m, d) in
  valid_civil y' m' d' = true
  ∧ days_from_civil y' m' d' = days_from_civil y m d + Z.of_nat n.
Proof.
  intros Hv. induction n as [|n IH]; simpl.
  - split; [done | lia].
  - destruct (Nat.iter n next_day (y, m, d)) as [[y1 m1] d1].
    destruct IH as [Hv1 Hn].
    pose proof (days_from_civil_next_day y1 m1 d1 Hv1) as Hnext.
    destruct (next_day (y1, m1, d1)) as [[y2 m2] d2].
    destruct Hnext as [Hv2 Hs]. split; [done | lia].
Qed.

(** ** Reading a calendar date *)

Lemma digit_of_range (a : ascii) (n : Z) : digit_of a = Some n → 0 ≤ n ≤ 9.
Proof.
  unfold digit_of. destruct (_ && _) eqn:Hd; [|done]. intros [= <-].
  apply andb_prop in Hd as [?%Z.leb_le ?%Z.leb_le]. lia.
Qed.

Lemma parse_iso_date_text (s : string) (y m d : Z) :
  parse_iso_date s = Some (y, m, d) →
  String.substring 0 10 s = s
  ∧ String.substring 10 (String.length s - 10) s = ""
  ∧ 0 ≤ y ≤ 9999.
Proof.
  unfold parse_iso_date. case_bool_decide as Hs; [|done]. destruct Hs as (Hlen & _ & _).
  do 10 (destruct s as [|? s]; [discriminate Hlen|]).
  destruct s; [|discriminate Hlen]. clear Hlen.
  intros Hparse. split; [reflexivity|]. split; [reflexivity|].
  revert Hparse. cbn [String.substring digits_value mbind option_bind].
  repeat match goal with
         | |- context [digit_of ?a] =>
             let H := fresh "Hd" in
             destruct (digit_of a) eqn:H; [apply digit_of_range in H | discriminate]
         end.
  cbn [mbind option_bind]. destruct (valid_civil _ _ _); [|discriminate].
  intros [= <- _ _]. lia.
Qed.

Lemma days_from_civil_range (y m d : Z) :
  valid_civil y m d = true → 0 ≤ y ≤ 9999 →
  days_from_civil 0 1 1 ≤ days_from_civil y m d ≤ days_from_civil 9999 12 31.
Proof.
  intros [Hm Hd]%valid_civil_bounds Hy. pose proof (days_in_month_bounds y m).
  replace (days_from_civil 0 1 1) with (-719528) by (vm_compute; reflexivity).
  replace (days_from_civil 9999 12 31) with 2932896 by (vm_compute; reflexivity).
  unfold days_from_civil. split_ifs; Z.div_mod_to_equations; lia.
Qed.

Lemma days_from_civil_after_100 (y m d : Z) :
  valid_civil y m d = true → 100 < y → days_from_civil 100 1 2 ≤ days_from_civil y m d.
Proof.
  intros [Hm Hd]%valid_civil_bounds Hy.
  replace (days_from_civil 100 1 2) with (-683002) by (vm_compute; reflexivity).
  unfold days_from_civil. split_ifs; Z.div_mod_to_equations; lia.
Qed.

Lemma MakeDay_civil (y m d : Z) : 1 ≤ m ≤ 12 → MakeDay y (m - 1) d = days_from_civil y m d.
Proof.
  intros Hm. unfold MakeDay.
  replace ((m - 1) / 12) with 0 by (symmetry; apply Z.div_small; lia).
  rewrite Z.mod_small by lia.
  replace (y + 0) with y by lia. replace (m - 1 + 1) with m by lia.
  rewrite (days_from_civil_day y m d). lia.
Qed.

(** A calendar date is read as UTC midnight of that day, in every
    browser. *)
Lemma new_Date_calendar_date (b : Browser) (s : string) (y m d : Z) :
  parse_iso_date s = Some (y, m, d) →
  new_Date b (Some (VStr s)) = Some (days_from_civil y m d * ms_per_day).
Proof.
  intros Hparse.
  pose proof (parse_iso_date_text s y m d Hparse) as (Hdate & Htime & Hy).
  pose proof (parse_iso_date_valid s y m d Hparse) as Hvalid.
  pose proof (days_from_civil_range y m d Hvalid Hy) as Hrange.
  apply valid_civil_bounds in Hvalid as [Hm _].
  unfold new_Date, Date_parse. rewrite Hdate, Hparse, Htime, MakeDay_civil by done.
  unfold MakeDate. rewrite Z.add_0_r. apply TimeClip_in_range.
  replace (days_from_civil 0 1 1) with (-719528) in Hrange by (vm_compute; reflexivity).
  replace (days_from_civil 9999 12 31) with 2932896 in Hrange by (vm_compute; reflexivity).
  unfold max_time, ms_per_day. lia.
Qed.

Lemma calendar_date_common_era (s : string) (y m d : Z) :
  parse_iso_date s = Some (y, m, d) → 100 < y → common_era (days_from_civil y m d).
Proof.
  intros Hparse Hy.
  pose proof (parse_iso_date_text s y m d Hparse) as (_ & _ & Hy').
  pose proof (parse_iso_date_valid s y m d Hparse) as Hvalid.
  split; [by apply days_from_civil_after_100 | by apply days_from_civil_range].
Qed.

(** ** The day count of a leave *)

Lemma day_count_render_row (b : Browser) (leave : Row) :
  StaffLeaveManager.day_count (StaffLeaveManager.render_row b leave)
  = (λ n, n + 1) <$> differenceInDays b (new_Date b (leave !! "end_date"))
                                        (new_Date b (leave !! "start_date")).
Proof. reflexivity. Qed.

(** The day count of a leave with two calendar dates, where the offset
    from UTC does not change. *)
Lemma day_count_of_dates (b : Browser) (offset : Z) (leave : Row) (s e : string)
    (y1 m1 d1 y2 m2 d2 : Z) :
  fixed_offset b offset →
  leave !! "start_date" = Some (VStr s) →
  leave !! "end_date" = Some (VStr e) →
  parse_iso_date s = Some (y1, m1, d1) →
  parse_iso_date e = Some (y2, m2, d2) →
  100 < y1 → 100 < y2 →
  StaffLeaveManager.day_count (StaffLeaveManager.render_row b leave)
  = Some (days_from_civil y2 m2 d2 - days_from_civil y1 m1 d1 + 1).
Proof.
  intros Hfixed Hs He Hps Hpe Hy1 Hy2.
  rewrite day_count_render_row, Hs, He.
  rewrite (new_Date_calendar_date b s _ _ _ Hps), (new_Date_calendar_date b e _ _ _ Hpe).
  rewrite (differenceInDays_fixed b offset Hfixed);
    [reflexivity | by eapply calendar_date_common_era ..].
Qed.

(** C6. The day count is not always the inclusive number of days.  In a
    browser in New York, a leave from 2024-11-02 to 2024-11-04, over the
    night in which the clocks go back, is shown with 2 days; in a browser
    on UTC the same leave is shown with 3 days. *)
Theorem leave_day_count_across_clock_change :
  november_leave !! "start_date" = Some (VStr "2024-11-02")
  ∧ november_leave !! "end_date" = Some (VStr "2024-11-04")
  ∧ StaffLeaveManager.day_count (StaffLeaveManager.render_row new_york november_leave)
    = Some 2
  ∧ StaffLeaveManager.day_count (StaffLeaveManager.render_row (fixed_zone 0) november_leave)
    = Some 3.
Proof. repeat split; vm_compute; reflexivity. Qed.

(** ** Approve and reject controls *)

Lemma updated_row_status (leaveId status : string) (r : Row) :
  let r' := if matches [Eq "id" leaveId] r then {[ "status" := VStr status ]} ∪ r else r in
  r' !! "id" = Some (VStr leaveId) → r' !! "status" = Some (VStr status).
Proof.
  cbv zeta. destruct (matches [Eq "id" leaveId] r) eqn:Hm.
  - intros _. apply lookup_union_Some_l. by rewrite lookup_singleton_eq.
  - intros Hid. apply matches_single in Hid. congruence.
Qed.

(** C8. A row of the leave table carries the approve and reject controls
    exactly when its status is [pending] (and then both, aimed at that
    row's id); a row whose status is [approved] or [rejected] carries
    none.  Once [updateLeaveStatus] has been served and the list
    re-fetched, every listed leave with the targeted id has the new status
    and shows no controls. *)
Theorem leave_actions_only_while_pending :
  (∀ (b : Browser) (leave : Row),
     StaffLeaveManager.actions (StaffLeaveManager.render_row b leave) ≠ []
     ↔ leave !! "status" = Some (VStr "pending"))
  ∧ (∀ (b : Browser) (leave : Row),
       leave !! "status" = Some (VStr "pending") →
       StaffLeaveManager.actions (StaffLeaveManager.render_row b leave)
       = [ {| StaffLeaveManager.on_id := js_String (as_string (leave !! "id"));
              StaffLeaveManager.on_status := StaffLeaveManager.approved |};
           {| StaffLeaveManager.on_id := js_String (as_string (leave !! "id"));
              StaffLeaveManager.on_status := StaffLeaveManager.rejected |} ])
  ∧ (∀ (b : Browser) (leave : Row) (d : StaffLeaveManager.Decision),
       leave !! "status" = Some (VStr (StaffLeaveManager.status_text d)) →
       StaffLeaveManager.actions (StaffLeaveManager.render_row b leave) = [])
  ∧ (∀ (b : Browser) (s : StaffLeaveManager.State) (w : World StaffLeaveManager.State)
       (leaveId : string) (d : StaffLeaveManager.Decision),
       (∀ req, refuses (env w) req = None) →
       let w' := run (StaffLeaveManager.updateLeaveStatus s leaveId d) w in
       ∀ leave : Row,
         leave ∈ StaffLeaveManager.leaves (ui w') →
         leave !! "id" = Some (VStr leaveId) →
         leave !! "status" = Some (VStr (StaffLeaveManager.status_text d))
         ∧ StaffLeaveManager.actions (StaffLeaveManager.render_row b leave) = []).
Proof.
  assert (∀ (b : Browser) (leave : Row) (d : StaffLeaveManager.Decision),
       leave !! "status" = Some (VStr (StaffLeaveManager.status_text d)) →
       StaffLeaveManager.actions (StaffLeaveManager.render_row b leave) = []) as Hdone.
  { intros b leave d Hst. unfold StaffLeaveManager.render_row; simpl.
    rewrite Hst. by destruct d. }
  split; [|split; [|split; [exact Hdone|]]].
  - intros b leave. unfold StaffLeaveManager.render_row; simpl.
    case_bool_decide; split; congruence.
  - intros b leave Hst. unfold StaffLeaveManager.render_row; simpl.
    by rewrite bool_decide_eq_true_2.
  - intros b s w leaveId d Hserve w' leave Hin Hid.
    assert (leave !! "status" = Some (VStr (StaffLeaveManager.status_text d))) as Hst;
      [|by eauto].
    revert Hin. subst w'.
    unfold StaffLeaveManager.updateLeaveStatus, StaffLeaveManager.refetchLeaves,
      StaffLeaveManager.leaves_queryFn.
    munfold. simpl. rewrite Hserve. simpl. rewrite Hserve. simpl.
    intros (r & Hr & _ & ->)%elem_of_run_select.
    rewrite table_rows_insert in Hr. rewrite decide_True in Hr by done.
    apply list_elem_of_fmap in Hr as (r0 & -> & _).
    simpl in *.
    rewrite lookup_embed_row in Hid by (intros c; simpl; discriminate).
    rewrite lookup_embed_row by (intros c; simpl; discriminate).
    by apply (updated_row_status leaveId (StaffLeaveManager.status_text d) r0).
Qed.

Lemma leave_actions_only_while_pending_witness :
  let leave := <["status" := VStr "approved"]> new_year_leave in
  leave !! "status" = Some (VStr "approved")
  ∧ StaffLeaveManager.actions (StaffLeaveManager.render_row new_york leave) = [].
Proof.
  apply (proj2 (proj2 (proj2 leave_actions_only_while_pending))
           new_york leave_screen leave_world "l1" StaffLeaveManager.approved).
  - intros req. reflexivity.
  - assert (StaffLeaveManager.leaves
              (ui (run (StaffLeaveManager.updateLeaveStatus leave_screen "l1"
                          StaffLeaveManager.approved) leave_world))
            = [ <["status" := VStr "approved"]> new_year_leave ]) as ->
      by (vm_compute; reflexivity).
    apply list_elem_of_here.
  - reflexivity.
Defined.

(** ** Mutations address rows by id alone *)

(** C10. [updateLeaveStatus] issues one update and [handleDelete] one
    delete, each filtered by equality on the given id and nothing else
    (what follows are only the selects of the re-fetch); a row passes that
    filter exactly when its id is the given one, whichever restaurant it
    belongs to. *)
Theorem mutations_filter_by_id_only :
  (∀ (s : StaffLeaveManager.State) (leaveId : string) (d : StaffLeaveManager.Decision)
     (w : World StaffLeaveManager.State),
     ∃ rest,
       requests (new_events w (run (StaffLeaveManager.updateLeaveStatus s leaveId d) w))
       = Update "staff_leaves" {[ "status" := VStr (StaffLeaveManager.status_text d) ]}
                [Eq "id" leaveId] :: rest
       ∧ Forall is_select rest)
  ∧ (∀ (id : string) (w : World Staff.State),
       ∃ rest,
         requests (new_events w (run (Staff.handleDelete id) w))
         = Delete "staff" [Eq "id" id] :: rest
         ∧ Forall is_select rest)
  ∧ (∀ (id : string) (r : Row) (other : Value),
       (matches [Eq "id" id] r = true ↔ r !! "id" = Some (VStr id))
       ∧ matches [Eq "id" id] (<["restaurant_id" := other]> r) = matches [Eq "id" id] r).
Proof.
  split; [|split].
  - intros s leaveId d w.
    unfold StaffLeaveManager.updateLeaveStatus, StaffLeaveManager.refetchLeaves,
      StaffLeaveManager.leaves_queryFn.
    mrun; log_done; simpl; (eexists; split; [reflexivity | repeat constructor]).
  - intros id w.
    unfold Staff.handleDelete, Staff.refetch, Staff.queryFn, Staff.resolve_restaurant,
      Staff.set_staff.
    mrun; log_done; simpl; (eexists; split; [reflexivity | repeat constructor]).
  - intros id r other. split; [apply matches_single|].
    unfold matches; simpl. by rewrite lookup_insert_ne.
Qed.

(** A user of restaurant r1 deleting by id removes a row of restaurant
    r2. *)
Example handleDelete_crosses_tenants :
  auth_user (env roster_world) = Some "u1"
  ∧ bob !! "restaurant_id" = Some (VStr "r2")
  ∧ table_rows (db roster_world) "staff" = [bob; alice]
  ∧ table_rows (db (run (Staff.handleDelete "s2") roster_world)) "staff" = [alice].
Proof. repeat split; vm_compute; reflexivity. Qed.

Lemma mutations_filter_by_id_only_witness : matches [Eq "id" "s2"] bob = true.
Proof.
  apply (proj1 (proj2 (proj2 mutations_filter_by_id_only) "s2" bob VNull)).
  reflexivity.
Defined.

(** ** Editing a staff member *)

Lemma dom_staffData (formData : gmap string string) :
  dom (Staff.staffData formData) = staff_columns.
Proof.
  unfold Staff.staffData, staff_columns. rewrite !dom_insert_L, ?dom_singleton_L, ?dom_empty_L. set_solver.
Qed.

(** Columns outside the payload are left alone by an update. *)
Lemma update_frame (payload : Row) (fs : list Filter) (k : string) (rows : list Row) :
  k ∉ dom payload →
  Forall2 (λ r r' : Row, r' !! k = r !! k) rows
          ((λ r, if matches fs r then payload ∪ r else r) <$> rows).
Proof.
  intros Hk%not_elem_of_dom. induction rows as [|r rows IH]; constructor; [|done].
  destruct (matches fs r); [|done]. by rewrite lookup_union_r.
Qed.

Lemma same_identity_refl (rows : list Row) : Forall2 same_identity rows rows.
Proof. induction rows; constructor; by auto. Qed.

Lemma staff_update_same_identity (formData : gmap string string) (fs : list Filter)
    (db : Database) :
  Forall2 same_identity (table_rows db "staff")
    (table_rows (<["staff" := (λ r, if matches fs r then Staff.staffData formData ∪ r else r)
                               <$> table_rows db "staff"]> db) "staff").
Proof.
  rewrite table_rows_insert, decide_True by done.
  pose proof (update_frame (Staff.staffData formData) fs "id" (table_rows db "staff")) as Hid.
  pose proof (update_frame (Staff.staffData formData) fs "restaurant_id"
                (table_rows db "staff")) as Hrid.
  rewrite dom_staffData in Hid, Hrid.
  apply Forall2_same_length_lookup. split; [by rewrite length_fmap|].
  intros i r r' Hr Hr'. split.
  - eapply Forall2_lookup_lr in Hid; [exact Hid| |done..]. by vm_compute.
  - eapply Forall2_lookup_lr in Hrid; [exact Hrid| |done..]. by vm_compute.
Qed.

(** The tenant lookup and the re-fetch only read. *)
Lemma resolve_restaurant_quiet (w : World Staff.State) :
  ∃ evs, run Staff.resolve_restaurant w = mkWorld (ui w) (db w) (env w) (log w ++ evs)
         ∧ updates evs = [] ∧ inserted evs = [].
Proof.
  set (w' := run Staff.resolve_restaurant w). frozen w'.
  unfold Staff.resolve_restaurant.
  mgo; intros ->; first [ by exists []; rewrite app_nil_r; destruct w
                        | eexists; split; [reflexivity | done] ].
Qed.

Lemma refetch_quiet (w : World Staff.State) :
  ∃ evs st, Staff.refetch w = (Returned (), mkWorld st (db w) (env w) (log w ++ evs))
            ∧ updates evs = [] ∧ inserted evs = [].
Proof.
  unfold Staff.refetch, Staff.queryFn, Staff.resolve_restaurant, Staff.set_staff.
  mgo; first [ by exists [], (ui w); rewrite app_nil_r; destruct w
             | do 2 eexists; split; [rewrite <- ?app_assoc; reflexivity | done] ].
Qed.

(** C9. While a staff member is being edited, the payload of
    [handleSubmit] has exactly the columns first_name, last_name,
    position, phone, email and Shift, so neither [id] nor
    [restaurant_id].  Whenever the tenant lookup succeeds exactly one
    update is issued, on [staff], with that payload and filtered on the
    edited member's id; when the lookup fails none is issued and the
    tables are untouched.  A served update gives the matching rows the
    payload's columns and leaves every other row as it is.  Nothing is
    inserted, and the rows of [staff] keep every column outside the
    payload, [id] and [restaurant_id] among them, position by position. *)
Theorem handleSubmit_edit_payload_frame (s : Staff.State) (member : Row)
    (formData : gmap string string) (w : World Staff.State) :
  Staff.editingStaff s = Some member →
  let w' := run (Staff.handleSubmit s formData) w in
  let payload := Staff.staffData formData in
  let target := [Eq "id" (js_String (as_string (member !! "id")))] in
  dom payload = staff_columns
  ∧ payload !! "id" = None ∧ payload !! "restaurant_id" = None
  ∧ (∀ rid, result Staff.resolve_restaurant w = Returned rid →
       updates (new_events w w') = [("staff", payload, target)])
  ∧ (∀ e, result Staff.resolve_restaurant w = Thrown e →
       updates (new_events w w') = [] ∧ db w' = db w)
  ∧ (∀ rid, result Staff.resolve_restaurant w = Returned rid →
       refuses (env w) (Update "staff" payload target) = None →
       table_rows (db w') "staff"
       = (λ r, if matches target r then payload ∪ r else r) <$> table_rows (db w) "staff")
  ∧ Forall (λ u, u.1.1 = "staff"
                 ∧ dom u.1.2 = staff_columns
                 ∧ u.1.2 !! "id" = None ∧ u.1.2 !! "restaurant_id" = None
                 ∧ u.2 = target)
           (updates (new_events w w'))
  ∧ inserted (new_events w w') = []
  ∧ (∀ k, k ∉ staff_columns →
       Forall2 (λ r r' : Row, r' !! k = r !! k)
               (table_rows (db w) "staff") (table_rows (db w') "staff"))
  ∧ Forall2 same_identity (table_rows (db w) "staff") (table_rows (db w') "staff").
Proof.
  intros Hedit w' payload target.
  assert (payload !! "id" = None ∧ payload !! "restaurant_id" = None) as [Hid Hrid].
  { split; apply not_elem_of_dom; subst payload; rewrite dom_staffData; by vm_compute. }
  assert (dom payload = staff_columns) as Hdom by apply dom_staffData.
  split; [exact Hdom|]. split; [exact Hid|]. split; [exact Hrid|].
  assert (∀ k (rows : list Row), Forall2 (λ r r' : Row, r' !! k = r !! k) rows rows) as Hsame.
  { intros k rows. induction rows; constructor; auto. }
  (* the run, split at the tenant lookup and at the re-fetch *)
  destruct (resolve_restaurant_quiet w) as (evs1 & Hlookup & Hu1 & Hi1).
  assert (∃ evs,
            log w' = log w ++ evs ∧ inserted evs = []
            ∧ match result Staff.resolve_restaurant w with
              | Returned _ =>
                  updates evs = [("staff", payload, target)]
                  ∧ match refuses (env w) (Update "staff" payload target) with
                    | None => db w' = <["staff" := (λ r, if matches target r then payload ∪ r
                                                          else r) <$> table_rows (db w) "staff"]>
                                        (db w)
                    | Some _ => db w' = db w
                    end
              | Thrown _ => updates evs = [] ∧ db w' = db w
              end) as (evs & Hlog & Hins & Hcases).
  { subst w' payload target. unfold result, run in *.
    unfold Staff.handleSubmit, Staff.setIsAddDialogOpen, Staff.setEditingStaff.
    rewrite Hedit. mred.
    destruct (Staff.resolve_restaurant w) as [[rid|e] w1]; simpl in Hlookup; subst w1.
    - mred. destruct (refuses _ _) as [e|] eqn:Hrefused.
      + mred. eexists. split; [simpl; rewrite <- ?app_assoc; reflexivity|].
        rewrite !inserted_app, !updates_app, Hi1, Hu1. done.
      + mred.
        match goal with
        | |- context [Staff.refetch ?w0] =>
            destruct (refetch_quiet w0) as (evs2 & st & -> & Hu2 & Hi2)
        end.
        mred. eexists. split; [simpl; rewrite <- ?app_assoc; reflexivity|].
        rewrite !inserted_app, !updates_app, Hi1, Hu1, Hi2, Hu2. done.
    - mred. eexists. split; [simpl; rewrite <- ?app_assoc; reflexivity|].
      rewrite !inserted_app, !updates_app, Hi1, Hu1. done. }
  erewrite new_events_app by exact Hlog. clearbody w'.
  split; [intros rid Hres; rewrite Hres in Hcases; apply Hcases|].
  split; [intros e Hres; rewrite Hres in Hcases; apply Hcases|].
  split.
  { intros rid Hres Hserved. rewrite Hres, Hserved in Hcases. destruct Hcases as [_ ->].
    by rewrite table_rows_insert, decide_True by done. }
  split.
  { destruct (result Staff.resolve_restaurant w); destruct Hcases as [-> _];
      repeat constructor; done. }
  split; [exact Hins|].
  assert (db w' = db w
          ∨ db w' = <["staff" := (λ r, if matches target r then payload ∪ r else r)
                                 <$> table_rows (db w) "staff"]> (db w)) as [-> | ->].
  { destruct (result Staff.resolve_restaurant w); [|left; apply Hcases].
    destruct Hcases as [_ Hdb]. destruct (refuses _ _); auto. }
  - split; [intros k _; apply Hsame | apply same_identity_refl].
  - split; [|apply staff_update_same_identity].
    intros k Hk. rewrite table_rows_insert, decide_True by done.
    apply update_frame. by rewrite Hdom.
Qed.

Lemma handleSubmit_edit_payload_frame_witness :
  updates (new_events roster_world
             (run (Staff.handleSubmit roster_editing roster_form) roster_world))
  = [("staff", Staff.staffData roster_form, [Eq "id" "s1"])].
Proof.
  destruct (handleSubmit_edit_payload_frame roster_editing alice roster_form roster_world)
    as (_ & _ & _ & Hupdate & _).
  - reflexivity.
  - apply (Hupdate "r1"). vm_compute. reflexivity.
Defined.

(** On that roster the edit does issue its update, and only the edited
    member's row changes. *)
Example handleSubmit_edit_issues_update :
  updates (new_events roster_world
             (run (Staff.handleSubmit roster_editing roster_form) roster_world))
  = [("staff", Staff.staffData roster_form, [Eq "id" "s1"])]
  ∧ table_rows (db (run (Staff.handleSubmit roster_editing roster_form) roster_world)) "staff"
    = [bob; Staff.staffData roster_form ∪ alice].
Proof. split; vm_compute; reflexivity. Qed.

(** ** The roster list is scoped to the tenant *)

(** C2. When the roster's list operation returns, the acting user has a
    profile whose [restaurant_id] is the resolved tenant, and every
    returned record is a stored staff row whose [restaurant_id] equals
    it.  The staff selector of the leave screen likewise returns only
    projections of staff rows whose [restaurant_id] is the resolved
    one, and issues nothing while no restaurant is resolved. *)
Theorem staff_list_scoped_to_tenant :
  (∀ (w : World Staff.State) (rows : list Row),
     result Staff.queryFn w = Returned rows →
     ∃ uid rid profile,
       auth_user (env w) = Some uid
       ∧ profile ∈ table_rows (db w) "profiles"
       ∧ profile !! "id" = Some (VStr uid)
       ∧ profile !! "restaurant_id" = Some (VStr rid)
       ∧ result Staff.resolve_restaurant w = Returned rid
       ∧ ∀ r, r ∈ rows →
           r ∈ table_rows (db w) "staff" ∧ r !! "restaurant_id" = Some (VStr rid))
  ∧ (∀ (s : StaffLeaveManager.State) (w : World StaffLeaveManager.State)
       (rows : list Row),
       result (StaffLeaveManager.staff_queryFn s) w = Returned rows →
       ∀ x, x ∈ rows →
         ∃ r, r ∈ table_rows (db w) "staff"
              ∧ r !! "restaurant_id"
                = Some (VStr (js_String (StaffLeaveManager.restaurantId s)))
              ∧ x = project ["id"; "first_name"; "last_name"; "position"] r)
  ∧ (∀ (s : StaffLeaveManager.State) (w : World StaffLeaveManager.State),
       truthy_opt (StaffLeaveManager.restaurantId s) = false →
       run (StaffLeaveManager.staff_query s) w = w).
Proof.
  split; [|split].
  - intros w rows.
    unfold Staff.queryFn, Staff.resolve_restaurant.
    munfold; simpl.
    destruct (auth_user (env w)) as [uid|] eqn:Hauth; [|discriminate].
    mrun; intros Hres; simplify_eq.
    match goal with
    | Hsel : run_select _ "profiles" _ _ _ = [?p] |- _ =>
        assert (p ∈ run_select (db w) "profiles" (Cols ["restaurant_id"])
                      [Eq "id" uid] None) as Hp by (rewrite Hsel; apply list_elem_of_here)
    end.
    apply elem_of_run_select in Hp as (profile & Hprofile & Hid%matches_single & ->).
    simpl in *.
    destruct (project ["restaurant_id"] profile !! "restaurant_id") as [[|rid| |]|] eqn:Hrid;
      simpl in *; try discriminate.
    apply lookup_project in Hrid as [Hrid _].
    exists uid, rid, profile. split_and!; try done.
    intros r (r0 & Hr0 & Hm%matches_single & ->)%elem_of_run_select. done.
  - intros s w rows.
    unfold StaffLeaveManager.staff_queryFn.
    mrun; intros Hres; simplify_eq.
    intros x (r & Hr & Hm%matches_single & ->)%elem_of_run_select. by exists r.
  - intros s w Hoff. unfold StaffLeaveManager.staff_query. by rewrite Hoff.
Qed.

Lemma staff_list_scoped_to_tenant_witness :
  alice ∈ table_rows two_tenants "staff" ∧ alice !! "restaurant_id" = Some (VStr "r1").
Proof.
  destruct (proj1 staff_list_scoped_to_tenant roster_world [alice])
    as (uid & rid & profile & _ & _ & _ & _ & Hrid & Hrows).
  - vm_compute. reflexivity.
  - assert (rid = "r1") as -> by (vm_compute in Hrid; congruence).
    apply (Hrows alice). apply list_elem_of_here.
Defined.

(** ** One upload attempt *)

Arguments AddMenuItemForm.accepted_url : simpl never.

Ltac ucase :=
  match goal with
  | |- context [match AddMenuItemForm.accepted_url ?d with _ => _ end] =>
      destruct (AddMenuItemForm.accepted_url d) eqn:?
  end.

Ltac urun := repeat (munfold; simpl; try first [mcase | ucase]).

Lemma accepted_url_truthy (d : UploadData) (u : string) :
  AddMenuItemForm.accepted_url d = Some u → truthy u = true.
Proof.
  unfold AddMenuItemForm.accepted_url. case_bool_decide; [|done].
  destruct (image d) as [[[u'|]]|]; simpl; try done.
  destruct (truthy u') eqn:Hu; [|done]. congruence.
Qed.

Lemma uploadImage_attempt (s : AddMenuItemForm.State) (w : World AddMenuItemForm.State)
    (file : File) :
  AddMenuItemForm.selectedFile s = Some file →
  ∃ evs, Attempt w (run (AddMenuItemForm.uploadImage s) w)
                 (result (AddMenuItemForm.uploadImage s) w) evs.
Proof.
  intros Hfile.
  unfold AddMenuItemForm.uploadImage, AddMenuItemForm.read_base64, AddMenuItemForm.fetch,
    AddMenuItemForm.response_json, AddMenuItemForm.setIsUploading,
    AddMenuItemForm.setUploadProgress, AddMenuItemForm.setUploadedImageUrl,
    AddMenuItemForm.form_setValue_image_url.
  rewrite Hfile.
  urun;
    (eexists; split;
     [ simpl; rewrite <- ?app_assoc; reflexivity
     | reflexivity | reflexivity | reflexivity
     | split; reflexivity
     | repeat split; reflexivity
     | simpl;
       match goal with
       | |- ∃ before, ?l = _ => exists (take (length l - 2) l); reflexivity
       end
     | simpl;
       first [ left; eexists; repeat split; eauto using accepted_url_truthy; fail
             | right; repeat split; [ | eexists; reflexivity];
               first [ exists 1%nat; split; [lia|reflexivity]
                     | exists 2%nat; split; [lia|reflexivity]
                     | exists 3%nat; split; [lia|reflexivity]
                     | exists 4%nat; split; [lia|reflexivity]
                     | exists 5%nat; split; [lia|reflexivity] ] ] ]).
Qed.

Lemma uploadImage_without_file (s : AddMenuItemForm.State) (w : World AddMenuItemForm.State) :
  AddMenuItemForm.selectedFile s = None →
  AddMenuItemForm.uploadImage s w = (Returned None, w).
Proof. intros Hnone. unfold AddMenuItemForm.uploadImage. by rewrite Hnone. Qed.

(** The outcome of an attempt is decided by the closure and the
    environment's answers alone. *)
Lemma uploadImage_result_env (s : AddMenuItemForm.State)
    (w1 w2 : World AddMenuItemForm.State) :
  env w1 = env w2 →
  result (AddMenuItemForm.uploadImage s) w1 = result (AddMenuItemForm.uploadImage s) w2.
Proof.
  intros Henv.
  unfold AddMenuItemForm.uploadImage, AddMenuItemForm.read_base64, AddMenuItemForm.fetch,
    AddMenuItemForm.response_json, AddMenuItemForm.setIsUploading,
    AddMenuItemForm.setUploadProgress, AddMenuItemForm.setUploadedImageUrl,
    AddMenuItemForm.form_setValue_image_url.
  destruct (AddMenuItemForm.selectedFile s); [|done].
  munfold; simpl. rewrite Henv. urun; reflexivity.
Qed.

(** ** Submitting the menu item *)

(** [onSubmit] with a file selected and nothing uploaded yet: after the
    inline attempt it issues the insert with the attempt's URL if there is
    one and the form's value otherwise, and nothing else reaches the
    backend. *)
Lemma onSubmit_inline_upload (s : AddMenuItemForm.State) (data : AddMenuItemForm.FormData)
    (w : World AddMenuItemForm.State) (file : File) :
  AddMenuItemForm.selectedFile s = Some file →
  truthy (AddMenuItemForm.uploadedImageUrl s) = false →
  truthy_opt (resolved_restaurant s) = true →
  let w1 := mkWorld (AddMenuItemForm.with_isSubmitting true (ui w)) (db w) (env w)
                    (log w ++ [ConsoleLog "Submitting menu item:"]) in
  let w2 := run (AddMenuItemForm.uploadImage s) w1 in
  let imageUrl := match result (AddMenuItemForm.uploadImage s) w1 with
                  | Returned (Some u) => u
                  | _ => AddMenuItemForm.image_url data
                  end in
  let w' := run (AddMenuItemForm.onSubmit s data) w in
  ∃ tail,
    log w' = log w2 ++ Backend (Insert "menu_items"
                                  [menu_record data imageUrl
                                     (js_String (resolved_restaurant s))]) :: tail
    ∧ requests tail = []
    ∧ ui w' = AddMenuItemForm.with_isSubmitting false (ui w2).
Proof.
  intros Hfile Hurl Hrest. unfold resolved_restaurant in *.
  unfold AddMenuItemForm.onSubmit, AddMenuItemForm.setIsSubmitting.
  rewrite Hfile, Hurl, Hrest. cbn [negb bool_decide andb].
  rewrite bool_decide_eq_true_2 by eauto.
  munfold. cbn zeta. simpl.
  match goal with
  | |- context [AddMenuItemForm.uploadImage s ?w1] =>
      destruct (uploadImage_attempt s w1 file Hfile) as [evs Ha];
      unfold run, result in Ha;
      destruct (AddMenuItemForm.uploadImage s w1) as [o w2] eqn:Hup
  end.
  simpl in Ha.
  destruct (attempt_outcome _ _ _ _ Ha) as [(u & -> & Hu & _)|(-> & _)]; simpl.
  - rewrite Hu.
    destruct (refuses (env w2) _); simpl;
      (eexists; split; [rewrite <- ?app_assoc; reflexivity | split; reflexivity]).
  - destruct (refuses (env w2) _); simpl;
      (eexists; split; [rewrite <- ?app_assoc; reflexivity | split; reflexivity]).
Qed.

(** The listed causes of failure do make the attempt return null. *)
Lemma uploadImage_failure_causes (s : AddMenuItemForm.State)
    (w : World AddMenuItemForm.State) (file : File) :
  AddMenuItemForm.selectedFile s = Some file →
  (∃ e, reader (env w) file = ReadFailed e)
  ∨ (∀ req, ∃ r, http (env w) req = FetchResponse r
                 ∧ (ok r = false
                    ∨ ∃ d, json r = JsonData d ∧ AddMenuItemForm.accepted_url d = None)) →
  result (AddMenuItemForm.uploadImage s) w = Returned None.
Proof.
  intros Hfile Hcause.
  unfold AddMenuItemForm.uploadImage, AddMenuItemForm.read_base64, AddMenuItemForm.fetch,
    AddMenuItemForm.response_json, AddMenuItemForm.setIsUploading,
    AddMenuItemForm.setUploadProgress, AddMenuItemForm.setUploadedImageUrl,
    AddMenuItemForm.form_setValue_image_url.
  rewrite Hfile.
  destruct Hcause as [[e He]|Hhost].
  - munfold; simpl. rewrite He. reflexivity.
  - urun; try reflexivity;
      match goal with
      | H : http _ ?req = FetchResponse ?r |- _ =>
          destruct (Hhost req) as (r' & Hr' & [Hok|(d' & Hd' & Hacc)]);
          rewrite Hr' in H; simplify_eq; congruence
      end.
Qed.

Lemma truthy_false (u : string) : truthy u = false → u = "".
Proof.
  unfold truthy. destruct (String.eqb_spec u ""); [done | discriminate].
Qed.

Lemma uploadImage_keeps_rest (s : AddMenuItemForm.State) (w : World AddMenuItemForm.State) :
  let w' := run (AddMenuItemForm.uploadImage s) w in
  AddMenuItemForm.isSubmitting (ui w') = AddMenuItemForm.isSubmitting (ui w)
  ∧ (AddMenuItemForm.isUploading (ui w) = false
     ∧ AddMenuItemForm.uploadProgress (ui w) = 0
     ∧ AddMenuItemForm.image_url (AddMenuItemForm.form (ui w))
       = AddMenuItemForm.uploadedImageUrl (ui w) →
     AddMenuItemForm.isUploading (ui w') = false
     ∧ AddMenuItemForm.uploadProgress (ui w') = 0
     ∧ AddMenuItemForm.image_url (AddMenuItemForm.form (ui w'))
       = AddMenuItemForm.uploadedImageUrl (ui w')).
Proof.
  destruct (AddMenuItemForm.selectedFile s) as [file|] eqn:Hfile; simpl.
  - destruct (uploadImage_attempt s w file Hfile) as [evs Ha].
    destruct (attempt_idle _ _ _ _ Ha) as [? ?].
    destruct (attempt_frame _ _ _ _ Ha) as (? & _).
    split; [done|]. intros (Hupl & Hprog & Hurl). repeat split; try done.
    destruct (attempt_outcome _ _ _ _ Ha)
      as [(u & _ & _ & Hu & Hform & _)|(_ & Hu & Hform & _)].
    + by rewrite Hform, Hu.
    + by rewrite Hform, Hu.
  - unfold run. rewrite uploadImage_without_file by done. done.
Qed.

Lemma onSubmit_keeps_rest (s : AddMenuItemForm.State) (data : AddMenuItemForm.FormData)
    (w : World AddMenuItemForm.State) :
  at_rest (ui w) → at_rest (ui (run (AddMenuItemForm.onSubmit s data) w)).
Proof.
  intros Hrest.
  destruct (truthy_opt (resolved_restaurant s)) eqn:Hres.
  - destruct (AddMenuItemForm.selectedFile s) as [file|] eqn:Hfile.
    + destruct (truthy (AddMenuItemForm.uploadedImageUrl s)) eqn:Hurl.
      * unfold resolved_restaurant in Hres.
        unfold AddMenuItemForm.onSubmit, AddMenuItemForm.setIsSubmitting.
        rewrite Hres, Hurl, andb_false_r. cbn [negb].
        destruct Hrest as (? & ? & ? & ?). mrun; done.
      * destruct (onSubmit_inline_upload s data w file Hfile Hurl Hres)
          as (tail & _ & _ & ->).
        match goal with
        | |- context [run (AddMenuItemForm.uploadImage s) ?w1] =>
            pose proof (uploadImage_keeps_rest s w1) as Hkeep
        end.
        destruct Hrest as (? & ? & ? & ?).
        destruct Hkeep as (_ & Hkeep). destruct Hkeep as (? & ? & ?); done.
    + unfold resolved_restaurant in Hres.
      unfold AddMenuItemForm.onSubmit, AddMenuItemForm.setIsSubmitting.
      rewrite Hres, Hfile. cbn [negb].
      rewrite bool_decide_eq_false_2 by (by intros [? ?]).
      destruct Hrest as (? & ? & ? & ?). mrun; done.
  - unfold resolved_restaurant in Hres.
    unfold AddMenuItemForm.onSubmit, AddMenuItemForm.setIsSubmitting.
    rewrite Hres. destruct Hrest as (? & ? & ? & ?). mrun; done.
Qed.

Lemma perform_keeps_rest (a : AddMenuItemForm.Action) (w : World AddMenuItemForm.State) :
  at_rest (ui w) → at_rest (ui (run (AddMenuItemForm.perform a (ui w)) w)).
Proof.
  intros Hrest. destruct a as [files| | |n d p c| |]; simpl.
  - unfold AddMenuItemForm.handleFileChange, AddMenuItemForm.setSelectedFile.
    destruct (files ≫= head) as [file|]; [|done].
    destruct (_ <? _); [done|]. destruct (negb _); done.
  - destruct (_ && _); [|done].
    pose proof (uploadImage_keeps_rest (ui w) w) as [Hsub Hkeep].
    destruct Hrest as (? & ? & ? & ?).
    destruct Hkeep as (? & ? & ?); [done|].
    unfold run, mbind, M_bind in *.
    destruct (AddMenuItemForm.uploadImage (ui w) w) as [[?|?] ?]; simpl in *;
      repeat split; congruence.
  - destruct (_ || _); [|done].
    destruct Hrest as (? & ? & ? & ?). done.
  - destruct Hrest as (? & ? & ? & ?). done.
  - destruct (_ || _); [done|]. by apply onSubmit_keeps_rest.
  - unfold AddMenuItemForm.userProfile_query, AddMenuItemForm.userProfile_queryFn.
    destruct Hrest as (? & ? & ? & ?). mrun; done.
Qed.

Lemma reachable_at_rest (w : World AddMenuItemForm.State) :
  AddMenuItemForm.reachable w → at_rest (ui w).
Proof.
  induction 1 as [db env|w a _ IH|w db' env' _ IH]; simpl.
  - done.
  - by apply perform_keeps_rest.
  - done.
Qed.

Lemma form_ready_reachable : AddMenuItemForm.reachable form_ready.
Proof.
  unfold form_ready, form_profiled, form_start.
  apply AddMenuItemForm.reach_step, AddMenuItemForm.reach_step, AddMenuItemForm.reach_init.
Qed.

(** C3. When the inline upload attempt of [onSubmit] fails, the one
    record inserted into [menu_items] carries the [image_url] that the
    form held at submission, a destructive "Upload failed" notification is
    shown, and neither the form's [image_url] nor the uploaded URL
    changes.  In every state the form can reach, that value is the empty
    string. *)
Theorem failed_upload_url_not_inserted :
  (∀ (s : AddMenuItemForm.State) (data : AddMenuItemForm.FormData)
     (w : World AddMenuItemForm.State) (file : File),
     AddMenuItemForm.selectedFile s = Some file →
     truthy (AddMenuItemForm.uploadedImageUrl s) = false →
     truthy_opt (resolved_restaurant s) = true →
     result (AddMenuItemForm.uploadImage s) w = Returned None →
     let w' := run (AddMenuItemForm.onSubmit s data) w in
     inserted (new_events w w')
     = [("menu_items",
         menu_record data (AddMenuItemForm.image_url data) (js_String (resolved_restaurant s)))]
     ∧ (∃ msg, mkToast "Upload failed" (Some msg) (Some "destructive")
               ∈ toasts (new_events w w'))
     ∧ AddMenuItemForm.uploadedImageUrl (ui w') = AddMenuItemForm.uploadedImageUrl (ui w)
     ∧ AddMenuItemForm.form (ui w') = AddMenuItemForm.form (ui w))
  ∧ (∀ (w : World AddMenuItemForm.State) (file : File),
       AddMenuItemForm.reachable w →
       AddMenuItemForm.selectedFile (ui w) = Some file →
       truthy (AddMenuItemForm.uploadedImageUrl (ui w)) = false →
       truthy_opt (resolved_restaurant (ui w)) = true →
       result (AddMenuItemForm.uploadImage (ui w)) w = Returned None →
       let w' := run (AddMenuItemForm.perform AddMenuItemForm.ClickSubmit (ui w)) w in
       ∃ record,
         inserted (new_events w w') = [("menu_items", record)]
         ∧ record !! "image_url" = Some (VStr "")).
Proof.
  assert (∀ (s : AddMenuItemForm.State) (data : AddMenuItemForm.FormData)
     (w : World AddMenuItemForm.State) (file : File),
     AddMenuItemForm.selectedFile s = Some file →
     truthy (AddMenuItemForm.uploadedImageUrl s) = false →
     truthy_opt (resolved_restaurant s) = true →
     result (AddMenuItemForm.uploadImage s) w = Returned None →
     let w' := run (AddMenuItemForm.onSubmit s data) w in
     inserted (new_events w w')
     = [("menu_items",
         menu_record data (AddMenuItemForm.image_url data) (js_String (resolved_restaurant s)))]
     ∧ (∃ msg, mkToast "Upload failed" (Some msg) (Some "destructive")
               ∈ toasts (new_events w w'))
     ∧ AddMenuItemForm.uploadedImageUrl (ui w') = AddMenuItemForm.uploadedImageUrl (ui w)
     ∧ AddMenuItemForm.form (ui w') = AddMenuItemForm.form (ui w)) as Hinline.
  { intros s data w file Hfile Hurl Hrest Hfail w'. subst w'.
    destruct (onSubmit_inline_upload s data w file Hfile Hurl Hrest)
      as (tail & Hlog & Htail & Hui).
    set (w1 := mkWorld (AddMenuItemForm.with_isSubmitting true (ui w)) (db w) (env w)
                       (log w ++ [ConsoleLog "Submitting menu item:"])) in *.
    rewrite (uploadImage_result_env s w1 w) in Hlog by reflexivity.
    rewrite Hfail in Hlog.
    destruct (uploadImage_attempt s w1 file Hfile) as [evs Ha].
    rewrite (uploadImage_result_env s w1 w), Hfail in Ha by reflexivity.
    destruct (attempt_outcome _ _ _ _ Ha)
      as [(u & Hu & _)|(_ & Hkeep_url & Hkeep_form & _ & msg & Htoast)]; [discriminate|].
    rewrite (attempt_log _ _ _ _ Ha) in Hlog. simpl in Hlog.
    rewrite <- !app_assoc in Hlog.
    rewrite (new_events_app _ _ _ Hlog).
    split; [|split; [|split]].
    - rewrite !inserted_app.
      rewrite (inserted_no_requests evs) by apply Ha.
      change (Backend ?r :: tail) with ([Backend r] ++ tail).
      rewrite inserted_app, (inserted_no_requests tail) by done. reflexivity.
    - exists msg. rewrite !toasts_app, Htoast. set_solver.
    - rewrite Hui. simpl. exact Hkeep_url.
    - rewrite Hui. simpl. exact Hkeep_form. }
  split; [exact Hinline|].
  intros w file Hreach Hfile Hurl Hrest Hfail w'. subst w'.
  destruct (reachable_at_rest w Hreach) as (Hsub & Hupl & _ & Himg).
  simpl. rewrite Hsub, Hupl. simpl.
  destruct (Hinline (ui w) (AddMenuItemForm.form (ui w)) w file Hfile Hurl Hrest Hfail)
    as (Hins & _).
  eexists. split; [exact Hins|].
  rewrite Himg, (truthy_false _ Hurl). reflexivity.
Qed.

Lemma failed_upload_url_not_inserted_witness :
  ∃ record,
    inserted (new_events form_ready
                (run (AddMenuItemForm.perform AddMenuItemForm.ClickSubmit (ui form_ready))
                     form_ready))
    = [("menu_items", record)]
    ∧ record !! "image_url" = Some (VStr "").
Proof.
  apply (proj2 failed_upload_url_not_inserted form_ready small_png).
  - exact form_ready_reachable.
  - vm_compute. reflexivity.
  - vm_compute. reflexivity.
  - vm_compute. reflexivity.
  - vm_compute. reflexivity.
Defined.

(** C7. An attempt with a selected file sets the progress to an initial
    segment of 10, 30, 50, 80, 100 (at least the first value) and then to
    0; a successful attempt goes through all five, whatever the file and
    the reply; the attempt ends by clearing the uploading flag and
    resetting the progress.  Without a selected file nothing is done.  In
    every state the form can reach, the uploading flag is cleared and the
    progress is 0 when [uploadImage] returns. *)
Theorem uploadImage_progress_checkpoints :
  (∀ (s : AddMenuItemForm.State) (w : World AddMenuItemForm.State) (file : File),
     AddMenuItemForm.selectedFile s = Some file →
     let w' := run (AddMenuItemForm.uploadImage s) w in
     let shown := progress_values (new_events w w') in
     (∃ n, (1 ≤ n ≤ 5)%nat ∧ shown = take n [10; 30; 50; 80; 100] ++ [0])
     ∧ (∀ u, result (AddMenuItemForm.uploadImage s) w = Returned (Some u) →
             shown = [10; 30; 50; 80; 100; 0])
     ∧ (∃ before, new_events w w' = before ++ [SetIsUploading false; SetUploadProgress 0])
     ∧ AddMenuItemForm.isUploading (ui w') = false
     ∧ AddMenuItemForm.uploadProgress (ui w') = 0)
  ∧ (∀ (s : AddMenuItemForm.State) (w : World AddMenuItemForm.State),
       AddMenuItemForm.selectedFile s = None →
       run (AddMenuItemForm.uploadImage s) w = w
       ∧ result (AddMenuItemForm.uploadImage s) w = Returned None)
  ∧ (∀ w : World AddMenuItemForm.State,
       AddMenuItemForm.reachable w →
       let w' := run (AddMenuItemForm.uploadImage (ui w)) w in
       AddMenuItemForm.isUploading (ui w') = false
       ∧ AddMenuItemForm.uploadProgress (ui w') = 0)
  ∧ (∀ (s1 s2 : AddMenuItemForm.State) (w1 w2 : World AddMenuItemForm.State)
       (u1 u2 : string),
       result (AddMenuItemForm.uploadImage s1) w1 = Returned (Some u1) →
       result (AddMenuItemForm.uploadImage s2) w2 = Returned (Some u2) →
       progress_values (new_events w1 (run (AddMenuItemForm.uploadImage s1) w1))
       = progress_values (new_events w2 (run (AddMenuItemForm.uploadImage s2) w2))).
Proof.
  assert (∀ (s : AddMenuItemForm.State) (w : World AddMenuItemForm.State) (u : string),
            result (AddMenuItemForm.uploadImage s) w = Returned (Some u) →
            progress_values (new_events w (run (AddMenuItemForm.uploadImage s) w))
            = [10; 30; 50; 80; 100; 0]) as Hfull.
  { intros s w u Hres.
    destruct (AddMenuItemForm.selectedFile s) as [file|] eqn:Hfile.
    - destruct (uploadImage_attempt s w file Hfile) as [evs Ha].
      rewrite (new_events_app _ _ evs) by apply Ha.
      destruct (attempt_outcome _ _ _ _ Ha) as [(u' & _ & _ & _ & _ & Hp & _)|(Hnone & _)].
      + exact Hp.
      + congruence.
    - unfold result in Hres. rewrite uploadImage_without_file in Hres by done. discriminate. }
  split; [|split; [|split]].
  - intros s w file Hfile w' shown. subst w' shown.
    destruct (uploadImage_attempt s w file Hfile) as [evs Ha].
    rewrite (new_events_app _ _ evs) by apply Ha.
    split; [|split; [|split; [|apply Ha]]].
    + destruct (attempt_outcome _ _ _ _ Ha) as [(u & _ & _ & _ & _ & Hp & _)|(_ & _ & _ & Hp & _)].
      * exists 5%nat. split; [lia | exact Hp].
      * exact Hp.
    + intros u Hres. rewrite <- (Hfull s w u Hres).
      by rewrite (new_events_app _ _ evs) by apply Ha.
    + apply Ha.
  - intros s w Hnone. unfold run, result. by rewrite uploadImage_without_file.
  - intros w Hreach w'. subst w'.
    destruct (reachable_at_rest w Hreach) as (_ & Hupl & Hprog & Himg).
    destruct (uploadImage_keeps_rest (ui w) w) as (_ & Hkeep).
    destruct Hkeep as (? & ? & _); done.
  - intros s1 s2 w1 w2 u1 u2 H1 H2. by rewrite (Hfull _ _ _ H1), (Hfull _ _ _ H2).
Qed.

Lemma uploadImage_progress_checkpoints_witness :
  progress_values (new_events upload_world
                     (run (AddMenuItemForm.uploadImage upload_screen) upload_world))
  = [10; 30; 50; 80; 100; 0].
Proof.
  destruct (proj1 uploadImage_progress_checkpoints upload_screen upload_world small_png
              eq_refl) as (_ & Hfull & _).
  apply (Hfull "https://iili.io/dish.png"). vm_compute. reflexivity.
Defined.

(** * Further properties *)

(** ** The leave screen *)

Lemma leave_guard (s : StaffLeaveManager.State) :
  negb (truthy (StaffLeaveManager.selectedStaffId s))
  || negb (truthy (StaffLeaveManager.startDate s))
  || negb (truthy (StaffLeaveManager.endDate s))
  || negb (truthy_opt (StaffLeaveManager.restaurantId s))
  = negb (leave_form_complete s).
Proof.
  unfold leave_form_complete.
  by destruct (truthy _), (truthy _), (truthy _), (truthy_opt _).
Qed.

(** X1. [handleAddLeave] has three outcomes.  With a required field
    missing it only shows the "Missing information" notification: no
    request, state and tables untouched.  With the insert refused it shows
    the error notification, keeps the form as it was (dialog open, fields
    kept) and does not re-fetch.  With the insert served the form is
    emptied, the dialog closed and the list re-fetched. *)
Theorem handleAddLeave_outcomes (s : StaffLeaveManager.State)
    (w : World StaffLeaveManager.State) :
  let w' := run (StaffLeaveManager.handleAddLeave s) w in
  let evs := new_events w w' in
  (leave_form_complete s = false →
     ui w' = ui w ∧ db w' = db w
     ∧ evs = [Toast (mkToast "Missing information"
                       (Some "Please fill in all required fields") (Some "destructive"))])
  ∧ (leave_form_complete s = true →
     ∀ e, refuses (env w) (Insert "staff_leaves" [leave_record s]) = Some e →
       ui w' = ui w ∧ db w' = db w
       ∧ requests evs = [Insert "staff_leaves" [leave_record s]]
       ∧ toasts evs = [mkToast "Error" (Some "Failed to add leave request. Please try again.")
                         (Some "destructive")])
  ∧ (leave_form_complete s = true →
     refuses (env w) (Insert "staff_leaves" [leave_record s]) = None →
       leave_form_cleared (ui w')
       ∧ table_rows (db w') "staff_leaves"
         = table_rows (db w) "staff_leaves" ++ [leave_record s]
       ∧ ∃ refetch, requests evs = [Insert "staff_leaves" [leave_record s]; refetch]
                    ∧ is_write refetch = false
       ∧ toasts evs = [mkToast "Leave request submitted"
                         (Some "The leave request has been added successfully") None]).
Proof.
  intros w' evs. subst evs. frozen w'.
  unfold StaffLeaveManager.handleAddLeave, StaffLeaveManager.refetchLeaves,
    StaffLeaveManager.leaves_queryFn.
  rewrite leave_guard. unfold leave_record.
  destruct (leave_form_complete s); cbn [negb truthy_opt].
  - mred. mcase.
    + mgo. intros ->. split_and!; try discriminate. intros _ e' [= <-]. log_done. split_and!; reflexivity.
    + mgo; intros ->; (split_and!; try discriminate); intros _ _; log_done; simpl;
        (split; [done|]);
        (split; [by rewrite table_rows_insert, decide_True by done|]);
        (eexists; split_and!; reflexivity).
  - mgo. intros ->. split_and!; try discriminate. intros _. split_and!; [done | done | by log_done].
Qed.

(** X2. A leave request that was added is listed: when the form is
    complete and the backend serves the insert and the re-fetch, the list
    shown afterwards contains a leave with the staff member, dates and
    reason entered, the acting restaurant and status [pending]. *)
Theorem added_leave_is_listed (s : StaffLeaveManager.State)
    (w : World StaffLeaveManager.State) (rid : string) :
  leave_form_complete s = true →
  StaffLeaveManager.restaurantId s = Some rid →
  serves (env w) →
  let w' := run (StaffLeaveManager.handleAddLeave s) w in
  ∃ leave : Row,
    leave ∈ StaffLeaveManager.leaves (ui w')
    ∧ leave !! "staff_id" = Some (VStr (StaffLeaveManager.selectedStaffId s))
    ∧ leave !! "start_date" = Some (VStr (StaffLeaveManager.startDate s))
    ∧ leave !! "end_date" = Some (VStr (StaffLeaveManager.endDate s))
    ∧ leave !! "reason" = Some (VStr (StaffLeaveManager.reason s))
    ∧ leave !! "restaurant_id" = Some (VStr rid)
    ∧ leave !! "status" = Some (VStr "pending").
Proof.
  intros Hcomplete Hrid Hserve w'. frozen w'.
  unfold StaffLeaveManager.handleAddLeave, StaffLeaveManager.refetchLeaves,
    StaffLeaveManager.leaves_queryFn.
  rewrite leave_guard, Hcomplete, Hrid. cbn [negb StaffLeaveManager.str_value js_String].
  mserved Hserve. intros ->. simpl.
  eexists. split.
  - apply elem_of_run_select. eexists. split; [|split; [|reflexivity]].
    + rewrite table_rows_insert, decide_True by done.
      apply elem_of_app. right. apply list_elem_of_here.
    + apply matches_single. reflexivity.
  - simpl. rewrite !lookup_embed_row by (intros c; simpl; discriminate).
    split_and!; reflexivity.
Qed.

(** ** Lists: complete and ordered *)

Lemma key_leb_total (a b : option string) : key_leb a b = true ∨ key_leb b a = true.
Proof. destruct a, b; simpl; auto using String.leb_total. Qed.

Lemma key_leb_trans (a b c : option string) :
  key_leb a b = true → key_leb b c = true → key_leb a c = true.
Proof.
  destruct a as [x|], b as [y|], c as [z|]; simpl; try done.
  intros Hxy%Is_true_true Hyz%Is_true_true. apply Is_true_true.
  by apply (transitivity (R:=String.le) (y:=y)).
Qed.

Global Instance ordered_by_total (o : Order) : Total (ordered_by o).
Proof.
  intros r1 r2. unfold ordered_by, row_leb.
  destruct (ascending o);
    destruct (key_leb_total (as_string (r1 !! by_column o)) (as_string (r2 !! by_column o)))
      as [-> | ->]; auto.
Qed.

Global Instance ordered_by_trans (o : Order) : Transitive (ordered_by o).
Proof.
  intros r1 r2 r3. unfold ordered_by, row_leb.
  destruct (ascending o); intros H12%Is_true_true H23%Is_true_true; apply Is_true_true;
    eauto using key_leb_trans.
Qed.

Lemma sort_rows_sorted (o : Order) (rs : list Row) :
  StronglySorted (ordered_by o) (sort_rows (Some o) rs).
Proof. unfold sort_rows. apply (StronglySorted_merge_sort (ordered_by o)). Qed.

Lemma run_select_permutation db t cols fs o :
  run_select db t cols fs o ≡ₚ shape db cols <$> List.filter (matches fs) (table_rows db t).
Proof.
  unfold run_select. apply fmap_Permutation.
  destruct o as [o|]; simpl; [apply merge_sort_Permutation | done].
Qed.

(** Shaping the rows keeps the order when it keeps the ordering column. *)
Lemma run_select_sorted db t cols fs (o : Order) :
  (∀ r, shape db cols r !! by_column o = r !! by_column o) →
  StronglySorted (ordered_by o) (run_select db t cols fs (Some o)).
Proof.
  intros Hkeep. unfold run_select.
  apply StronglySorted_fmap with (R1 := ordered_by o); [|apply sort_rows_sorted].
  intros r1 r2. unfold ordered_by, row_leb. by rewrite !Hkeep.
Qed.

(** X3. The leave list, when its query returns: it is, up to order, the
    stored leaves of the resolved restaurant, each with its staff columns
    joined (none missing, none from elsewhere), and it is ordered by start
    date, latest first.  While no restaurant is resolved the query issues
    nothing. *)
Theorem leave_list_complete_and_ordered :
  (∀ (s : StaffLeaveManager.State) (w : World StaffLeaveManager.State) (rows : list Row),
     result (StaffLeaveManager.leaves_queryFn s) w = Returned rows →
     rows ≡ₚ embed_row (db w) staff_embed
             <$> List.filter
                   (matches [Eq "restaurant_id" (js_String (StaffLeaveManager.restaurantId s))])
                   (table_rows (db w) "staff_leaves")
     ∧ (∀ leave, leave ∈ rows →
          leave !! "restaurant_id"
          = Some (VStr (js_String (StaffLeaveManager.restaurantId s))))
     ∧ StronglySorted (ordered_by newest_first) rows)
  ∧ (∀ (s : StaffLeaveManager.State) (w : World StaffLeaveManager.State),
       truthy_opt (StaffLeaveManager.restaurantId s) = false →
       run (StaffLeaveManager.leaves_query s) w = w).
Proof.
  split.
  - intros s w rows. unfold StaffLeaveManager.leaves_queryFn.
    mgo; intros [= <-]. fold staff_embed newest_first.
    split_and!.
    + apply run_select_permutation.
    + intros leave (r & _ & Hm%matches_single & ->)%elem_of_run_select.
      simpl. by rewrite lookup_embed_row by (intros c; simpl; discriminate).
    + apply run_select_sorted. intros r. simpl.
      by rewrite lookup_embed_row by (intros c; simpl; discriminate).
  - intros s w Hoff. unfold StaffLeaveManager.leaves_query. by rewrite Hoff.
Qed.

Lemma leave_list_complete_and_ordered_witness :
  new_year_leave !! "restaurant_id" = Some (VStr "r1").
Proof.
  destruct (proj1 leave_list_complete_and_ordered leave_screen leave_world [new_year_leave])
    as (_ & Hscope & _).
  - vm_compute. reflexivity.
  - apply Hscope, list_elem_of_here.
Defined.

(** ** Deciding a leave *)

Lemma matches_single_bool (c k : string) (r : Row) :
  matches [Eq c k] r = bool_decide (r !! c = Some (VStr k)).
Proof. unfold matches; simpl. by rewrite andb_true_r. Qed.

(** X4. [updateLeaveStatus] served: the stored leaves are the former
    ones, in place, where exactly those with the given id have their
    status overwritten, whatever it was before, and every other column
    and every other table is left alone.  Refused: nothing is stored, the
    list is not re-fetched and the error notification is shown. *)
Theorem updateLeaveStatus_outcomes (s : StaffLeaveManager.State)
    (w : World StaffLeaveManager.State) (leaveId : string)
    (d : StaffLeaveManager.Decision) :
  let req := Update "staff_leaves" {[ "status" := VStr (StaffLeaveManager.status_text d) ]}
                    [Eq "id" leaveId] in
  let w' := run (StaffLeaveManager.updateLeaveStatus s leaveId d) w in
  (refuses (env w) req = None →
     table_rows (db w') "staff_leaves"
     = decide_leave leaveId d <$> table_rows (db w) "staff_leaves"
     ∧ (∀ t, t ≠ "staff_leaves" → table_rows (db w') t = table_rows (db w) t)
     ∧ toasts (new_events w w')
       = [mkToast ("Leave " +:+ StaffLeaveManager.status_text d)
            (Some ("The leave request has been " +:+ StaffLeaveManager.status_text d)) None])
  ∧ (∀ e, refuses (env w) req = Some e →
       ui w' = ui w ∧ db w' = db w
       ∧ requests (new_events w w') = [req]
       ∧ toasts (new_events w w')
         = [mkToast "Error" (Some "Failed to update leave status. Please try again.")
              (Some "destructive")]).
Proof.
  intros req w'. subst req. frozen w'.
  unfold StaffLeaveManager.updateLeaveStatus, StaffLeaveManager.refetchLeaves,
    StaffLeaveManager.leaves_queryFn.
  mred. mcase.
  - mgo. intros ->. split; [discriminate|]. intros e' [= <-]. log_done. done.
  - mgo; intros ->; (split; [intros _|discriminate]); log_done; simpl;
      (split; [|split]); try done.
    all: try (intros t Ht; rewrite table_rows_insert; by rewrite decide_False by done).
    all: rewrite table_rows_insert, decide_True by done;
      apply list_fmap_ext; intros i r _; unfold decide_leave;
      rewrite matches_single_bool; case_bool_decide; [|done];
      by rewrite insert_union_singleton_l.
Qed.

(** The two decisions are not guarded on the current status: a rejected
    leave can still be approved. *)
Example approve_after_reject :
  let w1 := run (StaffLeaveManager.updateLeaveStatus leave_screen "l1"
                   StaffLeaveManager.rejected) leave_world in
  let w2 := run (StaffLeaveManager.updateLeaveStatus (ui w1) "l1"
                   StaffLeaveManager.approved) w1 in
  (λ r : Row, r !! "status") <$> table_rows (db w1) "staff_leaves" = [Some (VStr "rejected")]
  ∧ (λ r : Row, r !! "status") <$> table_rows (db w2) "staff_leaves" = [Some (VStr "approved")].
Proof. split; vm_compute; reflexivity. Qed.

Lemma updateLeaveStatus_outcomes_witness :
  table_rows
    (db (run (StaffLeaveManager.updateLeaveStatus leave_screen "l1" StaffLeaveManager.approved)
           leave_world)) "staff_leaves"
  = decide_leave "l1" StaffLeaveManager.approved <$> table_rows (db leave_world) "staff_leaves".
Proof.
  apply (proj1 (updateLeaveStatus_outcomes leave_screen leave_world "l1"
                  StaffLeaveManager.approved)).
  reflexivity.
Defined.

(** ** What a row of the leave table shows *)

Lemma getStatusBadge_default (st : option Value) :
  st ≠ Some (VStr "approved") → st ≠ Some (VStr "rejected") →
  StaffLeaveManager.getStatusBadge st = "Pending".
Proof.
  intros Ha Hr. unfold StaffLeaveManager.getStatusBadge.
  repeat case_match; try reflexivity; subst; congruence.
Qed.

(** X5. The status badge falls back to "Pending" for any status other
    than [approved] and [rejected], while the controls require exactly
    [pending]: a leave with an unknown or missing status is shown as
    Pending and yet offers neither approve nor reject. *)
Theorem unknown_status_shows_pending_without_controls (b : Browser) (leave : Row) :
  unknown_status leave →
  StaffLeaveManager.status_badge (StaffLeaveManager.render_row b leave) = "Pending"
  ∧ StaffLeaveManager.actions (StaffLeaveManager.render_row b leave) = [].
Proof.
  intros (Hp & Ha & Hr). unfold StaffLeaveManager.render_row; simpl. split.
  - by apply getStatusBadge_default.
  - by rewrite bool_decide_eq_false_2.
Qed.

Lemma unknown_status_shows_pending_without_controls_witness :
  let leave := <["status" := VStr "cancelled"]> new_year_leave in
  StaffLeaveManager.status_badge (StaffLeaveManager.render_row new_york leave) = "Pending"
  ∧ StaffLeaveManager.actions (StaffLeaveManager.render_row new_york leave) = [].
Proof.
  apply (unknown_status_shows_pending_without_controls new_york
           (<["status" := VStr "cancelled"]> new_year_leave)).
  split_and!; vm_compute; discriminate.
Defined.

(** ** Day counts where the offset from UTC does not change *)

Lemma fixed_zone_fixed (offset : Z) :
  - ms_per_day < offset < ms_per_day → fixed_offset (fixed_zone offset) offset.
Proof. intros Hoff. split; [reflexivity | exact Hoff]. Qed.

Lemma next_day_year (n : nat) (date : Z * Z * Z) :
  date.1.1 ≤ (Nat.iter n next_day date).1.1.
Proof.
  induction n as [|n IH]; simpl; [lia|].
  destruct (Nat.iter n next_day date) as [[y m] d]. simpl in *.
  destruct (d <? days_in_month y m); [simpl; lia|]. destruct (m <? 12); simpl; lia.
Qed.

(** X6. Nothing makes the end of a leave follow its start.  In a browser
    whose zone keeps one offset from UTC, when the end date lies [n]
    calendar days before the start date (both after the year 100), the
    table shows [1 - n] days: 0 for the day before and a negative count
    beyond. *)
Theorem day_count_when_end_precedes_start (b : Browser) (offset : Z) (leave : Row)
    (s e : string) (last : Z * Z * Z) (n : nat) :
  fixed_offset b offset →
  leave !! "start_date" = Some (VStr s) →
  leave !! "end_date" = Some (VStr e) →
  parse_iso_date e = Some last →
  parse_iso_date s = Some (Nat.iter n next_day last) →
  100 < last.1.1 →
  StaffLeaveManager.day_count (StaffLeaveManager.render_row b leave) = Some (1 - Z.of_nat n).
Proof.
  intros Hfixed Hs He Hpe Hps Hyear.
  pose proof (next_day_year n last) as Hlater.
  destruct last as [[y m] d].
  pose proof (days_from_civil_iter n y m d (parse_iso_date_valid _ _ _ _ Hpe)) as Hiter.
  destruct (Nat.iter n next_day (y, m, d)) as [[y1 m1] d1].
  destruct Hiter as [_ Hn]. simpl in Hyear, Hlater.
  rewrite (day_count_of_dates b offset leave s e y1 m1 d1 y m d) by (done || lia).
  f_equal. lia.
Qed.

Lemma day_count_when_end_precedes_start_witness :
  let leave : Row := {[ "start_date" := VStr "2024-03-01"; "end_date" := VStr "2024-02-28" ]} in
  StaffLeaveManager.day_count (StaffLeaveManager.render_row (fixed_zone 0) leave) = Some (-1).
Proof.
  apply (day_count_when_end_precedes_start (fixed_zone 0) 0
           {[ "start_date" := VStr "2024-03-01"; "end_date" := VStr "2024-02-28" ]}
           "2024-03-01" "2024-02-28" (2024, 2, 28) 2).
  - apply fixed_zone_fixed. vm_compute. split; reflexivity.
  - vm_compute. reflexivity.
  - vm_compute. reflexivity.
  - vm_compute. reflexivity.
  - vm_compute. reflexivity.
  - vm_compute. reflexivity.
Defined.

(** X25. In a browser whose zone keeps one offset from UTC, the day
    count of a leave whose start and end are calendar dates after the
    year 100 is inclusive: the day number of the end date minus that of
    the start date, plus one; [n + 1] when the end is [n] calendar days
    after the start; 3 for a leave from 2024-01-01 to 2024-01-03. *)
Theorem leave_day_count_inclusive_in_fixed_zone (b : Browser) (offset : Z) :
  fixed_offset b offset →
  (∀ (leave : Row) (s e : string) (y1 m1 d1 y2 m2 d2 : Z),
     leave !! "start_date" = Some (VStr s) →
     leave !! "end_date" = Some (VStr e) →
     parse_iso_date s = Some (y1, m1, d1) →
     parse_iso_date e = Some (y2, m2, d2) →
     100 < y1 → 100 < y2 →
     StaffLeaveManager.day_count (StaffLeaveManager.render_row b leave)
     = Some (days_from_civil y2 m2 d2 - days_from_civil y1 m1 d1 + 1))
  ∧ (∀ (leave : Row) (s e : string) (start : Z * Z * Z) (n : nat),
       leave !! "start_date" = Some (VStr s) →
       leave !! "end_date" = Some (VStr e) →
       parse_iso_date s = Some start →
       parse_iso_date e = Some (Nat.iter n next_day start) →
       100 < start.1.1 →
       StaffLeaveManager.day_count (StaffLeaveManager.render_row b leave)
       = Some (Z.of_nat n + 1))
  ∧ (∀ leave : Row,
       leave !! "start_date" = Some (VStr "2024-01-01") →
       leave !! "end_date" = Some (VStr "2024-01-03") →
       StaffLeaveManager.day_count (StaffLeaveManager.render_row b leave) = Some 3).
Proof.
  intros Hfixed. split; [|split].
  - intros leave s e y1 m1 d1 y2 m2 d2. by apply (day_count_of_dates b offset).
  - intros leave s e start n Hs He Hps Hpe Hyear.
    pose proof (next_day_year n start) as Hlater.
    destruct start as [[y m] d].
    pose proof (days_from_civil_iter n y m d (parse_iso_date_valid _ _ _ _ Hps)) as Hiter.
    destruct (Nat.iter n next_day (y, m, d)) as [[y2 m2] d2].
    destruct Hiter as [_ Hn]. simpl in Hyear, Hlater.
    rewrite (day_count_of_dates b offset leave s e y m d y2 m2 d2) by (done || lia).
    f_equal. lia.
  - intros leave Hs He.
    rewrite (day_count_of_dates b offset leave _ _ 2024 1 1 2024 1 3 Hfixed Hs He);
      [reflexivity | by vm_compute ..].
Qed.

Lemma leave_day_count_inclusive_in_fixed_zone_witness :
  StaffLeaveManager.day_count (StaffLeaveManager.render_row (fixed_zone 19800000) new_year_leave)
  = Some 3.
Proof.
  apply (proj2 (proj2 (leave_day_count_inclusive_in_fixed_zone (fixed_zone 19800000) 19800000
                         (fixed_zone_fixed 19800000 (conj eq_refl eq_refl))))
           new_year_leave); reflexivity.
Defined.

(** ** Uploading the image *)

Ltac ugo := repeat (mred; cbn [negb truthy_opt]; try first [mcase | ucase]).

Ltac unfold_uploadImage :=
  unfold AddMenuItemForm.uploadImage, AddMenuItemForm.read_base64, AddMenuItemForm.fetch,
    AddMenuItemForm.response_json, AddMenuItemForm.setIsUploading,
    AddMenuItemForm.setUploadProgress, AddMenuItemForm.setUploadedImageUrl,
    AddMenuItemForm.form_setValue_image_url.

(** X7. One upload attempt reads the selected file once and posts at
    most once, always to the fixed endpoint with the fixed key and the
    text taken from what was read; it posts nothing when the read fails
    and never retries.  It issues no backend request, leaves the tables
    alone and invokes no callback. *)
Theorem uploadImage_posts_at_most_once (s : AddMenuItemForm.State)
    (w : World AddMenuItemForm.State) (file : File) :
  AddMenuItemForm.selectedFile s = Some file →
  let w' := run (AddMenuItemForm.uploadImage s) w in
  let evs := new_events w w' in
  ((∃ dataUrl, reader (env w) file = ReadLoaded (Some dataUrl) ∧ truthy dataUrl = true
               ∧ fetches evs = [upload_request (source_of dataUrl)])
   ∨ ((∀ dataUrl, reader (env w) file = ReadLoaded (Some dataUrl) → truthy dataUrl = false)
      ∧ fetches evs = []
      ∧ result (AddMenuItemForm.uploadImage s) w = Returned None))
  ∧ omap (λ e, match e with ReadAsDataURL f => Some f | _ => None end) evs = [file]
  ∧ requests evs = [] ∧ callbacks evs = [] ∧ db w' = db w.
Proof.
  intros Hfile w' evs. subst evs. frozen w'.
  unfold result. unfold_uploadImage. rewrite Hfile.
  ugo; intros ->; log_done; simpl;
    (split; [|done]);
    first [ left; eexists; split_and!; [reflexivity | eassumption | reflexivity]
          | right; split_and!; [intros ? [= <-]; assumption | done | done]
          | right; split_and!; [intros ? ?; discriminate | done | done] ].
Qed.

Lemma split_on_comma_free (q : string) :
  comma_free q = true → split_on "," q = [q].
Proof.
  induction q as [|a q IH]; simpl; [done|].
  intros [Ha Hq]%andb_prop. apply negb_true_iff in Ha. rewrite Ha, (IH Hq). done.
Qed.

Lemma split_on_first_comma (p rest : string) :
  comma_free p = true → split_on "," (p +:+ String "," rest) = p :: split_on "," rest.
Proof.
  induction p as [|a p IH]; simpl; [done|].
  intros [Ha Hp]%andb_prop. apply negb_true_iff in Ha. rewrite Ha, (IH Hp). done.
Qed.

Lemma truthy_with_comma (p q : string) : truthy (p +:+ "," +:+ q) = true.
Proof. by destruct p. Qed.

(** X8. What is posted as [source] is the text after the first comma of
    the data URL the reader produced: for a data URL [header,payload]
    with no other comma, the payload itself.  A non-empty result without
    any comma is posted as the text "undefined". *)
Theorem uploadImage_posts_payload (s : AddMenuItemForm.State)
    (w : World AddMenuItemForm.State) (file : File) (dataUrl : string) :
  AddMenuItemForm.selectedFile s = Some file →
  reader (env w) file = ReadLoaded (Some dataUrl) →
  let posted := fetches (new_events w (run (AddMenuItemForm.uploadImage s) w)) in
  (∀ header payload,
     dataUrl = header +:+ "," +:+ payload →
     comma_free header = true → comma_free payload = true →
     posted = [upload_request payload])
  ∧ (truthy dataUrl = true → comma_free dataUrl = true →
     posted = [upload_request "undefined"]).
Proof.
  intros Hfile Hread posted.
  assert (truthy dataUrl = true → posted = [upload_request (source_of dataUrl)]) as Hposted.
  { intros Hnonempty. subst posted.
    set (w' := run (AddMenuItemForm.uploadImage s) w). frozen w'.
    unfold_uploadImage. rewrite Hfile. mred.
    cbv beta iota zeta delta [env] in Hread. rewrite Hread, Hnonempty.
    ugo; intros ->; log_done; reflexivity. }
  split.
  - intros header payload -> Hh Hp.
    rewrite Hposted by apply truthy_with_comma.
    unfold source_of.
    change (header +:+ "," +:+ payload) with (header +:+ String "," payload).
    rewrite split_on_first_comma by done.
    by rewrite split_on_comma_free.
  - intros Hnonempty Hfree. rewrite (Hposted Hnonempty).
    unfold source_of. by rewrite split_on_comma_free.
Qed.

Lemma uploadImage_posts_payload_witness :
  fetches (new_events upload_world (run (AddMenuItemForm.uploadImage upload_screen) upload_world))
  = [upload_request "AAAA"].
Proof.
  apply (proj1 (uploadImage_posts_payload upload_screen upload_world small_png
                  "data:image/png;base64,AAAA" eq_refl eq_refl)
           "data:image/png;base64" "AAAA"); reflexivity.
Defined.

Lemma accepted_url_spec (d : UploadData) (u : string) :
  AddMenuItemForm.accepted_url d = Some u
  ↔ status_code d = Some 200 ∧ image d = Some {| image_url_of := Some u |} ∧ truthy u = true.
Proof.
  unfold AddMenuItemForm.accepted_url. case_bool_decide as Hcode.
  - destruct (image d) as [[[u'|]]|]; simpl.
    + destruct (truthy u') eqn:Hu; split.
      * intros [= ->]. done.
      * intros (_ & [= ->] & _). done.
      * done.
      * intros (_ & [= ->] & Hu'). congruence.
    + split; [done | intros (_ & [=] & _)].
    + split; [done | intros (_ & [=] & _)].
  - split; [done | intros (? & _); done].
Qed.

(** X9. An upload attempt succeeds exactly when a file is selected, the
    reader yields a non-empty result, the host answers the post with an OK
    response whose JSON has [status_code] 200 and an image with a
    non-empty URL; the attempt then returns that URL. *)
Theorem uploadImage_succeeds_iff (s : AddMenuItemForm.State)
    (w : World AddMenuItemForm.State) (u : string) :
  result (AddMenuItemForm.uploadImage s) w = Returned (Some u)
  ↔ ∃ file dataUrl r d,
      AddMenuItemForm.selectedFile s = Some file
      ∧ reader (env w) file = ReadLoaded (Some dataUrl) ∧ truthy dataUrl = true
      ∧ http (env w) (upload_request (source_of dataUrl)) = FetchResponse r
      ∧ ok r = true ∧ json r = JsonData d
      ∧ status_code d = Some 200 ∧ image d = Some {| image_url_of := Some u |}
      ∧ truthy u = true.
Proof.
  split.
  - unfold result. unfold_uploadImage.
    destruct (AddMenuItemForm.selectedFile s) as [file|]; [|discriminate].
    unfold upload_request, source_of.
    ugo; intros [= <-].
    match goal with H : AddMenuItemForm.accepted_url _ = Some _ |- _ =>
      apply accepted_url_spec in H as (? & ? & ?) end.
    do 4 eexists. split_and!; try done; eassumption.
  - intros (file & dataUrl & r & d & Hfile & Hread & Hne & Hhttp & Hok & Hjson & Hacc).
    apply accepted_url_spec in Hacc.
    unfold result. unfold_uploadImage. rewrite Hfile.
    unfold upload_request, source_of in Hhttp.
    cbv beta iota zeta delta [env] in Hread, Hhttp.
    mred. rewrite Hread, Hne. mred. rewrite Hhttp. mred. rewrite Hok. cbn [negb].
    mred. rewrite Hjson. mred. rewrite Hacc. reflexivity.
Qed.

Lemma uploadImage_succeeds_iff_witness :
  result (AddMenuItemForm.uploadImage upload_screen) upload_world
  = Returned (Some "https://iili.io/dish.png").
Proof.
  apply uploadImage_succeeds_iff.
  exists small_png, "data:image/png;base64,AAAA",
    {| ok := true; status := 200;
       json := JsonData {| status_code := Some 200;
                           image := Some {| image_url_of := Some "https://iili.io/dish.png" |} |} |},
    {| status_code := Some 200;
       image := Some {| image_url_of := Some "https://iili.io/dish.png" |} |}.
  split_and!; reflexivity.
Defined.

(** ** Submitting the menu item, step by step *)

Lemma callbacks_app (l1 l2 : list Event) : callbacks (l1 ++ l2) = callbacks l1 ++ callbacks l2.
Proof. apply omap_app. Qed.

Lemma fetches_app (l1 l2 : list Event) : fetches (l1 ++ l2) = fetches l1 ++ fetches l2.
Proof. apply omap_app. Qed.

(** What [uploadImage] leaves untouched, with or without a file. *)
Lemma uploadImage_quiet (s : AddMenuItemForm.State) (w : World AddMenuItemForm.State) :
  let w' := run (AddMenuItemForm.uploadImage s) w in
  ∃ evs, log w' = log w ++ evs ∧ requests evs = [] ∧ callbacks evs = []
         ∧ db w' = db w ∧ env w' = env w
         ∧ ∃ o, result (AddMenuItemForm.uploadImage s) w = Returned o.
Proof.
  intros w'. frozen w'. unfold result. unfold_uploadImage.
  destruct (AddMenuItemForm.selectedFile s) as [file|].
  - ugo; intros ->; (eexists; split; [simpl; rewrite <- ?app_assoc; reflexivity|]);
      split_and!; try reflexivity; by eexists.
  - mred. intros ->. exists []. rewrite app_nil_r. split_and!; try done. by eexists.
Qed.

Lemma after_upload_quiet (s : AddMenuItemForm.State) (w : World AddMenuItemForm.State) :
  ∃ evs, log (after_upload s w) = log w ++ evs ∧ requests evs = [] ∧ callbacks evs = []
         ∧ db (after_upload s w) = db w ∧ env (after_upload s w) = env w.
Proof.
  unfold after_upload. destruct (inline_upload s).
  - destruct (uploadImage_quiet s (submit_start w)) as (evs & Hlog & Hreq & Hcb & Hdb & Henv & _).
    exists (ConsoleLog "Submitting menu item:" :: evs).
    rewrite Hlog, Hdb, Henv. simpl. rewrite <- app_assoc. by rewrite Hreq, Hcb.
  - by exists [ConsoleLog "Submitting menu item:"].
Qed.

(** [onSubmit] once a restaurant is resolved: after the optional inline
    upload it issues one insert and ends in one of two ways. *)
Lemma onSubmit_with_restaurant (s : AddMenuItemForm.State) (data : AddMenuItemForm.FormData)
    (w : World AddMenuItemForm.State) :
  truthy_opt (resolved_restaurant s) = true →
  let w2 := after_upload s w in
  let record := menu_record data (chosen_url s data w) (js_String (resolved_restaurant s)) in
  AddMenuItemForm.onSubmit s data w
  = (Returned (),
     match refuses (env w) (Insert "menu_items" [record]) with
     | Some e =>
         mkWorld (AddMenuItemForm.with_isSubmitting false (ui w2)) (db w2) (env w2)
           (log w2 ++ [Backend (Insert "menu_items" [record]);
                       ConsoleError "Error adding menu item:" e;
                       Toast (mkToast "Error" (Some (message_or "Failed to add menu item" e))
                                      (Some "destructive"))])
     | None =>
         mkWorld (AddMenuItemForm.with_isSubmitting false (ui w2))
           (<["menu_items" := table_rows (db w2) "menu_items" ++ [record]]> (db w2)) (env w2)
           (log w2 ++ [Backend (Insert "menu_items" [record]);
                       Toast (mkToast "Success" (Some "Menu item added successfully") None);
                       Callback "onSuccess"; Callback "onClose"])
     end).
Proof.
  intros Hrest w2 record. subst w2 record.
  destruct (after_upload_quiet s w) as (_ & _ & _ & _ & _ & Henv).
  revert Henv. unfold after_upload, chosen_url, menu_record, message_or.
  unfold resolved_restaurant in *.
  unfold AddMenuItemForm.onSubmit, AddMenuItemForm.setIsSubmitting.
  rewrite Hrest. cbn [negb]. fold (inline_upload s).
  destruct (inline_upload s).
  - destruct (uploadImage_quiet s (submit_start w)) as (_ & _ & _ & _ & _ & _ & o & Ho).
    unfold run, result, submit_start in *. mred.
    destruct (AddMenuItemForm.uploadImage s _) as [o' w2]. simpl in Ho. subst o'.
    intros Henv. simpl in Henv. mred. rewrite Henv.
    mgo; rewrite <- ?app_assoc; reflexivity.
  - intros _. unfold submit_start. mgo; rewrite <- ?app_assoc; reflexivity.
Qed.

Lemma onSubmit_without_restaurant (s : AddMenuItemForm.State)
    (data : AddMenuItemForm.FormData) (w : World AddMenuItemForm.State) :
  truthy_opt (resolved_restaurant s) = false →
  AddMenuItemForm.onSubmit s data w
  = (Returned (),
     mkWorld (AddMenuItemForm.with_isSubmitting false
                (AddMenuItemForm.with_isSubmitting true (ui w))) (db w) (env w)
       (log w ++ [ConsoleLog "Submitting menu item:";
                  ConsoleError "Error adding menu item:"
                    (ErrorObj "No restaurant assigned to user");
                  Toast (mkToast "Error" (Some "No restaurant assigned to user")
                                 (Some "destructive"))])).
Proof.
  intros Hrest. unfold resolved_restaurant in Hrest.
  unfold AddMenuItemForm.onSubmit, AddMenuItemForm.setIsSubmitting.
  rewrite Hrest. cbn [negb]. mgo. rewrite <- ?app_assoc. reflexivity.
Qed.

(** X10. The parent is told exactly when the item was stored: either
    [onSubmit] ends with the stored record appended to [menu_items] and
    calls [onSuccess] then [onClose], or it calls neither, stores nothing
    and shows a destructive "Error" notification.  There is no third
    way, whatever the upload did. *)
Theorem onSubmit_notifies_parent_iff_stored (s : AddMenuItemForm.State)
    (data : AddMenuItemForm.FormData) (w : World AddMenuItemForm.State) :
  let w' := run (AddMenuItemForm.onSubmit s data) w in
  let evs := new_events w w' in
  (callbacks evs = ["onSuccess"; "onClose"]
   ∧ ∃ record, inserted evs = [("menu_items", record)]
               ∧ table_rows (db w') "menu_items"
                 = table_rows (db w) "menu_items" ++ [record])
  ∨ (callbacks evs = [] ∧ db w' = db w
     ∧ ∃ msg, mkToast "Error" (Some msg) (Some "destructive") ∈ toasts evs).
Proof.
  intros w' evs. subst w' evs. unfold run.
  destruct (truthy_opt (resolved_restaurant s)) eqn:Hrest.
  - rewrite onSubmit_with_restaurant by done.
    destruct (after_upload_quiet s w) as (evs & Hlog & Hreq & Hcb & Hdb & Henv).
    destruct (refuses _ _) as [e|]; simpl; rewrite Hlog, <- app_assoc, Hdb;
      (erewrite new_events_app; [|reflexivity]).
    + right. rewrite callbacks_app, Hcb, toasts_app. split_and!; try done.
      eexists. apply elem_of_app. right. apply list_elem_of_here.
    + left. rewrite callbacks_app, Hcb, inserted_app, (inserted_no_requests evs) by done.
      split; [done|]. eexists. split; [reflexivity|].
      by rewrite table_rows_insert, decide_True by done.
  - rewrite onSubmit_without_restaurant by done. simpl.
    erewrite new_events_app; [|reflexivity]. right. split_and!; try done.
    eexists. simpl. apply list_elem_of_here.
Qed.

(** X11. With a restaurant resolved [onSubmit] issues exactly one
    insert, whatever the upload did.  The inserted record has the seven
    columns of a menu item: name, description and category as typed, the
    price as the number parsed from the typed text, the resolved
    restaurant, and [is_available] set to true. *)
Theorem onSubmit_inserts_form_fields (s : AddMenuItemForm.State)
    (data : AddMenuItemForm.FormData) (w : World AddMenuItemForm.State) (rid : string) :
  resolved_restaurant s = Some rid → truthy rid = true →
  let evs := new_events w (run (AddMenuItemForm.onSubmit s data) w) in
  ∃ record,
    inserted evs = [("menu_items", record)]
    ∧ dom record = menu_columns
    ∧ record !! "name" = Some (VStr (AddMenuItemForm.name data))
    ∧ record !! "description" = Some (VStr (AddMenuItemForm.description data))
    ∧ record !! "category" = Some (VStr (AddMenuItemForm.category data))
    ∧ record !! "price" = Some (VNumText (AddMenuItemForm.price data))
    ∧ record !! "restaurant_id" = Some (VStr rid)
    ∧ record !! "is_available" = Some (VBool true).
Proof.
  intros Hrid Hrest evs. subst evs. unfold run.
  rewrite onSubmit_with_restaurant by (by rewrite Hrid).
  destruct (after_upload_quiet s w) as (evs & Hlog & Hreq & Hcb & Hdb & Henv).
  rewrite Hrid. cbn [js_String].
  exists (menu_record data (chosen_url s data w) rid). split.
  - destruct (refuses _ _) as [e|]; simpl; rewrite Hlog, <- app_assoc;
      (erewrite new_events_app; [|reflexivity]);
      by rewrite inserted_app, (inserted_no_requests evs) by done.
  - unfold menu_record, menu_columns. split.
    + rewrite !dom_insert_L, ?dom_singleton_L. set_solver.
    + split_and!; reflexivity.
Qed.

Lemma inline_upload_file (s : AddMenuItemForm.State) :
  inline_upload s = true →
  ∃ file, AddMenuItemForm.selectedFile s = Some file
          ∧ truthy (AddMenuItemForm.uploadedImageUrl s) = false.
Proof.
  unfold inline_upload. intros [Hfile Hurl]%andb_prop.
  apply bool_decide_eq_true in Hfile as [file Hfile].
  apply negb_true_iff in Hurl. eauto.
Qed.

(** X12. When the inline upload of [onSubmit] succeeds with URL [u], the
    record inserted carries [u] as its [image_url], and the form's
    [image_url] and the uploaded URL are [u] afterwards. *)
Theorem onSubmit_uses_uploaded_url (s : AddMenuItemForm.State)
    (data : AddMenuItemForm.FormData) (w : World AddMenuItemForm.State) (u : string) :
  inline_upload s = true →
  truthy_opt (resolved_restaurant s) = true →
  result (AddMenuItemForm.uploadImage s) w = Returned (Some u) →
  let w' := run (AddMenuItemForm.onSubmit s data) w in
  inserted (new_events w w')
  = [("menu_items", menu_record data u (js_String (resolved_restaurant s)))]
  ∧ AddMenuItemForm.uploadedImageUrl (ui w') = u
  ∧ AddMenuItemForm.image_url (AddMenuItemForm.form (ui w')) = u.
Proof.
  intros Hinline Hrest Hup w'. subst w'. unfold run.
  rewrite onSubmit_with_restaurant by done.
  destruct (inline_upload_file s Hinline) as (file & Hfile & _).
  destruct (uploadImage_attempt s (submit_start w) file Hfile) as [evs Ha].
  rewrite (uploadImage_result_env s (submit_start w) w) in Ha by reflexivity.
  rewrite Hup in Ha.
  destruct (attempt_outcome _ _ _ _ Ha) as [(u' & [= <-] & Hu & Hurl & Hform & _)|(? & _)];
    [|discriminate].
  assert (chosen_url s data w = u) as ->.
  { unfold chosen_url. rewrite Hinline.
    rewrite (uploadImage_result_env s (submit_start w) w), Hup by reflexivity.
    simpl. by rewrite Hu. }
  unfold after_upload. rewrite Hinline.
  pose proof (attempt_log _ _ _ _ Ha) as Hlog. simpl in Hlog.
  split.
  - destruct (refuses _ _) as [e|]; simpl; rewrite Hlog, <- !app_assoc;
      (erewrite new_events_app; [|reflexivity]);
      rewrite !inserted_app, (inserted_no_requests evs) by apply Ha; reflexivity.
  - destruct (refuses _ _) as [e|]; simpl; by rewrite Hurl, Hform.
Qed.

Lemma onSubmit_uses_uploaded_url_witness :
  inserted (new_events submit_world
              (run (AddMenuItemForm.onSubmit submit_screen AddMenuItemForm.defaultValues)
                   submit_world))
  = [("menu_items",
      menu_record AddMenuItemForm.defaultValues "https://iili.io/dish.png"
        (js_String (resolved_restaurant submit_screen)))].
Proof.
  destruct (onSubmit_uses_uploaded_url submit_screen AddMenuItemForm.defaultValues
              submit_world "https://iili.io/dish.png") as (Hins & _).
  - vm_compute. reflexivity.
  - vm_compute. reflexivity.
  - vm_compute. reflexivity.
  - exact Hins.
Defined.

(** X13. With no file selected, or with an image already uploaded,
    [onSubmit] reads and posts nothing and inserts the form's own
    [image_url].  In a state the form can reach, that is the URL of the
    earlier upload: an image uploaded with the button is the one stored,
    without a second upload. *)
Theorem onSubmit_skips_upload :
  (∀ (s : AddMenuItemForm.State) (data : AddMenuItemForm.FormData)
     (w : World AddMenuItemForm.State),
     inline_upload s = false →
     truthy_opt (resolved_restaurant s) = true →
     let evs := new_events w (run (AddMenuItemForm.onSubmit s data) w) in
     fetches evs = []
     ∧ inserted evs
       = [("menu_items",
           menu_record data (AddMenuItemForm.image_url data)
             (js_String (resolved_restaurant s)))])
  ∧ (∀ w : World AddMenuItemForm.State,
       AddMenuItemForm.reachable w →
       truthy (AddMenuItemForm.uploadedImageUrl (ui w)) = true →
       truthy_opt (resolved_restaurant (ui w)) = true →
       let evs := new_events w (run (AddMenuItemForm.perform AddMenuItemForm.ClickSubmit
                                       (ui w)) w) in
       fetches evs = []
       ∧ ∃ record, inserted evs = [("menu_items", record)]
                   ∧ record !! "image_url"
                     = Some (VStr (AddMenuItemForm.uploadedImageUrl (ui w)))).
Proof.
  assert (∀ (s : AddMenuItemForm.State) (data : AddMenuItemForm.FormData)
     (w : World AddMenuItemForm.State),
     inline_upload s = false →
     truthy_opt (resolved_restaurant s) = true →
     let evs := new_events w (run (AddMenuItemForm.onSubmit s data) w) in
     fetches evs = []
     ∧ inserted evs
       = [("menu_items",
           menu_record data (AddMenuItemForm.image_url data)
             (js_String (resolved_restaurant s)))]) as Hskip.
  { intros s data w Hinline Hrest evs. subst evs. unfold run.
    rewrite onSubmit_with_restaurant by done.
    unfold after_upload, chosen_url. rewrite Hinline.
    destruct (refuses _ _) as [e|]; simpl; rewrite <- app_assoc;
      (erewrite new_events_app; [|reflexivity]); done. }
  split; [exact Hskip|].
  intros w Hreach Hurl Hrest evs. subst evs.
  destruct (reachable_at_rest w Hreach) as (Hsub & Hupl & _ & Himg).
  simpl. rewrite Hsub, Hupl. simpl.
  destruct (Hskip (ui w) (AddMenuItemForm.form (ui w)) w) as [Hfetch Hins]; [|done|].
  { unfold inline_upload. by rewrite Hurl, andb_false_r. }
  split; [done|]. eexists. split; [exact Hins|]. by rewrite Himg.
Qed.

(** ** Errors stay inside the handlers *)

Ltac unfold_staff :=
  unfold Staff.handleSubmit, Staff.handleDelete, Staff.refetch, Staff.queryFn,
    Staff.resolve_restaurant, Staff.set_staff, Staff.setIsAddDialogOpen,
    Staff.setEditingStaff.

(** X14. No handler lets an error escape: whatever the session, the
    backend, the reader and the image host answer, each event handler and
    each query run returns normally. *)
Theorem handlers_never_throw :
  (∀ s w, result (StaffLeaveManager.handleAddLeave s) w = Returned ())
  ∧ (∀ s leaveId d w, result (StaffLeaveManager.updateLeaveStatus s leaveId d) w = Returned ())
  ∧ (∀ s w, result (StaffLeaveManager.refetchLeaves s) w = Returned ())
  ∧ (∀ files w, result (AddMenuItemForm.handleFileChange files) w = Returned ())
  ∧ (∀ s w, ∃ o, result (AddMenuItemForm.uploadImage s) w = Returned o)
  ∧ (∀ s data w, result (AddMenuItemForm.onSubmit s data) w = Returned ())
  ∧ (∀ a s w, result (AddMenuItemForm.perform a s) w = Returned ())
  ∧ (∀ s formData w, result (Staff.handleSubmit s formData) w = Returned ())
  ∧ (∀ id w, result (Staff.handleDelete id) w = Returned ())
  ∧ (∀ w, result Staff.refetch w = Returned ()).
Proof.
  assert (∀ s data w, result (AddMenuItemForm.onSubmit s data) w = Returned ()) as Hsubmit.
  { intros s data w. unfold result.
    destruct (truthy_opt (resolved_restaurant s)) eqn:Hrest.
    - by rewrite onSubmit_with_restaurant.
    - by rewrite onSubmit_without_restaurant. }
  assert (∀ s w, ∃ o, result (AddMenuItemForm.uploadImage s) w = Returned o) as Hupload.
  { intros s w. by destruct (uploadImage_quiet s w) as (_ & _ & _ & _ & _ & _ & Ho). }
  split_and!; try done.
  - intros s w. unfold StaffLeaveManager.handleAddLeave, StaffLeaveManager.refetchLeaves,
      StaffLeaveManager.leaves_queryFn.
    rewrite leave_guard. destruct (leave_form_complete s); cbn [negb]; mgo; reflexivity.
  - intros s leaveId d w. unfold StaffLeaveManager.updateLeaveStatus,
      StaffLeaveManager.refetchLeaves, StaffLeaveManager.leaves_queryFn.
    mgo; reflexivity.
  - intros s w. unfold StaffLeaveManager.refetchLeaves, StaffLeaveManager.leaves_queryFn.
    mgo; reflexivity.
  - intros files w. unfold AddMenuItemForm.handleFileChange, AddMenuItemForm.setSelectedFile.
    destruct (files ≫= head) as [file|]; [|done].
    destruct (_ <? _); [done|]. destruct (negb _); done.
  - intros a s w. destruct a as [files| | |n d p c| |]; simpl.
    + unfold AddMenuItemForm.handleFileChange, AddMenuItemForm.setSelectedFile.
      destruct (files ≫= head) as [file|]; [|done].
      destruct (_ <? _); [done|]. destruct (negb _); done.
    + destruct (_ && _); [|done]. destruct (Hupload s w) as [o Ho].
      unfold result, mbind, M_bind in *.
      destruct (AddMenuItemForm.uploadImage s w) as [o' w']. simpl in Ho. by subst o'.
    + destruct (_ || _); done.
    + done.
    + destruct (_ || _); [done|]. apply Hsubmit.
    + unfold AddMenuItemForm.userProfile_query, AddMenuItemForm.userProfile_queryFn.
      mgo; reflexivity.
  - intros s formData w. unfold_staff.
    destruct (Staff.editingStaff s); mgo; reflexivity.
  - intros id w. unfold_staff. mgo; reflexivity.
  - intros w. unfold_staff. mgo; reflexivity.
Qed.

(** ** The roster *)

Lemma shape_star (db : Database) (rs : list Row) : shape db Star <$> rs = rs.
Proof. induction rs as [|r rs IH]; csimpl; [done|]. by f_equal. Qed.

(** X15. The roster list, when its query returns: it is, up to order,
    exactly the stored staff rows of the resolved restaurant (nobody
    missing, nobody from elsewhere), whole rows, ordered by first name. *)
Theorem roster_list_complete_and_ordered (w : World Staff.State) (rows : list Row) :
  result Staff.queryFn w = Returned rows →
  ∃ rid, result Staff.resolve_restaurant w = Returned rid
         ∧ rows ≡ₚ List.filter (matches [Eq "restaurant_id" rid]) (table_rows (db w) "staff")
         ∧ StronglySorted (ordered_by by_first_name) rows.
Proof.
  unfold Staff.queryFn, Staff.resolve_restaurant.
  mgo; intros [= <-]; eexists; (split; [reflexivity|]); fold by_first_name; split.
  all: first [ rewrite run_select_permutation; by rewrite shape_star
             | by apply run_select_sorted ].
Qed.

Lemma roster_list_complete_and_ordered_witness :
  ∃ rid, result Staff.resolve_restaurant roster_world = Returned rid
         ∧ [alice] ≡ₚ List.filter (matches [Eq "restaurant_id" rid])
                        (table_rows (db roster_world) "staff")
         ∧ StronglySorted (ordered_by by_first_name) [alice].
Proof.
  apply (roster_list_complete_and_ordered roster_world [alice]).
  vm_compute. reflexivity.
Defined.

(** X16. Adding a member: [handleSubmit] with nobody being edited issues
    no update and at most one insert, into [staff], whose record is the
    six form fields plus the [restaurant_id] resolved from the acting
    user's profile; rows already stored are kept as they are. *)
Theorem handleSubmit_add_attaches_tenant (s : Staff.State) (formData : gmap string string)
    (w : World Staff.State) :
  Staff.editingStaff s = None →
  let w' := run (Staff.handleSubmit s formData) w in
  let evs := new_events w w' in
  updates evs = []
  ∧ ((inserted evs = [] ∧ table_rows (db w') "staff" = table_rows (db w) "staff")
     ∨ ∃ rid, result Staff.resolve_restaurant w = Returned rid
              ∧ inserted evs = [("staff", new_member formData rid)]
              ∧ new_member formData rid !! "restaurant_id" = Some (VStr rid)
              ∧ dom (new_member formData rid) = staff_columns ∪ {["restaurant_id"]}
              ∧ (table_rows (db w') "staff" = table_rows (db w) "staff"
                 ∨ table_rows (db w') "staff"
                   = table_rows (db w) "staff" ++ [new_member formData rid])).
Proof.
  intros Hadd w' evs. subst evs. frozen w'.
  assert (∀ rid, new_member formData rid !! "restaurant_id" = Some (VStr rid)
                 ∧ dom (new_member formData rid) = staff_columns ∪ {["restaurant_id"]})
    as Hrecord.
  { intros rid. unfold new_member. rewrite lookup_insert_eq, dom_insert_L, dom_staffData.
    split; [done | set_solver]. }
  unfold result. unfold_staff. rewrite Hadd. fold (new_member formData).
  mgo; intros ->; log_done; evs; (split; [done|]);
    lazymatch goal with
    | |- (_ :: _ = [] ∧ _) ∨ _ =>
        right; eexists; split; [reflexivity|]; split; [reflexivity|];
        split; [apply Hrecord|]; split; [apply Hrecord|];
        lazymatch goal with
        | |- context [<["staff" := _]> _] =>
            right; by rewrite table_rows_insert, decide_True by done
        | |- _ => left; reflexivity
        end
    | |- _ => left; split; reflexivity
    end.
Qed.

Lemma handleSubmit_add_attaches_tenant_witness :
  updates (new_events roster_adding_world
             (run (Staff.handleSubmit roster_adding roster_form) roster_adding_world)) = [].
Proof.
  apply (handleSubmit_add_attaches_tenant roster_adding roster_form roster_adding_world).
  reflexivity.
Defined.

(** On that roster the new member is stored for restaurant r1, the one
    of the acting user. *)
Example handleSubmit_add_stores_member :
  table_rows (db (run (Staff.handleSubmit roster_adding roster_form) roster_adding_world))
    "staff"
  = [bob; alice; new_member roster_form "r1"].
Proof. vm_compute. reflexivity. Qed.

(** X17. [handleSubmit] ends in one of two ways.  Either it wrote once
    (the update or the insert was served), shows its success notification,
    closes the dialog and forgets the edited member; or it shows the
    generic error notification and leaves the screen state and the tables
    exactly as they were, so the dialog stays open. *)
Theorem handleSubmit_closes_only_on_success (s : Staff.State)
    (formData : gmap string string) (w : World Staff.State) :
  let w' := run (Staff.handleSubmit s formData) w in
  let evs := new_events w w' in
  (Staff.isAddDialogOpen (ui w') = false ∧ Staff.editingStaff (ui w') = None
   ∧ length (writes evs) = 1%nat
   ∧ ∃ t, toasts evs = [mkToast t None None])
  ∨ (ui w' = ui w ∧ db w' = db w ∧ (length (writes evs) ≤ 1)%nat
     ∧ toasts evs = [mkToast "Error" (Some "Something went wrong. Please try again.")
                       (Some "destructive")]).
Proof.
  intros w' evs0. subst evs0. frozen w'. unfold_staff.
  destruct (Staff.editingStaff s) as [member|];
    mgo; intros ->; log_done; evs; cbn [length];
    first [ right; split_and!; [reflexivity | reflexivity | lia | reflexivity]
          | left; split_and!; [reflexivity | reflexivity | reflexivity | by eexists] ].
Qed.

Lemma run_select_other_table (db : Database) (t t' : string) (rs : list Row)
    (cs : list string) fs o :
  t ≠ t' → run_select (<[t := rs]> db) t' (Cols cs) fs o = run_select db t' (Cols cs) fs o.
Proof.
  intros Hne. unfold run_select. simpl.
  by rewrite table_rows_insert, decide_False by done.
Qed.

(** X18. Deleting a staff member.  Served: the stored staff rows are the
    former ones without those carrying the given id, and when the tenant
    resolves and the re-fetch is served the list shown afterwards is, up
    to order, the tenant's remaining rows, none of which has that id.
    Refused: nothing is deleted, the list is not re-fetched, the screen
    state is unchanged and the generic error notification is shown. *)
Theorem handleDelete_outcomes (id : string) (w : World Staff.State) :
  let w' := run (Staff.handleDelete id) w in
  let remaining := List.filter (λ r, negb (matches [Eq "id" id] r))
                               (table_rows (db w) "staff") in
  (serves (env w) →
     table_rows (db w') "staff" = remaining
     ∧ ∀ rid, result Staff.resolve_restaurant w = Returned rid →
         Staff.staff (ui w') ≡ₚ List.filter (matches [Eq "restaurant_id" rid]) remaining
         ∧ ∀ r, r ∈ Staff.staff (ui w') → r !! "id" ≠ Some (VStr id))
  ∧ (∀ e, refuses (env w) (Delete "staff" [Eq "id" id]) = Some e →
       ui w' = ui w ∧ db w' = db w
       ∧ requests (new_events w w') = [Delete "staff" [Eq "id" id]]
       ∧ toasts (new_events w w')
         = [mkToast "Error" (Some "Something went wrong. Please try again.")
              (Some "destructive")]).
Proof.
  intros w' remaining. split.
  - intros Hserve.
    assert (table_rows (db w') "staff" = remaining
            ∧ ∀ rid, result Staff.resolve_restaurant w = Returned rid →
                Staff.staff (ui w')
                = run_select (<["staff" := remaining]> (db w)) "staff" Star
                    [Eq "restaurant_id" rid] (Some by_first_name)) as [Htable Hlist].
    { subst w' remaining. unfold result.
      set (w' := run (Staff.handleDelete id) w). frozen w'.
      unfold_staff. unfold by_first_name.
      cbv beta iota zeta delta [serves env] in Hserve.
      repeat (mred; cbn [negb truthy_opt];
              rewrite ?Hserve, ?run_select_other_table by done; try mcase);
        intros ->; (split; [simpl; by rewrite table_rows_insert, decide_True by done|]);
        intros rid Hrid; first [discriminate | by injection Hrid as <-]. }
    split; [exact Htable|]. intros rid Hrid. rewrite (Hlist rid Hrid).
    split.
    + rewrite run_select_permutation, shape_star.
      by rewrite table_rows_insert, decide_True by done.
    + intros r (r0 & Hr0 & _ & ->)%elem_of_run_select. simpl.
      rewrite table_rows_insert, decide_True in Hr0 by done.
      subst remaining. apply list_elem_of_In, filter_In in Hr0 as [_ Hkeep].
      apply negb_true_iff in Hkeep. intros Hid%matches_single. congruence.
  - intros e He. subst w' remaining.
    set (w' := run (Staff.handleDelete id) w). frozen w'.
    unfold_staff. cbv beta iota zeta delta [env] in He. mred. rewrite He. mred.
    intros ->. log_done. done.
Qed.

Lemma handleDelete_outcomes_witness :
  table_rows (db (run (Staff.handleDelete "s1") roster_world)) "staff"
  = List.filter (λ r, negb (matches [Eq "id" "s1"] r)) (table_rows (db roster_world) "staff").
Proof.
  apply (proj1 (handleDelete_outcomes "s1" roster_world)).
  intros req. reflexivity.
Defined.

(** ** The staff dialog submitted untouched *)

Lemma staffData_lookup (formData : gmap string string) :
  Staff.staffData formData !! "first_name" = Some (Staff.formData_get formData "firstName")
  ∧ Staff.staffData formData !! "last_name" = Some (Staff.formData_get formData "lastName")
  ∧ Staff.staffData formData !! "position" = Some (Staff.formData_get formData "position")
  ∧ Staff.staffData formData !! "phone" = Some (Staff.formData_get formData "phone")
  ∧ Staff.staffData formData !! "email" = Some (Staff.formData_get formData "email")
  ∧ Staff.staffData formData !! "Shift" = Some (Staff.formData_get formData "shift").
Proof. unfold Staff.staffData. split_and!; reflexivity. Qed.

Lemma dialog_defaults_get (m : Row) :
  let fd := dialog_defaults (Some m) in
  Staff.formData_get fd "firstName"
  = VStr (strip_newlines (default "" (as_string (m !! "first_name"))))
  ∧ Staff.formData_get fd "lastName"
    = VStr (strip_newlines (default "" (as_string (m !! "last_name"))))
  ∧ Staff.formData_get fd "position"
    = VStr (select_value position_items (or_else (m !! "position") "waiter"))
  ∧ Staff.formData_get fd "phone" = VStr (strip_newlines (or_else (m !! "phone") ""))
  ∧ Staff.formData_get fd "email" = VStr (sanitize_email (or_else (m !! "email") ""))
  ∧ Staff.formData_get fd "shift"
    = VStr (select_value shift_items (or_else (m !! "Shift") "morning")).
Proof. unfold dialog_defaults, Staff.formData_get. split_and!; reflexivity. Qed.

Lemma select_value_item (items : list string) (v : string) :
  v ∈ items → select_value items v = v.
Proof. intros Hv. unfold select_value. by rewrite bool_decide_eq_true_2. Qed.

Lemma item_truthy (v : string) :
  v ∈ position_items ∨ v ∈ shift_items → truthy v = true.
Proof.
  unfold position_items, shift_items. rewrite !elem_of_cons, !elem_of_nil.
  intros [[->|[->|[->|[->|[]]]]] | [->|[->|[->|[->|[]]]]]]; reflexivity.
Qed.

Lemma or_else_text (v : string) (d : string) :
  (truthy v = true ∨ v = d) → or_else (Some (VStr v)) d = v.
Proof.
  unfold or_else; simpl. intros [-> | ->]; [done|]. by destruct (truthy d).
Qed.

(** X19. Saving the edit dialog without touching it.  For a member whose
    names, phone and email are text that the inputs keep as it is (no
    line break; no white space around the email), whose position is one
    of the position items and whose shift is one of the shift items, the
    update payload changes nothing in the member's row.  A member without
    a shift, however, is given the shift "morning", a null phone is
    replaced by the empty text, and a position that is none of the items
    is replaced by "waiter". *)
Theorem untouched_edit_payload (m : Row) :
  let payload := Staff.staffData (dialog_defaults (Some m)) in
  (∀ fn ln pos sh ph em,
     m !! "first_name" = Some (VStr fn) → m !! "last_name" = Some (VStr ln) →
     m !! "position" = Some (VStr pos) → pos ∈ position_items →
     m !! "Shift" = Some (VStr sh) → sh ∈ shift_items →
     m !! "phone" = Some (VStr ph) → m !! "email" = Some (VStr em) →
     strip_newlines fn = fn → strip_newlines ln = ln → strip_newlines ph = ph →
     sanitize_email em = em →
     payload ∪ m = m)
  ∧ (m !! "Shift" = Some VNull → (payload ∪ m) !! "Shift" = Some (VStr "morning"))
  ∧ (m !! "phone" = Some VNull → (payload ∪ m) !! "phone" = Some (VStr ""))
  ∧ (∀ pos, m !! "position" = Some (VStr pos) → pos ∉ position_items →
       (payload ∪ m) !! "position" = Some (VStr "waiter")).
Proof.
  intros payload. subst payload.
  destruct (staffData_lookup (dialog_defaults (Some m))) as (Hfn & Hln & Hpos & Hph & Hem & Hsh).
  destruct (dialog_defaults_get m) as (Gfn & Gln & Gpos & Gph & Gem & Gsh).
  rewrite Gfn in Hfn. rewrite Gln in Hln. rewrite Gpos in Hpos. rewrite Gph in Hph.
  rewrite Gem in Hem. rewrite Gsh in Hsh.
  split_and!.
  - intros fn ln pos sh ph em Mfn Mln Mpos Ipos Msh Ish Mph Mem Sfn Sln Sph Sem.
    rewrite Mfn in Hfn. rewrite Mln in Hln. rewrite Mpos in Hpos. rewrite Mph in Hph.
    rewrite Mem in Hem. rewrite Msh in Hsh. simpl in Hfn, Hln.
    rewrite Sfn in Hfn. rewrite Sln in Hln.
    rewrite (or_else_text pos), select_value_item in Hpos
      by (done || (left; apply item_truthy; by left)).
    rewrite (or_else_text sh), select_value_item in Hsh
      by (done || (left; apply item_truthy; by right)).
    assert (or_else (Some (VStr ph)) "" = ph) as Eph.
    { apply or_else_text. destruct (truthy ph) eqn:E; [auto|]. right. by apply truthy_false. }
    assert (or_else (Some (VStr em)) "" = em) as Eem.
    { apply or_else_text. destruct (truthy em) eqn:E; [auto|]. right. by apply truthy_false. }
    rewrite Eph, Sph in Hph. rewrite Eem, Sem in Hem.
    apply map_eq. intros k. rewrite lookup_union.
    destruct (Staff.staffData (dialog_defaults (Some m)) !! k) as [v|] eqn:Hk.
    + assert (k ∈ staff_columns) as Hcol.
      { rewrite <- (dom_staffData (dialog_defaults (Some m))). apply elem_of_dom. eauto. }
      unfold staff_columns in Hcol.
      rewrite !elem_of_union, !elem_of_singleton in Hcol.
      destruct Hcol as [[[[[-> | ->] | ->] | ->] | ->] | ->];
        rewrite ?Mfn, ?Mln, ?Mpos, ?Mph, ?Mem, ?Msh; by simplify_eq.
    + by destruct (m !! k).
  - intros Msh. rewrite lookup_union, Hsh, Msh. reflexivity.
  - intros Mph. rewrite lookup_union, Hph, Mph. reflexivity.
  - intros pos Mpos Ipos. rewrite lookup_union, Hpos, Mpos. simpl.
    unfold or_else; simpl. destruct (truthy pos).
    + unfold select_value. by rewrite bool_decide_eq_false_2.
    + reflexivity.
Qed.

Lemma untouched_edit_payload_witness :
  let alice' := <["phone" := VStr "555"]> (<["email" := VStr ""]> alice) in
  Staff.staffData (dialog_defaults (Some alice')) ∪ alice' = alice'.
Proof.
  apply (proj1 (untouched_edit_payload (<["phone" := VStr "555"]> (<["email" := VStr ""]> alice)))
           "Alice" "Rao" "chef" "morning" "555" "");
    first [ reflexivity
          | apply list_elem_of_further, list_elem_of_here
          | apply list_elem_of_here ].
Defined.

(** A member stored with a position outside the items is saved as a
    waiter. *)
Example untouched_edit_changes_position :
  let cashier := <["position" := VStr "cashier"]> alice in
  (Staff.staffData (dialog_defaults (Some cashier)) ∪ cashier) !! "position"
  = Some (VStr "waiter").
Proof. vm_compute. reflexivity. Qed.


(** ** Without a session *)

(** X20. With nobody signed in, the three tenant lookups raise their
    error before asking the backend anything, and so no request at all is
    issued by the leave screen's restaurant query, the menu form's profile
    query, the roster's list query, or by saving or adding a staff member
    (which only shows the generic error). *)
Theorem without_session_nothing_is_requested :
  (∀ w : World StaffLeaveManager.State,
     auth_user (env w) = None →
     StaffLeaveManager.restaurantId_queryFn w = (Thrown (ErrorObj "No user found"), w))
  ∧ (∀ w : World AddMenuItemForm.State,
       auth_user (env w) = None →
       AddMenuItemForm.userProfile_queryFn w = (Thrown (ErrorObj "Not authenticated"), w))
  ∧ (∀ w : World Staff.State,
       auth_user (env w) = None →
       Staff.queryFn w = (Thrown (ErrorObj "No user found"), w)
       ∧ run Staff.refetch w = w)
  ∧ (∀ (s : Staff.State) (formData : gmap string string) (w : World Staff.State),
       auth_user (env w) = None →
       let w' := run (Staff.handleSubmit s formData) w in
       requests (new_events w w') = [] ∧ db w' = db w ∧ ui w' = ui w
       ∧ toasts (new_events w w') = [generic_error]).
Proof.
  split_and!.
  - intros w Hnone. unfold StaffLeaveManager.restaurantId_queryFn.
    cbv beta iota zeta delta [env] in Hnone. mred. rewrite Hnone. by destruct w.
  - intros w Hnone. unfold AddMenuItemForm.userProfile_queryFn.
    cbv beta iota zeta delta [env] in Hnone. mred. rewrite Hnone. by destruct w.
  - intros w Hnone. unfold_staff.
    cbv beta iota zeta delta [env] in Hnone. mred. rewrite Hnone. by destruct w.
  - intros s formData w Hnone w'. frozen w'. unfold_staff.
    cbv beta iota zeta delta [env] in Hnone. mred. rewrite Hnone.
    intros ->. log_done. done.
Qed.

Lemma without_session_nothing_is_requested_witness :
  Staff.queryFn (mkWorld Staff.init two_tenants signed_out [])
  = (Thrown (ErrorObj "No user found"), mkWorld Staff.init two_tenants signed_out []).
Proof.
  apply (proj1 (proj2 (proj2 without_session_nothing_is_requested)))
    with (w := mkWorld Staff.init two_tenants signed_out []).
  reflexivity.
Defined.

(** ** The menu form between two actions *)

Lemma userProfile_query_names_restaurant (w : World AddMenuItemForm.State) :
  profile_names_restaurant (ui w) →
  profile_names_restaurant (ui (run AddMenuItemForm.userProfile_query w)).
Proof.
  intros Hinv. set (w' := run AddMenuItemForm.userProfile_query w). frozen w'.
  unfold AddMenuItemForm.userProfile_query, AddMenuItemForm.userProfile_queryFn.
  mgo; intros ->; simpl; try exact Hinv.
  right. unfold resolved_restaurant. simpl. assumption.
Qed.

Lemma perform_keeps_profile (a : AddMenuItemForm.Action) (w : World AddMenuItemForm.State) :
  a ≠ AddMenuItemForm.LoadProfile →
  AddMenuItemForm.userProfile (ui (run (AddMenuItemForm.perform a (ui w)) w))
  = AddMenuItemForm.userProfile (ui w).
Proof.
  intros Hne. destruct a as [files| | |n d p c| |]; simpl; try done.
  - unfold AddMenuItemForm.handleFileChange, AddMenuItemForm.setSelectedFile.
    destruct (files ≫= head) as [file|]; [|done].
    destruct (_ <? _); [done|]. destruct (negb _); done.
  - destruct (_ && _) eqn:Hcond; [|done].
    destruct (AddMenuItemForm.selectedFile (ui w)) as [file|] eqn:Hfile; [|done].
    destruct (uploadImage_attempt (ui w) w file Hfile) as [evs Ha].
    destruct (attempt_frame _ _ _ _ Ha) as (_ & _ & Hprofile).
    unfold run, mbind, M_bind in *.
    by destruct (AddMenuItemForm.uploadImage (ui w) w) as [[?|?] ?].
  - destruct (_ || _); done.
  - destruct (_ || _); [done|]. unfold run.
    destruct (truthy_opt (resolved_restaurant (ui w))) eqn:Hrest.
    + rewrite onSubmit_with_restaurant by done.
      assert (AddMenuItemForm.userProfile (ui (after_upload (ui w) w))
              = AddMenuItemForm.userProfile (ui w)) as Hkeep.
      { unfold after_upload. destruct (inline_upload (ui w)) eqn:Hinline; [|done].
        destruct (inline_upload_file _ Hinline) as (file & Hfile & _).
        destruct (uploadImage_attempt (ui w) (submit_start w) file Hfile) as [evs Ha].
        by destruct (attempt_frame _ _ _ _ Ha) as (_ & _ & ->). }
      by destruct (refuses _ _).
    + by rewrite onSubmit_without_restaurant.
Qed.

(** X21. In every state the menu form can reach, the profile it holds,
    if any, names a restaurant: [onSubmit] can then fail for want of a
    restaurant only while no profile has been loaded. *)
Theorem reachable_profile_names_restaurant (w : World AddMenuItemForm.State) :
  AddMenuItemForm.reachable w →
  (AddMenuItemForm.userProfile (ui w) = None ∨ truthy_opt (resolved_restaurant (ui w)) = true)
  ∧ (truthy_opt (resolved_restaurant (ui w)) = false ↔ AddMenuItemForm.userProfile (ui w) = None).
Proof.
  intros Hreach.
  assert (profile_names_restaurant (ui w)) as Hinv.
  { induction Hreach as [db env|w a _ IH|w db' env' _ IH]; simpl.
    - by left.
    - assert (a = AddMenuItemForm.LoadProfile ∨ a ≠ AddMenuItemForm.LoadProfile)
        as [->|Hne] by (destruct a; auto; right; discriminate).
      + by apply userProfile_query_names_restaurant.
      + unfold profile_names_restaurant, resolved_restaurant in *.
        by rewrite perform_keeps_profile.
    - done. }
  split; [exact Hinv|]. split.
  - intros Hnone. destruct Hinv as [?|Hsome]; [done | congruence].
  - intros Hp. unfold resolved_restaurant. by rewrite Hp.
Qed.

Lemma reachable_profile_names_restaurant_witness :
  AddMenuItemForm.userProfile (ui form_ready) = None
  ∨ truthy_opt (resolved_restaurant (ui form_ready)) = true.
Proof.
  apply (reachable_profile_names_restaurant form_ready). exact form_ready_reachable.
Defined.

(** ** Choosing and removing the image *)

(** X22. Choosing a file: an empty selection does nothing at all; only
    the first chosen file is looked at; and the size is checked before
    the type, so a file over 5 MiB is reported as too large even when it
    is not an image, while a non-image within the limit is reported as an
    invalid type. *)
Theorem handleFileChange_edges :
  (∀ w : World AddMenuItemForm.State,
     run (AddMenuItemForm.handleFileChange None) w = w
     ∧ run (AddMenuItemForm.handleFileChange (Some [])) w = w)
  ∧ (∀ (file : File) (more : list File),
       AddMenuItemForm.handleFileChange (Some (file :: more))
       = AddMenuItemForm.handleFileChange (Some [file]))
  ∧ (∀ (file : File) (w : World AddMenuItemForm.State),
       size file > 5 * 1024 * 1024 →
       toasts (new_events w (run (AddMenuItemForm.handleFileChange (Some [file])) w))
       = [mkToast "File too large" (Some "Maximum file size is 5MB") (Some "destructive")])
  ∧ (∀ (file : File) (w : World AddMenuItemForm.State),
       size file ≤ 5 * 1024 * 1024 → String.prefix "image/" (type file) = false →
       toasts (new_events w (run (AddMenuItemForm.handleFileChange (Some [file])) w))
       = [mkToast "Invalid file type" (Some "Please select an image file")
            (Some "destructive")]).
Proof.
  split_and!.
  - intros w. split; by destruct w.
  - done.
  - intros file w Hbig. unfold AddMenuItemForm.handleFileChange. simpl.
    destruct (Z.ltb_spec (5 * 1024 * 1024) (size file)); [|lia].
    mred. by log_done.
  - intros file w Hsmall Htype. unfold AddMenuItemForm.handleFileChange. simpl.
    destruct (Z.ltb_spec (5 * 1024 * 1024) (size file)); [lia|].
    rewrite Htype. simpl. mred. by log_done.
Qed.

Lemma handleFileChange_edges_witness :
  toasts (new_events form_start (run (AddMenuItemForm.handleFileChange (Some [huge_png]))
                                     form_start))
  = [mkToast "File too large" (Some "Maximum file size is 5MB") (Some "destructive")].
Proof.
  apply (proj1 (proj2 (proj2 handleFileChange_edges)) huge_png form_start).
  vm_compute. reflexivity.
Defined.

(** X23. Removing the image discards both the chosen file and the
    uploaded URL.  When nothing is being uploaded or submitted as remove
    is pressed, a restaurant is resolved and a file or an image is
    shown, pressing remove and then submit posts nothing to the image
    host and stores a menu item whose [image_url] is empty. *)
Theorem remove_then_submit_stores_no_image (w : World AddMenuItemForm.State) :
  AddMenuItemForm.isSubmitting (ui w) = false →
  AddMenuItemForm.isUploading (ui w) = false →
  truthy_opt (resolved_restaurant (ui w)) = true →
  is_Some (AddMenuItemForm.selectedFile (ui w))
  ∨ truthy (AddMenuItemForm.uploadedImageUrl (ui w)) = true →
  let w1 := run (AddMenuItemForm.perform AddMenuItemForm.ClickRemove (ui w)) w in
  let evs := new_events w1 (run (AddMenuItemForm.perform AddMenuItemForm.ClickSubmit (ui w1))
                                w1) in
  AddMenuItemForm.selectedFile (ui w1) = None
  ∧ AddMenuItemForm.uploadedImageUrl (ui w1) = ""
  ∧ fetches evs = []
  ∧ ∃ record, inserted evs = [("menu_items", record)]
              ∧ record !! "image_url" = Some (VStr "").
Proof.
  intros Hsub Hupl Hrest Hshown w1 evs0. subst evs0.
  assert (ui w1 = AddMenuItemForm.with_form
                    (AddMenuItemForm.with_image_url "" (AddMenuItemForm.form (ui w)))
                    (AddMenuItemForm.with_uploadedImageUrl ""
                       (AddMenuItemForm.with_selectedFile None (ui w)))
          ∧ log w1 = log w ∧ env w1 = env w) as (Hui & _ & _).
  { subst w1. simpl.
    assert (bool_decide (is_Some (AddMenuItemForm.selectedFile (ui w)))
            || truthy (AddMenuItemForm.uploadedImageUrl (ui w)) = true) as ->.
    { destruct Hshown as [Hfile| ->]; [|by rewrite orb_true_r].
      by rewrite bool_decide_eq_true_2. }
    done. }
  clearbody w1. rewrite Hui. simpl. rewrite Hsub, Hupl. simpl.
  split; [done|]. split; [done|].
  set (s1 := AddMenuItemForm.with_form _ _) in *.
  assert (truthy_opt (resolved_restaurant s1) = true) as Hrest1 by exact Hrest.
  unfold run. rewrite onSubmit_with_restaurant by done.
  assert (inline_upload s1 = false) as Hinline by reflexivity.
  unfold after_upload, chosen_url. rewrite Hinline.
  destruct (refuses _ _) as [e|]; simpl; rewrite <- app_assoc;
    (erewrite new_events_app; [|reflexivity]); (split; [done|]);
    (eexists; split; reflexivity).
Qed.

Lemma remove_then_submit_stores_no_image_witness :
  AddMenuItemForm.selectedFile
    (ui (run (AddMenuItemForm.perform AddMenuItemForm.ClickRemove (ui form_ready)) form_ready))
  = None.
Proof.
  apply (remove_then_submit_stores_no_image form_ready).
  - vm_compute. reflexivity.
  - vm_compute. reflexivity.
  - vm_compute. reflexivity.
  - left. vm_compute. by eexists.
Defined.

(** ** Removing the image while it is being uploaded *)

Ltac unfold_resume :=
  unfold uploadImage_begin, uploadImage_resume, reader_result, AddMenuItemForm.fetch,
    AddMenuItemForm.response_json, AddMenuItemForm.setIsUploading,
    AddMenuItemForm.setUploadProgress, AddMenuItemForm.setUploadedImageUrl,
    AddMenuItemForm.form_setValue_image_url.

(** Run without interruption, the two parts are [uploadImage]. *)
Lemma uploadImage_in_two_parts (s : AddMenuItemForm.State) (w : World AddMenuItemForm.State) :
  AddMenuItemForm.uploadImage s w = (uploadImage_begin s;; uploadImage_resume s) w.
Proof.
  unfold_uploadImage. unfold_resume.
  destruct (AddMenuItemForm.selectedFile s) as [file|]; [|reflexivity].
  ugo; reflexivity.
Qed.

(** [onSubmit] with no inline upload to make stores the form's own
    [image_url] and posts nothing. *)
Lemma onSubmit_stores_form_url (s : AddMenuItemForm.State) (data : AddMenuItemForm.FormData)
    (w : World AddMenuItemForm.State) :
  inline_upload s = false →
  truthy_opt (resolved_restaurant s) = true →
  let evs := new_events w (run (AddMenuItemForm.onSubmit s data) w) in
  fetches evs = []
  ∧ inserted evs
    = [("menu_items",
        menu_record data (AddMenuItemForm.image_url data) (js_String (resolved_restaurant s)))].
Proof.
  intros Hinline Hrest evs. subst evs. unfold run.
  rewrite onSubmit_with_restaurant by done.
  unfold after_upload, chosen_url. rewrite Hinline.
  destruct (refuses _ _) as [e|]; simpl; rewrite <- app_assoc;
    (erewrite new_events_app; [|reflexivity]); done.
Qed.

(** X26. Removing the image does not stop an upload that is running.
    When remove is pressed after [uploadImage] has started reading the
    selected file, and that upload then succeeds with URL [u], the form
    ends with no selected file but with [u] as uploaded URL and as its
    [image_url]: the removed image is back.  A following submit, with a
    restaurant resolved, posts nothing more and stores [u]. *)
Theorem remove_during_upload_is_undone (w : World AddMenuItemForm.State) (file : File)
    (u : string) :
  AddMenuItemForm.selectedFile (ui w) = Some file →
  result (AddMenuItemForm.uploadImage (ui w)) w = Returned (Some u) →
  let w1 := run (uploadImage_begin (ui w)) w in
  let w2 := run AddMenuItemForm.removeImage w1 in
  let w3 := run (uploadImage_resume (ui w)) w2 in
  (AddMenuItemForm.isUploading (ui w1) = true
   ∧ AddMenuItemForm.selectedFile (ui w2) = None
   ∧ AddMenuItemForm.uploadedImageUrl (ui w2) = ""
   ∧ AddMenuItemForm.image_url (AddMenuItemForm.form (ui w2)) = "")
  ∧ (AddMenuItemForm.selectedFile (ui w3) = None
     ∧ AddMenuItemForm.uploadedImageUrl (ui w3) = u
     ∧ AddMenuItemForm.image_url (AddMenuItemForm.form (ui w3)) = u
     ∧ AddMenuItemForm.isUploading (ui w3) = false)
  ∧ (AddMenuItemForm.isSubmitting (ui w) = false →
     truthy_opt (resolved_restaurant (ui w)) = true →
     let evs := new_events w3 (run (AddMenuItemForm.perform AddMenuItemForm.ClickSubmit
                                      (ui w3)) w3) in
     fetches evs = []
     ∧ ∃ record, inserted evs = [("menu_items", record)]
                 ∧ record !! "image_url" = Some (VStr u)).
Proof.
  intros Hfile Hup w1 w2 w3.
  assert (truthy u = true
          ∧ ui w2 = AddMenuItemForm.with_form
                      (AddMenuItemForm.with_image_url "" (AddMenuItemForm.form (ui w)))
                      (AddMenuItemForm.with_uploadedImageUrl ""
                         (AddMenuItemForm.with_selectedFile None
                            (AddMenuItemForm.with_uploadProgress 10
                               (AddMenuItemForm.with_isUploading true (ui w)))))
          ∧ ui w3 = AddMenuItemForm.with_uploadProgress 0
                      (AddMenuItemForm.with_isUploading false
                         (AddMenuItemForm.with_form
                            (AddMenuItemForm.with_image_url u (AddMenuItemForm.form (ui w)))
                            (AddMenuItemForm.with_uploadedImageUrl u
                               (AddMenuItemForm.with_uploadProgress 100
                                  (AddMenuItemForm.with_selectedFile None
                                     (AddMenuItemForm.with_isUploading true (ui w)))))))
         ) as (Hu & Hw2 & Hw3).
  { revert Hup. subst w1 w2 w3. unfold result. unfold_uploadImage. unfold_resume.
    unfold AddMenuItemForm.removeImage, AddMenuItemForm.setSelectedFile,
      AddMenuItemForm.setUploadedImageUrl, AddMenuItemForm.form_setValue_image_url.
    rewrite Hfile.
    ugo; intros [= Hu]; subst.
    match goal with H : AddMenuItemForm.accepted_url _ = Some _ |- _ =>
      apply accepted_url_truthy in H end.
    split; [assumption|]. split; reflexivity. }
  clearbody w3 w2. split; [|split].
  - rewrite Hw2. subst w1. unfold uploadImage_begin. rewrite Hfile. done.
  - rewrite Hw3. done.
  - intros Hsub Hrest evs. subst evs. rewrite Hw3. simpl. rewrite Hsub. simpl.
    set (s3 := AddMenuItemForm.with_uploadProgress 0 _) in *.
    destruct (onSubmit_stores_form_url s3 (AddMenuItemForm.form s3) w3) as [Hfetch Hins].
    + assert (AddMenuItemForm.uploadedImageUrl s3 = u) as Hurl by reflexivity.
      unfold inline_upload. by rewrite Hurl, Hu, andb_false_r.
    + exact Hrest.
    + split; [exact Hfetch|]. eexists. split; [exact Hins|]. reflexivity.
Qed.

Lemma remove_during_upload_is_undone_witness :
  AddMenuItemForm.uploadedImageUrl
    (ui (run (uploadImage_resume submit_screen)
           (run AddMenuItemForm.removeImage
              (run (uploadImage_begin submit_screen) submit_world))))
  = "https://iili.io/dish.png".
Proof.
  destruct (remove_during_upload_is_undone submit_world small_png "https://iili.io/dish.png")
    as (_ & (_ & Hurl & _) & _).
  - reflexivity.
  - vm_compute. reflexivity.
  - exact Hurl.
Defined.

(** ** Resolving the tenant *)

Lemma single_profile (db : Database) (uid : string) (p : Row) :
  run_select db "profiles" (Cols ["restaurant_id"]) [Eq "id" uid] None = [p] →
  ∃ profile,
    List.filter (matches [Eq "id" uid]) (table_rows db "profiles") = [profile]
    ∧ profile !! "id" = Some (VStr uid)
    ∧ p !! "restaurant_id" = profile !! "restaurant_id".
Proof.
  unfold run_select. simpl.
  destruct (List.filter _ _) as [|profile [|? ?]] eqn:Hf; try discriminate.
  intros [= <-]. exists profile. split; [done|].
  pose proof (list_elem_of_here profile []) as Hin. rewrite <- Hf in Hin.
  apply list_elem_of_In, filter_In in Hin as [_ Hid%matches_single].
  split; [done|]. unfold project.
  destruct (profile !! "restaurant_id") as [v|] eqn:Hv.
  - apply map_lookup_filter_Some. split; [done|]. simpl. set_solver.
  - apply map_lookup_filter_None. by left.
Qed.

(** X24. The leave screen and the menu form resolve the tenant from the
    acting user's own profile only: when a restaurant is resolved, the
    user is signed in, exactly one stored profile carries that user's id,
    and the restaurant is the one that profile names. *)
Theorem tenant_comes_from_own_profile :
  (∀ (w : World StaffLeaveManager.State) (rid : string),
     result StaffLeaveManager.restaurantId_queryFn w = Returned (Some rid) →
     ∃ uid profile,
       auth_user (env w) = Some uid
       ∧ List.filter (matches [Eq "id" uid]) (table_rows (db w) "profiles") = [profile]
       ∧ profile !! "id" = Some (VStr uid)
       ∧ profile !! "restaurant_id" = Some (VStr rid))
  ∧ (∀ (w : World AddMenuItemForm.State) (p : Row),
       result AddMenuItemForm.userProfile_queryFn w = Returned p →
       ∃ uid profile rid,
         auth_user (env w) = Some uid
         ∧ List.filter (matches [Eq "id" uid]) (table_rows (db w) "profiles") = [profile]
         ∧ profile !! "id" = Some (VStr uid)
         ∧ profile !! "restaurant_id" = Some (VStr rid)
         ∧ p !! "restaurant_id" = Some (VStr rid) ∧ truthy rid = true).
Proof.
  split.
  - intros w rid. unfold result, StaffLeaveManager.restaurantId_queryFn.
    mred. destruct (auth_user _) as [uid|] eqn:Hauth; [|discriminate].
    mgo; intros [= Hrid]; try discriminate.
    match goal with
    | Hsel : run_select _ _ _ _ _ = [_] |- _ =>
        apply single_profile in Hsel as (profile & Hone & Hid & Hsame)
    end.
    exists uid, profile. split_and!; try done.
    rewrite <- Hsame. by destruct (_ !! "restaurant_id") as [[]|]; simplify_eq/=.
  - intros w p. unfold result, AddMenuItemForm.userProfile_queryFn.
    mred. destruct (auth_user _) as [uid|] eqn:Hauth; [|discriminate].
    mgo; intros [= <-]; try discriminate.
    match goal with
    | Hsel : run_select _ _ _ _ _ = [_] |- _ =>
        pose proof Hsel as Hsel'; apply single_profile in Hsel' as (profile & Hone & Hid & Hsame)
    end.
    match goal with
    | Ht : truthy_opt (as_string (?g !! "restaurant_id")) = true |- _ =>
        destruct (g !! "restaurant_id") as [[|rid| |]|] eqn:Hg; simpl in Ht; try discriminate
    end.
    exists uid, profile, rid. split_and!; try done; by rewrite <- Hsame.
Qed.

Lemma tenant_comes_from_own_profile_witness :
  ∃ uid profile rid,
    auth_user (env form_start) = Some uid
    ∧ List.filter (matches [Eq "id" uid]) (table_rows (db form_start) "profiles") = [profile]
    ∧ profile !! "id" = Some (VStr uid)
    ∧ profile !! "restaurant_id" = Some (VStr rid)
    ∧ tenant_profile !! "restaurant_id" = Some (VStr rid) ∧ truthy rid = true.
Proof.
  apply (proj2 tenant_comes_from_own_profile form_start tenant_profile).
  vm_compute. reflexivity.
Defined.

(** ** Instances on the sample data *)

Lemma handleAddLeave_outcomes_witness :
  table_rows (db (run (StaffLeaveManager.handleAddLeave leave_filled) leave_filled_world))
    "staff_leaves"
  = table_rows (db leave_filled_world) "staff_leaves" ++ [leave_record leave_filled].
Proof.
  destruct (proj2 (proj2 (handleAddLeave_outcomes leave_filled leave_filled_world)))
    as (_ & Hrows & _).
  - vm_compute. reflexivity.
  - reflexivity.
  - exact Hrows.
Defined.

Lemma added_leave_is_listed_witness :
  ∃ leave : Row,
    leave ∈ StaffLeaveManager.leaves
              (ui (run (StaffLeaveManager.handleAddLeave leave_filled) leave_filled_world))
    ∧ leave !! "staff_id" = Some (VStr (StaffLeaveManager.selectedStaffId leave_filled))
    ∧ leave !! "start_date" = Some (VStr (StaffLeaveManager.startDate leave_filled))
    ∧ leave !! "end_date" = Some (VStr (StaffLeaveManager.endDate leave_filled))
    ∧ leave !! "reason" = Some (VStr (StaffLeaveManager.reason leave_filled))
    ∧ leave !! "restaurant_id" = Some (VStr "r1")
    ∧ leave !! "status" = Some (VStr "pending").
Proof.
  apply (added_leave_is_listed leave_filled leave_filled_world "r1").
  - vm_compute. reflexivity.
  - reflexivity.
  - intros req. reflexivity.
Defined.

Lemma uploadImage_posts_at_most_once_witness :
  requests (new_events upload_world (run (AddMenuItemForm.uploadImage upload_screen)
                                         upload_world)) = [].
Proof.
  apply (uploadImage_posts_at_most_once upload_screen upload_world small_png).
  reflexivity.
Defined.

Lemma onSubmit_inserts_form_fields_witness :
  ∃ record,
    inserted (new_events plain_world
                (run (AddMenuItemForm.onSubmit plain_screen AddMenuItemForm.defaultValues)
                     plain_world))
    = [("menu_items", record)]
    ∧ dom record = menu_columns
    ∧ record !! "name" = Some (VStr (AddMenuItemForm.name AddMenuItemForm.defaultValues))
    ∧ record !! "description"
      = Some (VStr (AddMenuItemForm.description AddMenuItemForm.defaultValues))
    ∧ record !! "category"
      = Some (VStr (AddMenuItemForm.category AddMenuItemForm.defaultValues))
    ∧ record !! "price" = Some (VNumText (AddMenuItemForm.price AddMenuItemForm.defaultValues))
    ∧ record !! "restaurant_id" = Some (VStr "r1")
    ∧ record !! "is_available" = Some (VBool true).
Proof.
  apply (onSubmit_inserts_form_fields plain_screen AddMenuItemForm.defaultValues plain_world
           "r1").
  - vm_compute. reflexivity.
  - reflexivity.
Defined.

Lemma onSubmit_skips_upload_witness :
  fetches (new_events plain_world
             (run (AddMenuItemForm.onSubmit plain_screen AddMenuItemForm.defaultValues)
                  plain_world)) = [].
Proof.
  destruct (proj1 onSubmit_skips_upload plain_screen AddMenuItemForm.defaultValues plain_world)
    as [Hfetch _].
  - vm_compute. reflexivity.
  - vm_compute. reflexivity.
  - exact Hfetch.
Defined.
